(** * Rejection-email dashboard: a shallow embedding of
      [version10-email-only-copy.py] and the properties of its helpers.

    The script wraps a CRM REST API and an SMTP client.  Its helper
    functions work on values produced by [json.load] / [response.json()],
    so the embedding starts with a type of Python values, then gives each
    helper as an executable Rocq function that follows the source line by
    line.  Exceptions are explicit ([result]), module-level globals and
    the Streamlit session are an explicit [world], and the remote services
    (CRM, SMTP server, file system, clock) are oracles passed as
    arguments. *)

From Stdlib Require Import ZArith String Ascii List DecimalString Lia.
From stdpp Require Import gmap strings list fin_maps.

Set Warnings "-register-all".
Open Scope Z_scope.

(** ** Python values

    The values a JSON document decodes to.  A [dict] keeps its items in
    insertion order, as Python does, each key once; lookups take the
    first item with the key.  Strings are UTF-8 texts, one [ascii] per
    byte.  JSON numbers with a fractional part are not part of [pyval]:
    every numeric field the helpers read (identifiers, timestamps) is an
    integer in the CRM's payloads.  The two date helpers are followed at
    float arguments too; their argument type adds floats to [pyval]
    (see [pyobject] below). *)

Inductive pyval : Type :=
| PNone
| PBool (b : bool)
| PInt (n : Z)
| PStr (s : string)
| PList (items : list pyval)
| PDict (items : list (string * pyval)).

Abbreviation dict := (list (string * pyval)).

(** ** Strings *)

Module Str.

Definition is_upper (c : ascii) : bool :=
  let n := N_of_ascii c in ((65 <=? n) && (n <=? 90))%N.

Definition is_lower (c : ascii) : bool :=
  let n := N_of_ascii c in ((97 <=? n) && (n <=? 122))%N.

Definition lower_char (c : ascii) : ascii :=
  if is_upper c then ascii_of_N (N_of_ascii c + 32) else c.

Definition upper_char (c : ascii) : ascii :=
  if is_lower c then ascii_of_N (N_of_ascii c - 32) else c.

(** [s.lower()] on ASCII text: the letters A to Z are folded, every
    other byte is kept.  On text with other characters Python folds
    those too, so what is proved of case-insensitive matching of texts
    that are not fixed here assumes them ASCII. *)
Fixpoint lower (s : string) : string :=
  match s with
  | EmptyString => EmptyString
  | String c s' => String (lower_char c) (lower s')
  end.

(** [s.capitalize()] on ASCII text: first character upper-cased, the
    rest lower-cased. *)
Definition capitalize (s : string) : string :=
  match s with
  | EmptyString => EmptyString
  | String c s' => String (upper_char c) (lower s')
  end.

(** [needle in s]. *)
Fixpoint contains (needle s : string) : bool :=
  String.prefix needle s ||
  match s with
  | EmptyString => false
  | String _ s' => contains needle s'
  end.

(** [sep.join(parts)]. *)
Fixpoint join (sep : string) (parts : list string) : string :=
  match parts with
  | [] => EmptyString
  | [p] => p
  | p :: rest => p +:+ sep +:+ join sep rest
  end.

(** [s.split(sep)] for a one-character separator: never empty. *)
Fixpoint split (sep : ascii) (s : string) : list string :=
  match s with
  | EmptyString => [EmptyString]
  | String c s' =>
      if Ascii.eqb c sep then EmptyString :: split sep s'
      else match split sep s' with
           | [] => [String c EmptyString]
           | p :: ps => String c p :: ps
           end
  end.

(** [s[:-1]]: all but the last character, which for ASCII text is the
    last byte. *)
Definition drop_last (s : string) : string :=
  String.substring 0 (String.length s - 1) s.

(** [s.replace(old, new)] for a non-empty [old]: every occurrence,
    left to right, without overlaps.  [skip] counts the characters of
    the occurrence just replaced that are still to be passed over. *)
Fixpoint replace_from (old new : string) (skip : nat) (s : string) : string :=
  match s with
  | EmptyString => EmptyString
  | String c s' =>
      match skip with
      | S k => replace_from old new k s'
      | O =>
          if String.prefix old s
          then new +:+ replace_from old new (String.length old - 1) s'
          else String c (replace_from old new O s')
      end
  end.

Definition replace (old new s : string) : string := replace_from old new O s.

(** [str(n)] for an integer. *)
Definition of_Z (n : Z) : string := NilEmpty.string_of_int (Z.to_int n).

Definition chars (s : string) : list string :=
  map (fun c => String c EmptyString) (list_ascii_of_string s).

End Str.

(** ** Built-ins on values *)

(** [bool(v)]. *)
Definition truthy (v : pyval) : bool :=
  match v with
  | PNone => false
  | PBool b => b
  | PInt n => negb (n =? 0)
  | PStr s => negb (String.eqb s "")
  | PList l => match l with [] => false | _ => true end
  | PDict d => match d with [] => false | _ => true end
  end.

(** [key in d]/[d[key]]: the first item with the key. *)
Fixpoint dict_lookup (d : dict) (key : string) : option pyval :=
  match d with
  | [] => None
  | (k, v) :: rest => if String.eqb k key then Some v else dict_lookup rest key
  end.

(** [d.get(key, dflt)]. *)
Definition dict_get (d : dict) (key : string) (dflt : pyval) : pyval :=
  default dflt (dict_lookup d key).

(** [repr(s)] for a string: single quotes unless the text has a single
    quote and no double quote; backslash, the quote and control characters
    escaped.  Bytes above 127 (UTF-8 text) are kept. *)
Module Repr.

Definition hex_digit (n : N) : ascii :=
  if (n <? 10)%N then ascii_of_N (48 + n) else ascii_of_N (87 + n).

Definition escape_char (quote c : ascii) : string :=
  let n := N_of_ascii c in
  if Ascii.eqb c quote || Ascii.eqb c "\"%char
  then String "\"%char (String c EmptyString)
  else if (n =? 9)%N then "\t"
  else if (n =? 10)%N then "\n"
  else if (n =? 13)%N then "\r"
  else if ((n <? 32) || (n =? 127))%N
  then String "\"%char (String "x"%char
         (String (hex_digit (n / 16)) (String (hex_digit (n mod 16)) EmptyString)))
  else String c EmptyString.

Fixpoint escape (quote : ascii) (s : string) : string :=
  match s with
  | EmptyString => EmptyString
  | String c s' => escape_char quote c +:+ escape quote s'
  end.

Definition single : ascii := "'"%char.
Definition double : ascii := ascii_of_N 34.

Definition of_string (s : string) : string :=
  let quote :=
    if Str.contains (String single EmptyString) s
       && negb (Str.contains (String double EmptyString) s)
    then double else single in
  String quote (escape quote s) +:+ String quote EmptyString.

End Repr.

(** [repr(v)], and [str(v)], which differs on strings only. *)
Fixpoint py_repr (v : pyval) : string :=
  match v with
  | PNone => "None"
  | PBool true => "True"
  | PBool false => "False"
  | PInt n => Str.of_Z n
  | PStr s => Repr.of_string s
  | PList l => "[" +:+ Str.join ", " (map py_repr l) +:+ "]"
  | PDict d =>
      "{" +:+ Str.join ", "
        (map (fun kv => match kv with
                        | (k, x) => Repr.of_string k +:+ ": " +:+ py_repr x
                        end) d) +:+ "}"
  end.

Definition py_str (v : pyval) : string :=
  match v with
  | PStr s => s
  | _ => py_repr v
  end.

(** [v == s] for a string [s]: only an equal string compares equal. *)
Definition eq_str (v : pyval) (s : string) : bool :=
  match v with
  | PStr s' => String.eqb s' s
  | _ => false
  end.

(** ** Custom-field extraction ([get_custom_field]) *)

(** The value taken from a matching field: [computed_value] when the key
    is there (a list joined with [", "]), else [value], else [""]. *)
Definition field_result (field : dict) : pyval :=
  match dict_lookup field "computed_value" with
  | Some computed_value =>
      match computed_value with
      | PList items => PStr (Str.join ", " (map py_str items))
      | _ => computed_value
      end
  | None => dict_get field "value" (PStr "")
  end.

(** The [for field in custom_fields] loop; [None] when it runs to the end
    without returning. *)
Fixpoint scan_custom_fields (custom_fields : list pyval) (field_name : string)
  : option pyval :=
  match custom_fields with
  | [] => None
  | field :: rest =>
      match field with
      | PDict f =>
          if eq_str (dict_get f "name" PNone) field_name
          then Some (field_result f)
          else scan_custom_fields rest field_name
      | _ => scan_custom_fields rest field_name
      end
  end.

Definition get_custom_field (lead_details : dict) (field_name : string) : pyval :=
  let custom_fields := dict_get lead_details "custom_fields" (PList []) in
  if negb (truthy custom_fields) then PStr ""
  else
    match custom_fields with
    | PList l => default (PStr "") (scan_custom_fields l field_name)
    | PDict d => dict_get d field_name (PStr "")
    | _ => PStr ""
    end.

(** ** Exceptions

    The exception classes the helpers can meet, all below [Exception]:
    the built-in ones a wrongly typed value raises, and those of
    [smtplib], whose hierarchy is kept because [send_email] orders its
    handlers by it. *)

Inductive exn_class : Type :=
| Exception
| TypeError
| AttributeError
| ValueError
| OverflowError
| OSError
| SMTPException
| SMTPServerDisconnected
| SMTPNotSupportedError
| SMTPRecipientsRefused
| SMTPResponseException
| SMTPSenderRefused
| SMTPDataError
| SMTPConnectError
| SMTPHeloError
| SMTPAuthenticationError.

#[global] Instance exn_class_eq_dec : EqDecision exn_class.
Proof. solve_decision. Defined.

(** The direct base class. *)
Definition base_class (c : exn_class) : option exn_class :=
  match c with
  | Exception => None
  | TypeError | AttributeError | ValueError | OSError => Some Exception
  | OverflowError => Some Exception
  | SMTPException => Some OSError
  | SMTPServerDisconnected | SMTPNotSupportedError
  | SMTPRecipientsRefused | SMTPResponseException => Some SMTPException
  | SMTPSenderRefused | SMTPDataError | SMTPConnectError
  | SMTPHeloError | SMTPAuthenticationError => Some SMTPResponseException
  end.

Fixpoint subclass_within (depth : nat) (c k : exn_class) : bool :=
  bool_decide (c = k) ||
  match depth with
  | O => false
  | S d =>
      match base_class c with
      | Some b => subclass_within d b k
      | None => false
      end
  end.

(** [issubclass(c, k)]; no class is more than four steps below the root. *)
Definition issubclass (c k : exn_class) : bool := subclass_within 4 c k.

Record exn : Type := { exn_class_of : exn_class; exn_str : string }.

Definition isinstance (e : exn) (k : exn_class) : bool :=
  issubclass (exn_class_of e) k.

Inductive result (A : Type) : Type :=
| Ok (a : A)
| Raise (e : exn).
Arguments Ok {A} a.
Arguments Raise {A} e.

#[global] Instance result_ret : MRet result := fun A a => Ok a.
#[global] Instance result_bind : MBind result := fun A B f m =>
  match m with
  | Ok a => f a
  | Raise e => Raise e
  end.

Definition raise {A : Type} (c : exn_class) (msg : string) : result A :=
  Raise {| exn_class_of := c; exn_str := msg |}.

(** [iter(v)]: the items a [for] loop or [any] goes through. *)
Definition iterate (v : pyval) : result (list pyval) :=
  match v with
  | PList l => Ok l
  | PStr s => Ok (map PStr (Str.chars s))
  | PDict d => Ok (map (fun kv => PStr (fst kv)) d)
  | _ => raise TypeError "object is not iterable"
  end.

(** [v.lower()], a method of strings only. *)
Definition str_lower (v : pyval) : result string :=
  match v with
  | PStr s => Ok (Str.lower s)
  | _ => raise AttributeError "object has no attribute 'lower'"
  end.

(** [v.split(sep)]. *)
Definition str_split (v : pyval) (sep : ascii) : result (list string) :=
  match v with
  | PStr s => Ok (Str.split sep s)
  | _ => raise AttributeError "object has no attribute 'split'"
  end.

(** [v.replace(old, new)]: [v] must be a string, and so must [new]. *)
Definition str_replace (v : pyval) (old : string) (new : pyval) : result string :=
  match v with
  | PStr s =>
      match new with
      | PStr n => Ok (Str.replace old n s)
      | _ => raise TypeError "replace() argument 2 must be str"
      end
  | _ => raise AttributeError "object has no attribute 'replace'"
  end.

(** ** Lead-source classification ([get_lead_source]) *)

(** [any("form" in tag.lower() for tag in tags)], stopping at the first
    hit as [any] does. *)
Fixpoint any_form_tag (tags : list pyval) : result bool :=
  match tags with
  | [] => Ok false
  | tag :: rest =>
      low ← str_lower tag;
      if Str.contains "form" low then Ok true else any_form_tag rest
  end.

(** [sum(1 for field in custom_fields
          if isinstance(field, dict) and field.get("value"))]. *)
Definition is_filled (field : pyval) : bool :=
  match field with
  | PDict f => truthy (dict_get f "value" PNone)
  | _ => false
  end.

Definition filled_fields (custom_fields : list pyval) : Z :=
  Z.of_nat (List.length (filter (fun field => is_filled field = true) custom_fields)).

Definition form_indicator_fields : list string :=
  ["Revenue Model"; "Last year's revenue"; "Number of full time employees"].

Definition FORM_SUBMISSION : string := "Form Submission".
Definition MANUALLY_ADDED : string := "Manually Added".

Definition get_lead_source (lead_details : dict) : result string :=
  let tags := dict_get lead_details "tags" (PList []) in
  tag_items ← iterate tags;
  tagged ← any_form_tag tag_items;
  if (tagged : bool) then Ok FORM_SUBMISSION else
  let source := dict_get lead_details "source" (PDict []) in
  from_source ←
    match source with
    | PDict src =>
        if truthy (dict_get src "name" PNone) then
          source_name ← str_lower (dict_get src "name" (PStr ""));
          Ok (Str.contains "form" source_name
              || Str.contains "website" source_name
              || Str.contains "submission" source_name)
        else Ok false
    | _ => Ok false
    end;
  if (from_source : bool) then Ok FORM_SUBMISSION else
  let source_info := get_custom_field lead_details "Source" in
  from_info ←
    (if truthy source_info then
       low ← str_lower source_info;
       Ok (Str.contains "form" low || Str.contains "website" low)
     else Ok false);
  if (from_info : bool) then Ok FORM_SUBMISSION else
  let custom_fields := dict_get lead_details "custom_fields" (PList []) in
  let many_filled :=
    match custom_fields with
    | PList l =>
        if 5 <? Z.of_nat (List.length l) then 5 <? filled_fields l else false
    | _ => false
    end in
  if many_filled then Ok FORM_SUBMISSION else
  if existsb (fun field => truthy (get_custom_field lead_details field))
       form_indicator_fields
  then Ok FORM_SUBMISSION
  else Ok MANUALLY_ADDED.

(** ** Sender name and email body ([get_sender_name],
       [generate_rejection_email]) *)

(** [try: body except: fallback] with a bare [except]. *)
Definition try_except_all {A : Type} (body : result A) (fallback : A) : A :=
  match body with
  | Ok a => a
  | Raise _ => fallback
  end.

Definition get_sender_name (email : pyval) : string :=
  try_except_all
    (parts ← str_split email "@"%char;
     let local_part := hd EmptyString parts in
     let first_name :=
       if (1 <? String.length local_part)%nat
       then Str.drop_last local_part else local_part in
     Ok (Str.capitalize first_name))
    "Active Impact".

(** The line feed of Python's ["\n"]. *)
Definition nl : string := String (ascii_of_N 10) EmptyString.

(** [EMAIL_TEMPLATES.get(...)]: a method of dicts only. *)
Definition as_dict (v : pyval) : result dict :=
  match v with
  | PDict d => Ok d
  | _ => raise AttributeError "object has no attribute 'get'"
  end.

(** Returns the body as [PStr], or [PNone] where the source returns
    [None].  [EMAIL_TEMPLATES] is whatever [json.load] gave (or the
    defaults) and [EMAIL_ADDRESS] the configured sender address. *)
Definition generate_rejection_email
    (EMAIL_TEMPLATES : pyval) (EMAIL_ADDRESS : string)
    (lead_data : dict) (template_type : string) : pyval :=
  try_except_all
    (templates ← as_dict EMAIL_TEMPLATES;
     let template :=
       dict_get templates template_type
         (dict_get templates "standard" (PStr "")) in
     if negb (truthy template) then Ok PNone else
     let sender_name := get_sender_name (PStr EMAIL_ADDRESS) in
     c1 ← str_replace template "{lead_name}"
            (dict_get lead_data "name" (PStr ""));
     c2 ← str_replace (PStr c1) "{company_name}"
            (dict_get lead_data "company_name" (PStr ""));
     c3 ← str_replace (PStr c2) "{sender_name}" (PStr sender_name);
     Ok (PStr (c3 +:+ nl +:+ nl +:+ "Warmly," +:+ nl +:+ sender_name)))
    PNone.

(** ** Loading the templates (module level, lines 78-103) *)

(** [here] is [os.path.join(os.path.dirname(__file__), "email_templates.json")]. *)
Definition possible_paths (here : string) : list string :=
  ["email_templates.json"; here;
   "/mount/src/rejection-automation/email_templates.json"].

Definition DEFAULT_TEMPLATE : string :=
  "Hi {first_name}," +:+ nl +:+ nl
  +:+ "Thanks so much for reaching out to Active Impact!" +:+ nl +:+ nl
  +:+ "Thank you for your interest in our fund, but we've decided to pass on this opportunity."
  +:+ nl +:+ nl +:+ "Warmly,".

Definition DEFAULT_TEMPLATES : pyval :=
  PDict [("general"%string, PStr DEFAULT_TEMPLATE)].

(** Whether [len(v)] returns: a string, a list and a dict have a length,
    [None], a [bool] and an [int] raise [TypeError]. *)
Definition has_len (v : pyval) : bool :=
  match v with
  | PStr _ | PList _ | PDict _ => true
  | _ => false
  end.

(** The [for path in possible_paths] loop.  [read_json path] is the
    outcome of [open(path)] followed by [json.load]: [None] when either
    raises.  What a file holds is assigned to [EMAIL_TEMPLATES] first;
    the log line that follows takes its [len] inside the same [try], so
    a file that holds [null], a number or a boolean leaves its value in
    [EMAIL_TEMPLATES] and the loop goes on to the next path.  The first
    file whose content has a length ends the loop. *)
Fixpoint load_first (read_json : string -> option pyval) (paths : list string)
    (EMAIL_TEMPLATES : pyval) : pyval :=
  match paths with
  | [] => EMAIL_TEMPLATES
  | path :: rest =>
      match read_json path with
      | Some loaded =>
          if has_len loaded then loaded
          else load_first read_json rest loaded
      | None => load_first read_json rest EMAIL_TEMPLATES
      end
  end.

Definition load_email_templates (read_json : string -> option pyval)
    (here : string) : pyval :=
  let EMAIL_TEMPLATES := load_first read_json (possible_paths here) (PDict []) in
  if negb (truthy EMAIL_TEMPLATES) then DEFAULT_TEMPLATES else EMAIL_TEMPLATES.

(** ** Sending ([send_email])

    The SMTP session is a sequence of calls into [smtplib] and the
    [email] package, each of which may raise.  [smtp_env] gives the
    outcome of each call ([None]: it returns); the function logs the calls
    it makes on the server, so that what was attempted, and how many times,
    can be read off the result. *)

Record smtp_env : Type := {
  on_compose : option exn;     (* MIMEMultipart(), headers, attach(MIMEText) *)
  on_connect : option exn;     (* smtplib.SMTP(SMTP_SERVER, SMTP_PORT) *)
  on_starttls : option exn;    (* server.starttls() *)
  on_login : option exn;       (* server.login(...) *)
  on_as_string : option exn;   (* msg.as_string() *)
  on_sendmail : option exn;    (* server.sendmail(...) *)
  on_quit : option exn         (* server.quit() *)
}.

Inductive smtp_call : Type :=
| Connect
| StartTLS
| Login (user : string)
| SendMail (sender : string) (recipients : list pyval)
| Quit.

(** A computation that logs SMTP calls and may raise. *)
Definition smtp (A : Type) : Type := list smtp_call -> list smtp_call * result A.

#[global] Instance smtp_ret : MRet smtp := fun A a log => (log, Ok a).
#[global] Instance smtp_bind : MBind smtp := fun A B f m log =>
  match m log with
  | (log', Ok a) => f a log'
  | (log', Raise e) => (log', Raise e)
  end.

(** A step with no call on the server. *)
Definition local_step (outcome : option exn) : smtp unit := fun log =>
  match outcome with
  | None => (log, Ok tt)
  | Some e => (log, Raise e)
  end.

(** A call on the server: logged whether it returns or raises. *)
Definition server_call (c : smtp_call) (outcome : option exn) : smtp unit :=
  fun log =>
    match outcome with
    | None => (log ++ [c], Ok tt)
    | Some e => (log ++ [c], Raise e)
    end.

(** [try: body except K1 as e: h1(e) except K2 as e: h2(e) ...]: the first
    handler whose class the exception is an instance of; none: it
    propagates. *)
Fixpoint handle {A : Type} (handlers : list (exn_class * (exn -> A))) (e : exn)
  : result A :=
  match handlers with
  | [] => Raise e
  | (k, h) :: rest => if isinstance e k then Ok (h e) else handle rest e
  end.

Definition try_except {A : Type} (body : smtp A)
    (handlers : list (exn_class * (exn -> A))) : smtp A := fun log =>
  match body log with
  | (log', Ok a) => (log', Ok a)
  | (log', Raise e) => (log', handle handlers e)
  end.

Definition GMAIL_AUTH_HELP : string :=
  "Authentication failed with Gmail. This is likely because:" +:+ nl
  +:+ "1. You need to use an App Password instead of your regular password" +:+ nl
  +:+ "2. Your account has 2-factor authentication enabled which requires an App Password" +:+ nl
  +:+ "3. Your password may be incorrect" +:+ nl +:+ nl
  +:+ "To create an App Password:" +:+ nl
  +:+ "1. Go to your Google Account settings" +:+ nl
  +:+ "2. Search for 'App Passwords'" +:+ nl
  +:+ "3. Generate a new app password for 'Mail'" +:+ nl
  +:+ "4. Use that password in your Streamlit secrets".

Definition send_email_handlers : list (exn_class * (exn -> bool * string)) :=
  [ (SMTPAuthenticationError, fun e =>
       (false,
        if Str.contains "535" (exn_str e) then GMAIL_AUTH_HELP
        else "Authentication failed: " +:+ exn_str e
             +:+ ". Please check your email credentials."));
    (SMTPSenderRefused, fun e =>
       (false, "Sender refused: " +:+ exn_str e
               +:+ ". This may be due to restrictions on your Gmail account."));
    (SMTPRecipientsRefused, fun e =>
       (false, "Recipient(s) refused: " +:+ exn_str e
               +:+ ". Please check the recipient email address."));
    (SMTPException, fun e => (false, "SMTP error: " +:+ exn_str e));
    (Exception, fun e => (false, "Failed to send email: " +:+ exn_str e)) ].

Definition NOT_CONFIGURED : string :=
  "Email credentials not configured. Please check your Streamlit secrets.".
Definition NO_RECIPIENT : string := "No recipient email provided".
Definition SENT : string := "Email sent successfully!".

Definition send_email (EMAIL_ADDRESS EMAIL_PASSWORD : string) (env : smtp_env)
    (recipient_email subject body cc_email : pyval) : smtp (bool * string) :=
  if String.eqb EMAIL_ADDRESS "" || String.eqb EMAIL_PASSWORD ""
  then mret (false, NOT_CONFIGURED)
  else if negb (truthy recipient_email)
  then mret (false, NO_RECIPIENT)
  else
    try_except
      (local_step (on_compose env);;
       server_call Connect (on_connect env);;
       server_call StartTLS (on_starttls env);;
       server_call (Login EMAIL_ADDRESS) (on_login env);;
       local_step (on_as_string env);;
       let recipients :=
         if truthy cc_email then [recipient_email; cc_email]
         else [recipient_email] in
       server_call (SendMail EMAIL_ADDRESS recipients) (on_sendmail env);;
       server_call Quit (on_quit env);;
       mret (true, SENT))
      send_email_handlers.

(** ** Floats

    A JSON number written with a fraction or an exponent decodes to a
    [float], an IEEE 754 double: a number [m * 2^e] with [|m| < 2^53]
    and [-1074 <= e <= 971], an infinity, or a NaN.  [pyval] leaves
    floats out; the two date helpers are studied at float arguments as
    well, so their argument is a [pyobject]: a [pyval] or a [float].
    [Finite m e] stands for the number [m * 2^e] whatever [m] and [e]
    are (the two zeros are not told apart: no operation below does). *)

Inductive float : Type :=
| Finite (m e : Z)
| Infinity (negative : bool)
| NaN.

Inductive pyobject : Type :=
| Val (v : pyval)
| PFloat (x : float).

Coercion Val : pyval >-> pyobject.

(** What arithmetic sees of an object: an [int] (a [bool] is one) or a
    [float]. *)
Inductive number : Type :=
| Int (n : Z)
| Float (x : float).

Definition of_number (t : number) : pyobject :=
  match t with
  | Int n => Val (PInt n)
  | Float x => PFloat x
  end.

(** The integer nearest to [num / den], ties to the even one
    ([den > 0]). *)
Definition round_half_even (num den : Z) : Z :=
  let q := num / den in
  let r := num mod den in
  if 2 * r <? den then q
  else if den <? 2 * r then q + 1
  else if Z.even q then q else q + 1.

(** The [k] with [2^k <= num / den < 2^(k+1)] ([num > 0], [den > 0]). *)
Definition floor_log2 (num den : Z) : Z :=
  let k := Z.log2 num - Z.log2 den in
  if (if 0 <=? k then den * 2 ^ k <=? num else den <=? num * 2 ^ (- k))
  then k else k - 1.

(** The double nearest to [num / den], ties to the even mantissa
    ([den > 0]): 53 bits of mantissa, fewer below [2^-1022], and an
    infinity from [2^1024] on.  This is what [/] and [*] return on the
    exact quotient and product. *)
Definition nearest_double (num den : Z) : float :=
  if num =? 0 then Finite 0 0
  else
    let a := Z.abs num in
    let e := Z.max (floor_log2 a den - 52) (-1074) in
    let m := if 0 <=? e then round_half_even a (den * 2 ^ e)
             else round_half_even (a * 2 ^ (- e)) den in
    if 1024 <=? Z.log2 m + e then Infinity (num <? 0)
    else Finite (Z.sgn num * m) e.

(** [bool(x)] for a float. *)
Definition float_is_zero (x : float) : bool :=
  match x with
  | Finite m _ => m =? 0
  | _ => false
  end.

Definition object_truthy (o : pyobject) : bool :=
  match o with
  | Val v => truthy v
  | PFloat x => negb (float_is_zero x)
  end.

(** [t > k] for an integer [k]: Python compares an [int] and a [float]
    exactly. *)
Definition gt_int (t : number) (k : Z) : bool :=
  match t with
  | Int n => k <? n
  | Float (Finite m e) =>
      if 0 <=? e then k <? m * 2 ^ e else k * 2 ^ (- e) <? m
  | Float (Infinity negative) => negb negative
  | Float NaN => false
  end.

(** ** Dates ([format_date], [days_in_copper])

    Instants are counted in microseconds since the epoch, the resolution
    of [datetime].  Both [datetime.fromtimestamp] and [datetime.now]
    give naive local datetimes: a datetime is the wall-clock reading in
    microseconds since 1970-01-01 00:00:00 on the local clock, and
    [utcoffset s] is the number of seconds local time is ahead of UTC at
    epoch second [s]. *)

Definition MILLIS_THRESHOLD : Z := 1000000000000.
Definition US_PER_SECOND : Z := 1000000.
Definition US_PER_DAY : Z := 86400000000.

(** 0001-01-01 00:00:00 and 9999-12-31 23:59:59.999999, the range of
    [datetime]. *)
Definition MIN_WALL : Z := -62135596800 * US_PER_SECOND.
Definition MAX_WALL : Z := 253402300800 * US_PER_SECOND - 1.

(** The integer timestamp [n] read as seconds. *)
Definition seconds (n : Z) : Z := n * US_PER_SECOND.

(** The number [timestamp > 1000000000000] compares; anything but an
    [int], a [bool] or a [float] raises in the comparison. *)
Definition as_number (v : pyval) : result Z :=
  match v with
  | PInt n => Ok n
  | PBool b => Ok (if b then 1 else 0)
  | _ => raise TypeError "'>' not supported"
  end.

Definition number_of (o : pyobject) : result number :=
  match o with
  | Val v => n ← as_number v; Ok (Int n)
  | PFloat x => Ok (Float x)
  end.

(** [t / d] for an integer [d > 0]: a float, the double nearest to the
    quotient; between two [int]s a quotient too large for a double
    raises. *)
Definition true_divide (t : number) (d : Z) : result number :=
  match t with
  | Int n =>
      match nearest_double n d with
      | Infinity _ =>
          raise OverflowError "integer division result too large for a float"
      | q => Ok (Float q)
      end
  | Float (Finite m e) =>
      Ok (Float (if 0 <=? e then nearest_double (m * 2 ^ e) d
                 else nearest_double m (d * 2 ^ (- e))))
  | Float x => Ok (Float x)
  end.

Definition time_t_range (s : Z) : bool := (- 2 ^ 63 <=? s) && (s <? 2 ^ 63).

(** [_PyTime_RoundHalfEven]: the integer nearest to a finite float,
    ties to the even one. *)
Definition round_float (x : float) : Z :=
  match x with
  | Finite m e =>
      if 0 <=? e then m * 2 ^ e else round_half_even m (2 ^ (- e))
  | _ => 0
  end.

(** How [datetime.fromtimestamp] reads its argument: the second (a
    [time_t]) and the microsecond within it.  An [int] is a whole
    second.  A [float] is split by [modf] into its integral part and its
    fraction, both with its sign; the fraction is multiplied by [1e6] (a
    float product), rounded half to even, and a result of a million or
    below zero carries into the second. *)
Definition timeval (t : number) : result (Z * Z) :=
  match t with
  | Int n =>
      if time_t_range n then Ok (n, 0)
      else raise OverflowError "timestamp out of range for platform time_t"
  | Float NaN => raise ValueError "Invalid value NaN (not a number)"
  | Float (Infinity _) =>
      raise OverflowError "timestamp out of range for platform time_t"
  | Float (Finite m e) =>
      let intpart := if 0 <=? e then m * 2 ^ e else Z.quot m (2 ^ (- e)) in
      let floatpart :=
        if 0 <=? e then Finite 0 0
        else nearest_double (Z.rem m (2 ^ (- e)) * 1000000) (2 ^ (- e)) in
      let rounded := round_float floatpart in
      let '(sec, us) :=
        if 1000000 <=? rounded then (intpart + 1, rounded - 1000000)
        else if rounded <? 0 then (intpart - 1, rounded + 1000000)
        else (intpart, rounded) in
      if time_t_range sec then Ok (sec, us)
      else raise OverflowError "timestamp out of range for platform time_t"
  end.

Module Civil.

(** Year, month and day of a day count since 1970-01-01 (proleptic
    Gregorian calendar). *)
Definition of_days (days : Z) : Z * Z * Z :=
  let z := days + 719468 in
  let era := z / 146097 in
  let doe := z - era * 146097 in
  let yoe := (doe - doe / 1460 + doe / 36524 - doe / 146096) / 365 in
  let doy := doe - (365 * yoe + yoe / 4 - yoe / 100) in
  let mp := (5 * doy + 2) / 153 in
  let d := doy - (153 * mp + 2) / 5 + 1 in
  let m := if mp <? 10 then mp + 3 else mp - 9 in
  let y := yoe + era * 400 + (if m <=? 2 then 1 else 0) in
  (y, m, d).

Fixpoint zeros (n : nat) : string :=
  match n with
  | O => EmptyString
  | S k => String "0"%char (zeros k)
  end.

(** A non-negative number on at least [width] digits. *)
Definition pad (width : nat) (n : Z) : string :=
  let s := Str.of_Z n in
  zeros (width - String.length s) +:+ s.

End Civil.

(** [dt.strftime('%Y-%m-%d %H:%M:%S')], as the C library formats it for
    CPython 3.11 on Linux: the year without padding, the other fields
    on two digits. *)
Definition strftime (dt : Z) : string :=
  let secs := dt / US_PER_SECOND in
  let '(y, m, d) := Civil.of_days (secs / 86400) in
  let sod := secs mod 86400 in
  Str.of_Z y +:+ "-" +:+ Civil.pad 2 m +:+ "-" +:+ Civil.pad 2 d +:+ " "
  +:+ Civil.pad 2 (sod / 3600) +:+ ":" +:+ Civil.pad 2 (sod mod 3600 / 60)
  +:+ ":" +:+ Civil.pad 2 (sod mod 60).

Definition max_fold_seconds : Z := 86400.

Section Clock.

Variable utcoffset : Z -> Z.

(** [local(u)] of the datetime module: the reading of the local clock
    at epoch second [u], in seconds; it raises when the year is not
    between 1 and 9999. *)
Definition local (u : Z) : result Z :=
  let reading := u + utcoffset u in
  if (MIN_WALL <=? reading * US_PER_SECOND)
     && (reading * US_PER_SECOND <=? MAX_WALL)
  then Ok reading
  else raise ValueError "year is out of range".

(** [datetime_from_timet_and_us]: the naive local datetime of a second
    and a microsecond.  To tell a repeated hour it also reads the clock
    one day earlier and, when the clock was set back in between, that
    much before the second; each reading can raise. *)
Definition datetime_from_timet_and_us (timet us : Z) : result Z :=
  result_seconds ← local timet;
  probe_seconds ← local (timet - max_fold_seconds);
  let transition := result_seconds - probe_seconds - max_fold_seconds in
  _ ← (if transition <? 0 then local (timet + transition) else Ok 0);
  Ok (result_seconds * US_PER_SECOND + us).

(** [datetime.fromtimestamp(t)]. *)
Definition fromtimestamp (t : number) : result Z :=
  tv ← timeval t;
  datetime_from_timet_and_us tv.1 tv.2.

(** [datetime.now()] at the instant [now]. *)
Definition datetime_now (now : Z) : result Z :=
  datetime_from_timet_and_us (now / US_PER_SECOND) (now mod US_PER_SECOND).

(** [if timestamp > 1000000000000: timestamp = timestamp / 1000]. *)
Definition to_seconds (t : number) : result number :=
  if gt_int t MILLIS_THRESHOLD then true_divide t 1000 else Ok t.

Definition format_date (timestamp : pyobject) : string :=
  if negb (object_truthy timestamp) then "Unknown date"
  else
    try_except_all
      (t ← number_of timestamp;
       t ← to_seconds t;
       dt ← fromtimestamp t;
       Ok (strftime dt))
      "Date format error".

(** [now] is the instant the clock shows when [datetime.now()] runs. *)
Definition days_in_copper (now : Z) (timestamp : pyobject) : pyval :=
  if negb (object_truthy timestamp) then PStr "Unknown"
  else
    try_except_all
      (t ← number_of timestamp;
       t ← to_seconds t;
       created_date ← fromtimestamp t;
       current_date ← datetime_now now;
       let days := (current_date - created_date) / US_PER_DAY in
       Ok (PInt days))
      (PStr "Unknown").

End Clock.

(** ** The process state and the CRM

    [LEAD_DETAILS_CACHE] and [FIELD_DEFINITIONS_CACHE] are the module's
    globals, [session_state] is [st.session_state].  [requests_sent] logs
    every [requests.get] the process issues and [errors_shown] every
    [st.error].  The CRM is an oracle: [crm n r] is what the [n]-th
    request of the process gets when it is [r], an exception when the
    transport fails. *)

Inductive request : Type :=
| LeadDetails (lead_id : Z)
| CustomFieldDefinitions.

Record response : Type := {
  status_code : Z;
  json : result pyval;    (* response.json(): raises on a body that is not JSON *)
  text : string
}.

Record world : Type := {
  LEAD_DETAILS_CACHE : gmap Z pyval;
  FIELD_DEFINITIONS_CACHE : option (list (pyval * pyval));
  session_state : gmap string pyval;
  requests_sent : list request;
  errors_shown : list string
}.

Definition crm_oracle : Type := nat -> request -> result response.

Definition send_request (w : world) (r : request) : world :=
  {| LEAD_DETAILS_CACHE := LEAD_DETAILS_CACHE w;
     FIELD_DEFINITIONS_CACHE := FIELD_DEFINITIONS_CACHE w;
     session_state := session_state w;
     requests_sent := requests_sent w ++ [r];
     errors_shown := errors_shown w |}.

Definition st_error (w : world) (msg : string) : world :=
  {| LEAD_DETAILS_CACHE := LEAD_DETAILS_CACHE w;
     FIELD_DEFINITIONS_CACHE := FIELD_DEFINITIONS_CACHE w;
     session_state := session_state w;
     requests_sent := requests_sent w;
     errors_shown := errors_shown w ++ [msg] |}.

Definition set_lead_details (w : world) (lead_id : Z) (v : pyval) : world :=
  {| LEAD_DETAILS_CACHE := <[lead_id := v]> (LEAD_DETAILS_CACHE w);
     FIELD_DEFINITIONS_CACHE := FIELD_DEFINITIONS_CACHE w;
     session_state := session_state w;
     requests_sent := requests_sent w;
     errors_shown := errors_shown w |}.

Definition set_field_definitions (w : world) (m : list (pyval * pyval)) : world :=
  {| LEAD_DETAILS_CACHE := LEAD_DETAILS_CACHE w;
     FIELD_DEFINITIONS_CACHE := Some m;
     session_state := session_state w;
     requests_sent := requests_sent w;
     errors_shown := errors_shown w |}.

(** Keys of a Python dict built at run time: hashable values, compared
    with [==] ([True == 1]). *)
Definition hashable (v : pyval) : bool :=
  match v with
  | PList _ | PDict _ => false
  | _ => true
  end.

Definition key_eqb (a b : pyval) : bool :=
  match a, b with
  | PNone, PNone => true
  | PStr x, PStr y => String.eqb x y
  | (PInt _ | PBool _), (PInt _ | PBool _) =>
      match as_number a, as_number b with
      | Ok x, Ok y => x =? y
      | _, _ => false
      end
  | _, _ => false
  end.

(** [m[k] = v]. *)
Fixpoint setitem (m : list (pyval * pyval)) (k v : pyval) : list (pyval * pyval) :=
  match m with
  | [] => [(k, v)]
  | (k', v') :: rest =>
      if key_eqb k' k then (k', v) :: rest else (k', v') :: setitem rest k v
  end.

(** The loop that fills [definition_map]. *)
Fixpoint build_definition_map (definitions : list pyval)
    (definition_map : list (pyval * pyval)) : result (list (pyval * pyval)) :=
  match definitions with
  | [] => Ok definition_map
  | definition :: rest =>
      d ← as_dict definition;
      let id := dict_get d "id" PNone in
      if hashable id
      then build_definition_map rest
             (setitem definition_map id (dict_get d "name" PNone))
      else raise TypeError "unhashable type"
  end.

Section CRM.

Variable crm : crm_oracle.

Definition fetch_custom_field_definitions (w : world)
  : world * result (list (pyval * pyval)) :=
  match FIELD_DEFINITIONS_CACHE w with
  | Some cached => (w, Ok cached)
  | None =>
      let w1 := send_request w CustomFieldDefinitions in
      match crm (List.length (requests_sent w)) CustomFieldDefinitions with
      | Raise e => (w1, Raise e)
      | Ok response =>
          if status_code response =? 200 then
            match (definitions ← json response;
                   items ← iterate definitions;
                   build_definition_map items []) with
            | Ok definition_map =>
                (set_field_definitions w1 definition_map, Ok definition_map)
            | Raise e => (w1, Raise e)
            end
          else
            (st_error w1 ("Error fetching custom field definitions: "
                          +:+ text response), Ok [])
      end
  end.

Definition fetch_lead_details (lead_id : Z) (w : world)
  : world * result pyval :=
  match LEAD_DETAILS_CACHE w !! lead_id with
  | Some cached => (w, Ok cached)
  | None =>
      let w1 := send_request w (LeadDetails lead_id) in
      match crm (List.length (requests_sent w)) (LeadDetails lead_id) with
      | Raise e => (w1, Raise e)
      | Ok response =>
          if status_code response =? 200 then
            match json response with
            | Ok lead_details =>
                (set_lead_details w1 lead_id lead_details, Ok lead_details)
            | Raise e => (w1, Raise e)
            end
          else
            (st_error w1 ("Error fetching lead details: " +:+ text response),
             Ok (PDict []))
      end
  end.

End CRM.

(** ** The session and the refresh button ([main]) *)




(** Lines 633-639: the body of [if st.button("Refresh Leads")], up to
    [st.rerun()], which starts the next run of the script. *)
Definition refresh_leads (w : world) : world :=
  {| LEAD_DETAILS_CACHE := ∅;
     FIELD_DEFINITIONS_CACHE := FIELD_DEFINITIONS_CACHE w;
     session_state := delete "email_cache" (session_state w);
     requests_sent := requests_sent w;
     errors_shown := errors_shown w |}.



(** Lines 105-107 and a fresh session: the state a process starts in. *)
Definition initial_world : world :=
  {| LEAD_DETAILS_CACHE := ∅;
     FIELD_DEFINITIONS_CACHE := None;
     session_state := ∅;
     requests_sent := [];
     errors_shown := [] |}.

(** * The rest of the dashboard and the command-line scripts *)

(** ** Recipient address ([get_email_from_lead], lines 281-299) *)

(** The [for email in emails] loop; [None] when it ends without
    returning. *)
Fixpoint first_listed_email (emails : list pyval) : option pyval :=
  match emails with
  | [] => None
  | email :: rest =>
      match email with
      | PDict e =>
          match dict_lookup e "email" with
          | Some address => Some address
          | None => first_listed_email rest
          end
      | _ => first_listed_email rest
      end
  end.

Definition get_email_from_lead (lead_details : dict) : pyval :=
  let email_obj := dict_get lead_details "email" (PDict []) in
  match (match email_obj with
         | PDict e => dict_lookup e "email"
         | _ => None
         end) with
  | Some address => address
  | None =>
      let emails := dict_get lead_details "emails" (PList []) in
      match (if truthy emails then
               match emails with
               | PList l =>
                   if (0 <? List.length l)%nat then first_listed_email l
                   else None
               | _ => None
               end
             else None) with
      | Some address => address
      | None =>
          let contact_info := dict_get lead_details "contact_info" (PDict []) in
          match contact_info with
          | PDict c =>
              match dict_lookup c "email" with
              | Some address => address
              | None => PStr ""
              end
          | _ => PStr ""
          end
      end
  end.

(** ** Form data ([has_form_data], lines 452-462) *)

Definition is_none (v : pyval) : bool :=
  match v with
  | PNone => true
  | _ => false
  end.

(** The [for field in custom_fields] loop. *)
Fixpoint any_field_with_value (fields : list pyval) : bool :=
  match fields with
  | [] => false
  | field :: rest =>
      match field with
      | PDict f =>
          if negb (is_none (dict_get f "value" PNone))
             && negb (eq_str (dict_get f "value" PNone) "")
          then true
          else any_field_with_value rest
      | _ => any_field_with_value rest
      end
  end.

Definition has_form_data (lead_details : dict) : result bool :=
  let custom_fields := dict_get lead_details "custom_fields" (PList []) in
  if negb (truthy custom_fields) then Ok false
  else
    fields ← iterate custom_fields;
    Ok (any_field_with_value fields).

(** ** Testing the mail connection ([test_email_connection],
       lines 110-133) *)

Definition CONNECTION_OK : string := "Email connection successful!".

Definition test_email_connection_handlers
  : list (exn_class * (exn -> bool * string)) :=
  [ (SMTPAuthenticationError, fun e =>
       (false, "Authentication failed: " +:+ exn_str e));
    (Exception, fun e => (false, "Connection failed: " +:+ exn_str e)) ].

Definition test_email_connection (EMAIL_ADDRESS EMAIL_PASSWORD : string)
    (env : smtp_env) : smtp (bool * string) :=
  if String.eqb EMAIL_ADDRESS "" || String.eqb EMAIL_PASSWORD ""
  then mret (false, NOT_CONFIGURED)
  else
    try_except
      (server_call Connect (on_connect env);;
       server_call StartTLS (on_starttls env);;
       server_call (Login EMAIL_ADDRESS) (on_login env);;
       server_call Quit (on_quit env);;
       mret (true, CONNECTION_OK))
      test_email_connection_handlers.

(** ** The Send Email button ([main], lines 1025-1056)

    What the page shows ([st.error], [st.success], [st.info]) is a list
    of messages.  The button is drawn for a lead that is in
    [st.session_state.selected_leads] (line 954).  Pressing it first
    opens a session of its own to check the connection, with its own
    answers from the server ([check_env]), then calls [send_email]. *)

Inductive ui_message : Type :=
| StError (text : string)
| StSuccess (text : string)
| StInfo (text : string).

Definition NO_RECIPIENT_FOR_LEAD : string :=
  "No recipient email address found for this lead.".
Definition ZAPIER_NOTE : string :=
  "Zapier will now automatically convert the lead to an opportunity in the Pass 'General' stage.".
Definition CHECK_LOGS : string :=
  "Please check the logs for more details on the error.".

Definition send_button (EMAIL_ADDRESS EMAIL_PASSWORD : string)
    (check_env send_env : smtp_env) (lead_id : Z) (recipient_email : pyval)
    (edited_subject edited_content cc_email : string)
    (selected_leads : gmap Z pyval)
  : smtp (list ui_message * gmap Z pyval) :=
  match selected_leads !! lead_id with
  | None => mret ([], selected_leads)
  | Some _ =>
      if negb (truthy recipient_email)
      then mret ([StError NO_RECIPIENT_FOR_LEAD], selected_leads)
      else if String.eqb EMAIL_ADDRESS "" || String.eqb EMAIL_PASSWORD ""
      then mret ([StError NOT_CONFIGURED], selected_leads)
      else
        try_except
          (server_call Connect (on_connect check_env);;
           server_call StartTLS (on_starttls check_env);;
           server_call (Login EMAIL_ADDRESS) (on_login check_env);;
           server_call Quit (on_quit check_env);;
           sent ← send_email EMAIL_ADDRESS EMAIL_PASSWORD send_env
                    recipient_email (PStr edited_subject)
                    (PStr edited_content) (PStr cc_email);
           if (sent.1 : bool) then
             mret ([StSuccess ("Email sent to " +:+ py_str recipient_email
                               +:+ "!")]
                   ++ (if truthy (PStr cc_email)
                       then [StSuccess ("CC'd to " +:+ cc_email)] else [])
                   ++ [StInfo ZAPIER_NOTE],
                   delete lead_id selected_leads)
           else
             mret ([StError sent.2; StInfo CHECK_LOGS], selected_leads))
          [ (Exception, fun e =>
               ([StError ("Failed to connect to email server: " +:+ exn_str e)],
                selected_leads)) ]
  end.

(** ** The head of a lead's panel ([main], lines 743-774)

    What the page writes when a lead's expander is opened: the details
    are fetched (or taken from the cache), then the two columns are
    filled.  [days] is the age computed from the lead of the list
    (line 731) and [has_form_icon] the icon computed before the
    expander was drawn (lines 734-738). *)
Definition or_default (v : pyval) (dflt : string) : pyval :=
  if truthy v then v else PStr dflt.

Definition lead_panel_head (utcoffset : Z -> Z) (crm : crm_oracle)
    (lead_id : Z) (days : pyval) (has_form_icon : string) (w : world)
  : world * result (list string) :=
  let '(w1, fetched) := fetch_lead_details crm lead_id w in
  (w1,
   details ← fetched;
   lead_details ← as_dict details;
   _ ← (if String.eqb has_form_icon "" then has_form_data lead_details
        else Ok false);
   source ← get_lead_source lead_details;
   let source_class :=
     if String.eqb source FORM_SUBMISSION then "form-submission"
     else "manual-entry" in
   let recipient_email := get_email_from_lead lead_details in
   Ok ([ "**Name:** " +:+ py_str (dict_get lead_details "name" (PStr "Unknown"));
         "**Company:** "
           +:+ py_str (dict_get lead_details "company_name"
                         (PStr "Unknown Company"));
         "**Created:** "
           +:+ format_date utcoffset (dict_get lead_details "date_created" PNone);
         "**Days in Copper:** <span class='days-in-copper'>" +:+ py_str days
           +:+ "</span>";
         "**Source:** <span class='" +:+ source_class +:+ "'>" +:+ source
           +:+ "</span>";
         "**Email:** " +:+ py_str (or_default recipient_email "No email provided") ]
       ++ (if truthy (dict_get lead_details "phone_number" PNone)
           then ["**Phone:** "
                 +:+ py_str (dict_get lead_details "phone_number" PNone)]
           else [])
       ++ (if truthy (dict_get lead_details "website" PNone)
           then ["**Website:** "
                 +:+ py_str (dict_get lead_details "website" PNone)]
           else []))).

(** ** Listing the leads ([fetch_leads], lines 136-165)

    The outcome of the one [requests.get] the function makes: an
    answer, a [requests.exceptions.RequestException], or any other
    exception; [str_e] is [str(e)]. *)
Inductive http_outcome : Type :=
| Answered (r : response)
| RequestFailed (str_e : string)
| OtherFailure (str_e : string).

Definition error_result (message : string) : pyval :=
  PDict [("error"%string, PStr message)].

(** Both handlers return [{"error": str(e)}]; an exception of
    [response.json()] ends in one of them as well. *)
Definition fetch_leads (get : http_outcome) : pyval :=
  match get with
  | Answered response =>
      if status_code response =? 401 then error_result "authentication error"
      else if negb (status_code response =? 200)
      then error_result ("API error: " +:+ Str.of_Z (status_code response))
      else match json response with
           | Ok leads => leads
           | Raise e => error_result (exn_str e)
           end
  | RequestFailed str_e => error_result str_e
  | OtherFailure str_e => error_result str_e
  end.

(** ** Checking the CRM credentials ([verify_copper_config],
       lines 465-495)

    The first component counts the requests made. *)
Definition COPPER_NOT_CONFIGURED : string :=
  "Copper API credentials not configured. Please check your Streamlit secrets.".
Definition COPPER_VERIFIED : string :=
  "Copper API configuration verified successfully!".

Definition verify_copper_config (COPPER_API_TOKEN COPPER_EMAIL : string)
    (get : http_outcome) : nat * (bool * string) :=
  if String.eqb COPPER_API_TOKEN "" || String.eqb COPPER_EMAIL ""
  then (O, (false, COPPER_NOT_CONFIGURED))
  else
    (1%nat,
     match get with
     | Answered response =>
         if status_code response =? 401
         then (false,
               "Authentication failed with Copper API. Please check your API token and email.")
         else if negb (status_code response =? 200)
         then (false, "API error: " +:+ Str.of_Z (status_code response)
                      +:+ ". Please check your API configuration.")
         else (true, COPPER_VERIFIED)
     | RequestFailed str_e => (false, "Connection error: " +:+ str_e)
     | OtherFailure str_e => (false, "Unexpected error: " +:+ str_e)
     end).

(** ** The list of leads on the page ([main], lines 641-662) *)

(** The condition of the list comprehension, for one lead. *)
Definition lead_matches (search_query : string) (lead : pyval) : result bool :=
  d ← as_dict lead;
  name ← str_lower (dict_get d "name" (PStr ""));
  if Str.contains (Str.lower search_query) name then Ok true
  else
    company ← str_lower (dict_get d "company_name" (PStr ""));
    Ok (Str.contains (Str.lower search_query) company).

Fixpoint filter_leads (search_query : string) (leads : list pyval)
  : result (list pyval) :=
  match leads with
  | [] => Ok []
  | lead :: rest =>
      keep ← lead_matches search_query lead;
      filtered ← filter_leads search_query rest;
      Ok (if (keep : bool) then lead :: filtered else filtered)
  end.

Inductive leads_page : Type :=
| ErrorShown (text : string)
| WarningShown (text : string)
| LeadsShown (filtered_leads : list pyval).

Definition NO_LEADS : string := "No leads found in Copper CRM.".

Definition leads_page_of (leads_result : pyval) (search_query : string)
  : result leads_page :=
  match (match leads_result with
         | PDict d => dict_lookup d "error"
         | _ => None
         end) with
  | Some error =>
      Ok (ErrorShown ("Error fetching leads from Copper: " +:+ py_str error))
  | None =>
      let leads := match leads_result with PList l => l | _ => [] end in
      if negb (truthy (PList leads)) then Ok (WarningShown NO_LEADS)
      else
        filtered_leads ←
          (if truthy (PStr search_query) then filter_leads search_query leads
           else Ok leads);
        Ok (LeadsShown filtered_leads)
  end.

(** ** The form details of a lead ([main], lines 803-880) *)

(** [k in m] / [m[k]] for a dict built at run time. *)
Fixpoint getitem (m : list (pyval * pyval)) (k : pyval) : option pyval :=
  match m with
  | [] => None
  | (k', v) :: rest => if key_eqb k' k then Some v else getitem rest k
  end.

(** Lines 805-821: the values of the custom fields by definition id.
    The value kept is computed as in [get_custom_field]. *)
Fixpoint fill_field_by_id (fields : list pyval)
    (field_by_id : list (pyval * pyval)) : result (list (pyval * pyval)) :=
  match fields with
  | [] => Ok field_by_id
  | field :: rest =>
      match field with
      | PDict f =>
          let field_def_id := dict_get f "custom_field_definition_id" PNone in
          if truthy field_def_id then
            if hashable field_def_id
            then fill_field_by_id rest
                   (setitem field_by_id field_def_id (field_result f))
            else raise TypeError "unhashable type"
          else fill_field_by_id rest field_by_id
      | _ => fill_field_by_id rest field_by_id
      end
  end.

Definition build_field_by_id (lead_details : dict)
  : result (list (pyval * pyval)) :=
  fields ← iterate (dict_get lead_details "custom_fields" (PList []));
  fill_field_by_id fields [].

(** Lines 670-690 and 693-721. *)
Definition field_id_mapping : list (string * Z) :=
  [ ("Number of full time employees"%string, 328938);
    ("How did you hear about us?"%string, 328940);
    ("Year Founded"%string, 328941);
    ("Revenue Model"%string, 328943);
    ("Last year's revenue"%string, 328937);
    ("Amount raised to date"%string, 328950);
    ("Target size of current raise"%string, 328951);
    ("Link to your investor deck"%string, 328958);
    ("Last three months' revenue"%string, 328944);
    ("Value of new sales signed last month"%string, 328946);
    ("Specific environmental impact"%string, 328942);
    ("Number of paid customers"%string, 328945);
    ("Cash on hand"%string, 328948);
    ("Brief Company Description"%string, 328956);
    ("Monthly net burn"%string, 328947);
    ("Most impressive points"%string, 328954);
    ("Competitors"%string, 328949);
    ("Most likely exit and timing"%string, 328957);
    ("Biggest concerns"%string, 328953) ].

Definition field_order : list string :=
  [ "First Name"; "Last Name"; "Company Name"; "Website"; "Email";
    "HQ Address"; "Country"; "Address Line 1"; "Address Line 2"; "City";
    "Province"; "Postal Code"; "Year Founded"; "Brief Company Description";
    "How did you hear about us?"; "Specific environmental impact";
    "Revenue Model"; "Last year's revenue"; "Last three months' revenue";
    "Value of new sales signed last month"; "Number of full time employees";
    "Number of paid customers"; "Cash on hand"; "Monthly net burn";
    "Amount raised to date"; "Target size of current raise";
    "Link to your investor deck" ]%string.

Definition STANDARD_FIELDS : list string :=
  [ "First Name"; "Last Name"; "Company Name"; "Website"; "Email";
    "HQ Address"; "Country"; "Address Line 1"; "Address Line 2"; "City";
    "Province"; "Postal Code" ]%string.

Definition ADDRESS_FIELDS : list string :=
  [ "HQ Address"; "Country"; "Address Line 1"; "Address Line 2"; "City";
    "Province"; "Postal Code" ]%string.

Definition NOT_PROVIDED : string := "Not provided".

Definition name_in (field_name : string) (names : list string) : bool :=
  existsb (String.eqb field_name) names.

Fixpoint lookup_field_id (mapping : list (string * Z)) (field_name : string)
  : option Z :=
  match mapping with
  | [] => None
  | (name, id) :: rest =>
      if String.eqb name field_name then Some id
      else lookup_field_id rest field_name
  end.

(** [len(v)]. *)
Definition py_len (v : pyval) : result Z :=
  match v with
  | PList l => Ok (Z.of_nat (List.length l))
  | PDict d => Ok (Z.of_nat (List.length d))
  | PStr s => Ok (Z.of_nat (String.length s))
  | _ => raise TypeError "object has no len()"
  end.

(** [v[0]]; a dict has string keys here, so [0] is never one of them
    ([KeyError], below [Exception]). *)
Definition first_item (v : pyval) : result pyval :=
  match v with
  | PList (x :: _) => Ok x
  | PList [] => raise Exception "list index out of range"
  | PStr (String c _) => Ok (PStr (String c EmptyString))
  | PStr EmptyString => raise Exception "string index out of range"
  | PDict _ => raise Exception "0"
  | _ => raise TypeError "object is not subscriptable"
  end.

(** [", ".join(parts)]: every part must be a string. *)
Fixpoint strings_of (parts : list pyval) : result (list string) :=
  match parts with
  | [] => Ok []
  | PStr s :: rest => strings ← strings_of rest; Ok (s :: strings)
  | _ :: rest => raise TypeError "sequence item: expected str instance"
  end.

(** [if address.get(key): address_parts.append(address.get(key, ""))]. *)
Definition append_part (address : dict) (key : string)
    (address_parts : list pyval) : list pyval :=
  if truthy (dict_get address key PNone)
  then address_parts ++ [dict_get address key (PStr "")]
  else address_parts.

(** The body of the [for field_name in field_order] loop up to the
    value shown (lines 825-877). *)
Definition form_value (lead_details : dict)
    (field_by_id : list (pyval * pyval)) (field_name : string) : result pyval :=
  value ←
    (if name_in field_name STANDARD_FIELDS then
       if String.eqb field_name "First Name"
       then Ok (dict_get lead_details "first_name" (PStr NOT_PROVIDED))
       else if String.eqb field_name "Last Name"
       then Ok (dict_get lead_details "last_name" (PStr NOT_PROVIDED))
       else if String.eqb field_name "Company Name"
       then Ok (dict_get lead_details "company_name" (PStr NOT_PROVIDED))
       else if String.eqb field_name "Website" then
         let websites := dict_get lead_details "websites" (PList []) in
         if truthy websites then
           n ← py_len websites;
           if 0 <? n then
             first ← first_item websites;
             site ← as_dict first;
             Ok (dict_get site "url" (PStr NOT_PROVIDED))
           else Ok (PStr NOT_PROVIDED)
         else Ok (PStr NOT_PROVIDED)
       else if String.eqb field_name "Email"
       then Ok (or_default (get_email_from_lead lead_details) NOT_PROVIDED)
       else if name_in field_name ADDRESS_FIELDS then
         let address := dict_get lead_details "address" (PDict []) in
         if String.eqb field_name "HQ Address" then
           a ← as_dict address;
           let address_parts :=
             append_part a "country"
               (append_part a "postal_code"
                  (append_part a "state"
                     (append_part a "city" (append_part a "street" [])))) in
           if truthy (PList address_parts) then
             parts ← strings_of address_parts;
             Ok (PStr (Str.join ", " parts))
           else Ok (PStr NOT_PROVIDED)
         else if String.eqb field_name "Country" then
           a ← as_dict address; Ok (dict_get a "country" (PStr NOT_PROVIDED))
         else if String.eqb field_name "Address Line 1" then
           a ← as_dict address; Ok (dict_get a "street" (PStr NOT_PROVIDED))
         else if String.eqb field_name "Address Line 2" then
           Ok (PStr NOT_PROVIDED)
         else if String.eqb field_name "City" then
           a ← as_dict address; Ok (dict_get a "city" (PStr NOT_PROVIDED))
         else if String.eqb field_name "Province" then
           a ← as_dict address; Ok (dict_get a "state" (PStr NOT_PROVIDED))
         else if String.eqb field_name "Postal Code" then
           a ← as_dict address;
           Ok (dict_get a "postal_code" (PStr NOT_PROVIDED))
         else Ok (PStr NOT_PROVIDED)
       else Ok (PStr NOT_PROVIDED)
     else
       match lookup_field_id field_id_mapping field_name with
       | Some field_id =>
           match getitem field_by_id (PInt field_id) with
           | Some v =>
               if negb (is_none v || eq_str v "") then Ok v
               else Ok (PStr NOT_PROVIDED)
           | None => Ok (PStr NOT_PROVIDED)
           end
       | None => Ok (PStr NOT_PROVIDED)
       end);
  Ok (if is_none value || eq_str value "" then PStr NOT_PROVIDED else value).

(** One row of the form (line 880). *)
Definition form_row (field_name : string) (value : pyval) : string :=
  "<p><span class='email-label'>" +:+ field_name +:+ ":</span> "
  +:+ py_str value +:+ "</p>".

Fixpoint form_rows_loop (lead_details : dict)
    (field_by_id : list (pyval * pyval)) (names : list string)
  : result (list string) :=
  match names with
  | [] => Ok []
  | field_name :: rest =>
      value ← form_value lead_details field_by_id field_name;
      rows ← form_rows_loop lead_details field_by_id rest;
      Ok (form_row field_name value :: rows)
  end.

(** Lines 803-880: the rows added to [email_content]. *)
Definition form_rows (lead_details : dict) : result (list string) :=
  field_by_id ← build_field_by_id lead_details;
  form_rows_loop lead_details field_by_id field_order.

(** ** The activity-log script ([allfields.py], [fetch_activity_logs])

    [post] is the outcome of the one [requests.post]; the function
    catches nothing, so what [post], [response.json()] or the loop raise
    propagates.  The first component is what [print] has written, one
    entry per call. *)

(** The line printed for one activity. *)
Definition activity_line (activity : pyval) : result string :=
  a ← as_dict activity;
  parent_for_type ← as_dict (dict_get a "parent" (PDict []));
  parent_for_id ← as_dict (dict_get a "parent" (PDict []));
  Ok ("- Type: " +:+ py_str (dict_get a "type" (PStr "Unknown"))
      +:+ " | Parent Type: "
      +:+ py_str (dict_get parent_for_type "type" (PStr "N/A"))
      +:+ " | Parent ID: "
      +:+ py_str (dict_get parent_for_id "id" (PStr "N/A"))
      +:+ " | Date: "
      +:+ py_str (dict_get a "activity_date" (PStr "Unknown"))).

(** The [for activity in activities] loop. *)
Fixpoint print_activities (activities : list pyval) (printed : list string)
  : list string * result unit :=
  match activities with
  | [] => (printed, Ok tt)
  | activity :: rest =>
      match activity_line activity with
      | Ok line => print_activities rest (printed ++ [line])
      | Raise e => (printed, Raise e)
      end
  end.

Definition fetch_activity_logs (post : result response)
  : list string * result pyval :=
  match post with
  | Raise e => ([], Raise e)
  | Ok response =>
      if status_code response =? 200 then
        match json response with
        | Raise e => ([], Raise e)
        | Ok activities =>
            if negb (truthy activities)
            then (["No recent activities found."%string], Ok (PList []))
            else
              let printed := [nl +:+ "Recent Activity Logs:"] in
              match iterate activities with
              | Raise e => (printed, Raise e)
              | Ok items =>
                  match print_activities items printed with
                  | (printed', Ok _) => (printed', Ok activities)
                  | (printed', Raise e) => (printed', Raise e)
                  end
              end
        end
      else
        (["Error fetching activity logs: " +:+ text response], Ok (PList []))
  end.


(** * Specifications

    The vocabulary of the properties: what the specification says of
    each helper, written from its words, and the sample environments
    the properties are evaluated in. *)

(** ** Custom-field extraction *)

(** What the specification says of one field: the computed value when
    present (a list joined with commas), else the raw value, else the
    empty string. *)
Definition computed_else_raw_else_empty (field : dict) : pyval :=
  match dict_lookup field "computed_value", dict_lookup field "value" with
  | Some (PList items), _ => PStr (Str.join ", " (map py_str items))
  | Some computed, _ => computed
  | None, Some raw => raw
  | None, None => PStr ""
  end.

(** A field dict whose ["name"] is the name asked for. *)
Definition is_named (field_name : string) (field : pyval) : bool :=
  match field with
  | PDict f =>
      match dict_lookup f "name" with
      | Some (PStr s) => String.eqb s field_name
      | _ => false
      end
  | _ => false
  end.

(** The specification of [get_custom_field], by the shape of the
    container: absent, a list of field dicts matched by name, a mapping
    from name to value, anything else. *)
Definition get_custom_field_spec (lead_details : dict) (field_name : string)
  : pyval :=
  match dict_lookup lead_details "custom_fields" with
  | None => PStr ""
  | Some (PList fields) =>
      match find (is_named field_name) fields with
      | Some (PDict f) => computed_else_raw_else_empty f
      | _ => PStr ""
      end
  | Some (PDict mapping) =>
      match dict_lookup mapping field_name with
      | Some v => v
      | None => PStr ""
      end
  | Some _ => PStr ""
  end.

(** ** Sender name *)

(** A string without its final character. *)
Fixpoint without_last (s : string) : string :=
  match s with
  | EmptyString => EmptyString
  | String c EmptyString => EmptyString
  | String c s' => String c (without_last s')
  end.

Definition is_string (v : pyval) : bool :=
  match v with
  | PStr _ => true
  | _ => false
  end.

(** A text of ASCII characters only. *)
Fixpoint is_ascii (s : string) : bool :=
  match s with
  | EmptyString => true
  | String c s' => (N_of_ascii c <? 128)%N && is_ascii s'
  end.

(** ** Lead-source classification *)

(** The three conditions the specification names. *)
Definition tag_mentions_form (tag : pyval) : bool :=
  match tag with
  | PStr s => Str.contains "form" (Str.lower s)
  | _ => false
  end.

Definition some_tag_has_form (lead_details : dict) : bool :=
  match dict_lookup lead_details "tags" with
  | Some (PList tags) => existsb tag_mentions_form tags
  | _ => false
  end.

Definition source_name_mentions (lead_details : dict) : bool :=
  match dict_lookup lead_details "source" with
  | Some (PDict src) =>
      match dict_lookup src "name" with
      | Some (PStr s) =>
          Str.contains "form" (Str.lower s)
          || Str.contains "website" (Str.lower s)
          || Str.contains "submission" (Str.lower s)
      | _ => false
      end
  | _ => false
  end.

Definition populated_fields (lead_details : dict) : Z :=
  match dict_lookup lead_details "custom_fields" with
  | Some (PList fields) => filled_fields fields
  | _ => 0
  end.

Definition claimed_form_submission (lead_details : dict) : bool :=
  some_tag_has_form lead_details
  || source_name_mentions lead_details
  || (5 <? populated_fields lead_details).

(** The two further tests of the code: the custom field ["Source"], and
    the three fields a submitted form fills. *)
Definition source_field_mentions (lead_details : dict) : bool :=
  match get_custom_field lead_details "Source" with
  | PStr s =>
      Str.contains "form" (Str.lower s) || Str.contains "website" (Str.lower s)
  | _ => false
  end.

Definition has_form_indicator_field (lead_details : dict) : bool :=
  existsb (fun field => truthy (get_custom_field lead_details field))
    form_indicator_fields.

(** Leads as the CRM sends them: tags are a list of strings, the name
    of the source and the custom field ["Source"] are text or empty. *)
Definition text_or_empty (v : pyval) : bool := is_string v || negb (truthy v).

Definition lead_well_typed (lead_details : dict) : bool :=
  match dict_lookup lead_details "tags" with
  | None => true
  | Some (PList tags) => forallb is_string tags
  | Some _ => false
  end
  && match dict_lookup lead_details "source" with
     | Some (PDict src) =>
         match dict_lookup src "name" with
         | Some v => text_or_empty v
         | None => true
         end
     | _ => true
     end
  && text_or_empty (get_custom_field lead_details "Source").

(** ** Email bodies and the built-in templates *)

(** No template file can be read. *)
Definition no_template_file (path : string) : option pyval := None.

Definition absent_or_string (d : dict) (key : string) : bool :=
  match dict_lookup d key with
  | None => true
  | Some v => is_string v
  end.

(** ** Timestamps *)

(** The exact value of a finite number: the fraction [num / den], with
    [den > 0]. *)
Definition fraction (t : number) : option (Z * Z) :=
  match t with
  | Int n => Some (n, 1)
  | Float (Finite m e) =>
      Some (if 0 <=? e then (m * 2 ^ e, 1) else (m, 2 ^ (- e)))
  | Float _ => None
  end.

(** The instant a timestamp [num / den] names, in microseconds and over
    the same denominator: the timestamp counts milliseconds when it is
    above [10^12], seconds otherwise. *)
Definition microseconds (num den : Z) : Z :=
  if 1000000000000 * den <? num then num * 1000 else num * 1000000.

(** [t == 0] and [t > k] on exact values. *)
Definition is_zero (t : number) : bool :=
  match fraction t with
  | Some (num, _) => num =? 0
  | None => false
  end.

Definition exceeds (t : number) (k : Z) : bool :=
  match fraction t with
  | Some (num, den) => k * den <? num
  | None =>
      match t with
      | Float (Infinity false) => true
      | _ => false
      end
  end.

(** [t / 1000] as Python computes it: the float nearest to the quotient
    (an infinity when the quotient is beyond the doubles, where the
    division of an [int] raises; no datetime is made of either). *)
Definition quotient_1000 (t : number) : number :=
  match fraction t with
  | Some (num, den) => Float (nearest_double num (1000 * den))
  | None => t
  end.

Section TimestampsSpec.

Variable utcoffset : Z -> Z.

(** The local wall-clock reading at an instant, and whether its year is
    between 1 and 9999. *)
Definition local_reading (instant : Z) : Z :=
  instant + utcoffset (instant / US_PER_SECOND) * US_PER_SECOND.

Definition representable (instant : Z) : bool :=
  (MIN_WALL <=? local_reading instant) && (local_reading instant <=? MAX_WALL).

(** What [datetime] asks of an instant before it makes a local datetime
    of it: the local clock shows a year between 1 and 9999 at the
    instant and one day before it and, when the clock was set back
    during that day, that much before the instant as well. *)
Definition clock_set_back (second : Z) : Z :=
  utcoffset (second - 86400) - utcoffset second.

Definition convertible (instant : Z) : bool :=
  let second := instant / US_PER_SECOND in
  representable instant
  && representable (seconds (second - 86400))
  && ((clock_set_back second <=? 0)
      || representable (seconds (second - clock_set_back second))).

(** The age shown for a lead created at the instant [created]: the days
    between the two readings of the local clock, rounded down. *)
Definition whole_days (now created : Z) : pyval :=
  if convertible created && convertible now
  then PInt ((local_reading now - local_reading created) / US_PER_DAY)
  else PStr "Unknown".

(** What the two functions make of a number of seconds once the unit is
    settled. *)
Definition formatted (t : number) : string :=
  match fromtimestamp utcoffset t with
  | Ok dt => strftime dt
  | Raise _ => "Date format error"
  end.

Definition age (now : Z) (t : number) : pyval :=
  match fromtimestamp utcoffset t, datetime_now utcoffset now with
  | Ok created, Ok current => PInt ((current - created) / US_PER_DAY)
  | _, _ => PStr "Unknown"
  end.

End TimestampsSpec.

(** Sample clocks: UTC, and a zone that moves from UTC to UTC+1 at epoch
    second 1700040000. *)
Definition utc (second : Z) : Z := 0.

Definition one_hour_ahead_from_1700040000 (second : Z) : Z :=
  if second <? 1700040000 then 0 else 3600.

(** ** Sending *)

(** The handler an exception ends in, by its class. *)
Definition caught_as (e : exn) : exn_class :=
  match exn_class_of e with
  | SMTPAuthenticationError => SMTPAuthenticationError
  | SMTPSenderRefused => SMTPSenderRefused
  | SMTPRecipientsRefused => SMTPRecipientsRefused
  | SMTPException | SMTPServerDisconnected | SMTPNotSupportedError
  | SMTPResponseException | SMTPDataError | SMTPConnectError
  | SMTPHeloError => SMTPException
  | _ => Exception
  end.

Definition failure_message (e : exn) : string :=
  match caught_as e with
  | SMTPAuthenticationError =>
      if Str.contains "535" (exn_str e) then GMAIL_AUTH_HELP
      else "Authentication failed: " +:+ exn_str e
           +:+ ". Please check your email credentials."
  | SMTPSenderRefused =>
      "Sender refused: " +:+ exn_str e
      +:+ ". This may be due to restrictions on your Gmail account."
  | SMTPRecipientsRefused =>
      "Recipient(s) refused: " +:+ exn_str e
      +:+ ". Please check the recipient email address."
  | SMTPException => "SMTP error: " +:+ exn_str e
  | _ => "Failed to send email: " +:+ exn_str e
  end.

(** The steps of one attempt, in order: the call made on the server, if
    any, and what the environment answers. *)
Definition steps (EMAIL_ADDRESS : string) (recipients : list pyval)
    (env : smtp_env) : list (option smtp_call * option exn) :=
  [ (None, on_compose env);
    (Some Connect, on_connect env);
    (Some StartTLS, on_starttls env);
    (Some (Login EMAIL_ADDRESS), on_login env);
    (None, on_as_string env);
    (Some (SendMail EMAIL_ADDRESS recipients), on_sendmail env);
    (Some Quit, on_quit env) ].

Fixpoint first_failure (run : list (option smtp_call * option exn)) : option exn :=
  match run with
  | [] => None
  | (_, Some e) :: _ => Some e
  | (_, None) :: rest => first_failure rest
  end.

(** The calls made up to the first step that raises, that one included. *)
Fixpoint calls_until_failure (run : list (option smtp_call * option exn))
  : list smtp_call :=
  match run with
  | [] => []
  | (call, outcome) :: rest =>
      match call with Some c => [c] | None => [] end
      ++ match outcome with
         | Some _ => []
         | None => calls_until_failure rest
         end
  end.

(** One full session: each call once. *)
Definition session (EMAIL_ADDRESS : string) (recipients : list pyval)
  : list smtp_call :=
  [Connect; StartTLS; Login EMAIL_ADDRESS; SendMail EMAIL_ADDRESS recipients; Quit].

Definition head2 (s : string) : string := String.substring 0 2 s.

Definition smtp_all_fine : smtp_env :=
  {| on_compose := None; on_connect := None; on_starttls := None;
     on_login := None; on_as_string := None; on_sendmail := None;
     on_quit := None |}.

Definition smtp_login_refused : smtp_env :=
  {| on_compose := None; on_connect := None; on_starttls := None;
     on_login := Some {| exn_class_of := SMTPAuthenticationError;
                         exn_str := "(535, b'5.7.8 Username and Password not accepted')" |};
     on_as_string := None; on_sendmail := None; on_quit := None |}.

(** ** The caches *)

Definition is_definition (v : pyval) : bool :=
  match v with
  | PDict d => hashable (dict_get d "id" PNone)
  | _ => false
  end.

Section CachingSpec.

Variable crm : crm_oracle.

(** The [n]-th request of the process was [r] and the CRM answered it
    with status 200 and the JSON body [body]. *)
Definition fetched_200 (w : world) (r : request) (body : pyval) : Prop :=
  exists (n : nat) (resp : response),
    requests_sent w !! n = Some r
    /\ crm n r = Ok resp
    /\ status_code resp = 200
    /\ json resp = Ok body.

(** Both caches hold nothing but what a 200 answer carried. *)
Definition caches_sound (w : world) : Prop :=
  (forall (lead_id : Z) (v : pyval),
      LEAD_DETAILS_CACHE w !! lead_id = Some v ->
      fetched_200 w (LeadDetails lead_id) v)
  /\ (forall m : list (pyval * pyval),
        FIELD_DEFINITIONS_CACHE w = Some m ->
        exists (body : pyval) (items : list pyval),
          fetched_200 w CustomFieldDefinitions body
          /\ iterate body = Ok items
          /\ build_definition_map items [] = Ok m).

End CachingSpec.

(** A CRM that knows lead 42 and nothing else. *)
Definition lead_42 : pyval :=
  PDict [("id"%string, PInt 42); ("name"%string, PStr "Ann Lee")].

Definition crm_with_lead_42 : crm_oracle := fun n r =>
  match r with
  | LeadDetails 42 =>
      Ok {| status_code := 200; json := Ok lead_42; text := "{...}" |}
  | _ =>
      Ok {| status_code := 404;
            json := Ok (PDict [("message"%string, PStr "Resource not found")]);
            text := "Resource not found" |}
  end.

(** ** Email bodies, continued *)

(** The signature block appended to every body. *)
Definition signature (EMAIL_ADDRESS : string) : string :=
  nl +:+ nl +:+ "Warmly," +:+ nl +:+ get_sender_name (PStr EMAIL_ADDRESS).

(** A text without an opening brace: no placeholder starts in it. *)
Fixpoint brace_free (s : string) : bool :=
  match s with
  | EmptyString => true
  | String c s' => negb (Ascii.eqb c "{") && brace_free s'
  end.

(** A placeholder: an opening brace and more. *)
Definition is_placeholder (old : string) : bool :=
  match old with
  | String c _ => Ascii.eqb c "{"
  | EmptyString => false
  end.

(** ** Recipient address *)

Definition has_address (entry : pyval) : bool :=
  match entry with
  | PDict e =>
      match dict_lookup e "email" with
      | Some _ => true
      | None => false
      end
  | _ => false
  end.

(** The address of a dict that has one. *)
Definition address_of (entry : pyval) : option pyval :=
  match entry with
  | PDict e => dict_lookup e "email"
  | _ => None
  end.

(** The three places an address is looked for, in the order of the
    source: the lead's own email object, the first entry of [emails]
    that has an address, the contact information. *)
Definition primary_address (lead_details : dict) : option pyval :=
  match dict_lookup lead_details "email" with
  | Some entry => address_of entry
  | None => None
  end.

Definition listed_address (lead_details : dict) : option pyval :=
  match dict_lookup lead_details "emails" with
  | Some (PList entries) =>
      match find has_address entries with
      | Some entry => address_of entry
      | None => None
      end
  | _ => None
  end.

Definition contact_address (lead_details : dict) : option pyval :=
  match dict_lookup lead_details "contact_info" with
  | Some entry => address_of entry
  | None => None
  end.

(** ** Sessions with the mail server *)

(** The session that only checks the connection. *)
Definition check_session (EMAIL_ADDRESS : string) : list smtp_call :=
  [Connect; StartTLS; Login EMAIL_ADDRESS; Quit].

Definition returns (outcome : option exn) : bool :=
  match outcome with
  | None => true
  | Some _ => false
  end.

(** Connecting, upgrading, logging in and quitting all return. *)
Definition check_passes (env : smtp_env) : bool :=
  returns (on_connect env) && returns (on_starttls env)
  && returns (on_login env) && returns (on_quit env).

(** Every step of a sending session returns. *)
Definition send_passes (env : smtp_env) : bool :=
  returns (on_compose env) && returns (on_connect env)
  && returns (on_starttls env) && returns (on_login env)
  && returns (on_as_string env) && returns (on_sendmail env)
  && returns (on_quit env).

Definition configured (EMAIL_ADDRESS EMAIL_PASSWORD : string) : bool :=
  negb (String.eqb EMAIL_ADDRESS "" || String.eqb EMAIL_PASSWORD "").

Definition is_sendmail (c : smtp_call) : bool :=
  match c with
  | SendMail _ _ => true
  | _ => false
  end.

Definition smtp_no_login : smtp_env :=
  {| on_compose := None; on_connect := None; on_starttls := None;
     on_login := Some {| exn_class_of := SMTPAuthenticationError;
                         exn_str := "(534, b'5.7.9 Application-specific password required')" |};
     on_as_string := None; on_sendmail := None; on_quit := None |}.

(** The steps of a connection check. *)
Definition check_steps (EMAIL_ADDRESS : string) (env : smtp_env)
  : list (option smtp_call * option exn) :=
  [ (Some Connect, on_connect env);
    (Some StartTLS, on_starttls env);
    (Some (Login EMAIL_ADDRESS), on_login env);
    (Some Quit, on_quit env) ].

(** The message of a failed connection check, by the handler the
    exception ends in. *)
Definition check_failure_message (e : exn) : string :=
  match exn_class_of e with
  | SMTPAuthenticationError => "Authentication failed: " +:+ exn_str e
  | _ => "Connection failed: " +:+ exn_str e
  end.

(** What the page shows once Send Email was pressed for a selected
    lead, by what the mail server answers. *)
Definition sent_messages (recipient_email : pyval) (cc_email : string)
  : list ui_message :=
  [StSuccess ("Email sent to " +:+ py_str recipient_email +:+ "!")]
  ++ (if truthy (PStr cc_email) then [StSuccess ("CC'd to " +:+ cc_email)]
      else [])
  ++ [StInfo ZAPIER_NOTE].

Definition send_button_page (EMAIL_ADDRESS EMAIL_PASSWORD : string)
    (check_env send_env : smtp_env) (recipient_email : pyval)
    (cc_email : string) : list ui_message :=
  let recipients :=
    if truthy (PStr cc_email) then [recipient_email; PStr cc_email]
    else [recipient_email] in
  if negb (truthy recipient_email) then [StError NO_RECIPIENT_FOR_LEAD]
  else if negb (configured EMAIL_ADDRESS EMAIL_PASSWORD)
  then [StError NOT_CONFIGURED]
  else
    match first_failure (check_steps EMAIL_ADDRESS check_env) with
    | Some e =>
        [StError ("Failed to connect to email server: " +:+ exn_str e)]
    | None =>
        match first_failure (steps EMAIL_ADDRESS recipients send_env) with
        | Some e => [StError (failure_message e); StInfo CHECK_LOGS]
        | None => sent_messages recipient_email cc_email
        end
    end.

Definition is_error (message : ui_message) : bool :=
  match message with
  | StError _ => true
  | _ => false
  end.

(** ** The list of leads *)

(** The JSON body of an answer with status 200, if that is what the
    request got. *)
Definition body_of_200 (get : http_outcome) : option pyval :=
  match get with
  | Answered response =>
      if status_code response =? 200 then
        match json response with
        | Ok body => Some body
        | Raise _ => None
        end
      else None
  | _ => None
  end.

(** The text of a lead under a key: absent counts as empty. *)
Definition text_under (d : dict) (key : string) : option string :=
  match dict_lookup d key with
  | None => Some EmptyString
  | Some (PStr s) => Some s
  | Some _ => None
  end.

(** A lead whose name and company name are strings or absent. *)
Definition lead_has_text (lead : pyval) : bool :=
  match lead with
  | PDict d =>
      match text_under d "name", text_under d "company_name" with
      | Some _, Some _ => true
      | _, _ => false
      end
  | _ => false
  end.

(** A lead whose name and company name are ASCII texts or absent. *)
Definition lead_has_ascii_text (lead : pyval) : bool :=
  match lead with
  | PDict d =>
      match text_under d "name", text_under d "company_name" with
      | Some name, Some company => is_ascii name && is_ascii company
      | _, _ => false
      end
  | _ => false
  end.

(** The query occurs in the name or in the company name, whatever the
    case of the letters. *)
Definition query_occurs (search_query : string) (lead : pyval) : bool :=
  match lead with
  | PDict d =>
      match text_under d "name", text_under d "company_name" with
      | Some name, Some company =>
          Str.contains (Str.lower search_query) (Str.lower name)
          || Str.contains (Str.lower search_query) (Str.lower company)
      | _, _ => false
      end
  | _ => false
  end.

Definition sample_leads : list pyval :=
  [ PDict [("id"%string, PInt 1); ("name"%string, PStr "Ann Lee");
           ("company_name"%string, PStr "Acme Solar")];
    PDict [("id"%string, PInt 2); ("name"%string, PStr "Bo Chen");
           ("company_name"%string, PStr "Tidal")];
    PDict [("id"%string, PInt 3); ("name"%string, PStr "Solara Group")] ].

(** ** Form details *)

(** A custom field carrying the definition id [id]. *)
Definition has_definition_id (id : Z) (field : pyval) : bool :=
  match field with
  | PDict f =>
      match dict_get f "custom_field_definition_id" PNone with
      | PInt n => n =? id
      | _ => false
      end
  | _ => false
  end.

(** Custom fields as the CRM sends them: the definition id is an
    integer, or missing. *)
Definition field_id_is_int (field : pyval) : bool :=
  match field with
  | PDict f =>
      match dict_get f "custom_field_definition_id" PNone with
      | PInt _ | PNone => true
      | _ => false
      end
  | _ => true
  end.

Definition keys_are_int (m : list (pyval * pyval)) : Prop :=
  Forall (fun kv => exists n : Z, kv.1 = PInt n) m.

(** The value shown is neither [None] nor the empty string. *)
Definition blank (v : pyval) : bool := is_none v || eq_str v "".

(** A lead of the shape the CRM documents, as far as the form reads it:
    the address is missing or a dict whose parts are text or empty, the
    web sites are missing, empty or a list that starts with a dict, the
    custom fields are missing or a list with integer definition ids. *)
Definition address_ok (lead_details : dict) : bool :=
  match dict_lookup lead_details "address" with
  | None => true
  | Some (PDict a) =>
      forallb (fun key => text_or_empty (dict_get a key PNone))
        ["street"; "city"; "state"; "postal_code"; "country"]%string
  | Some _ => false
  end.

Definition websites_ok (lead_details : dict) : bool :=
  match dict_lookup lead_details "websites" with
  | None => true
  | Some (PList (PDict _ :: _)) => true
  | Some v => negb (truthy v)
  end.

Definition custom_fields_ok (lead_details : dict) : bool :=
  match dict_lookup lead_details "custom_fields" with
  | None => true
  | Some (PList fields) => forallb field_id_is_int fields
  | Some _ => false
  end.

Definition form_shape_ok (lead_details : dict) : bool :=
  address_ok lead_details && websites_ok lead_details
  && custom_fields_ok lead_details.



(** * Properties *)

(** ** Custom-field extraction *)

Lemma is_named_eq_str (f : dict) (field_name : string) :
  eq_str (dict_get f "name" PNone) field_name = is_named field_name (PDict f).
Proof.
  unfold is_named, dict_get.
  destruct (dict_lookup f "name") as [[]|]; reflexivity.
Qed.

Lemma scan_custom_fields_find (fields : list pyval) (field_name : string) :
  scan_custom_fields fields field_name =
  match find (is_named field_name) fields with
  | Some (PDict f) => Some (field_result f)
  | _ => None
  end.
Proof.
  induction fields as [|field rest IH]; [reflexivity|].
  cbn [scan_custom_fields find].
  destruct field as [| | | |items|f]; try (cbn [is_named]; exact IH).
  rewrite is_named_eq_str.
  destruct (is_named field_name (PDict f)); [reflexivity | exact IH].
Qed.

(** C1.  For every lead-details mapping and field name,
    [get_custom_field] returns the computed value of the field when one
    is present (a list-valued one joined with commas), else its raw
    value, else the empty string; the field is the first dict of that
    name when [custom_fields] is a list, the entry of that name when it
    is a mapping; an absent or empty container gives the empty string. *)
Theorem get_custom_field_correct (lead_details : dict) (field_name : string) :
  get_custom_field lead_details field_name
  = get_custom_field_spec lead_details field_name.
Proof.
  unfold get_custom_field, get_custom_field_spec, dict_get.
  destruct (dict_lookup lead_details "custom_fields") as [c|]; [|reflexivity].
  destruct c as [|b|n|s|fields|mapping]; simpl.
  - reflexivity.
  - destruct b; reflexivity.
  - destruct (n =? 0); reflexivity.
  - destruct (String.eqb s ""); reflexivity.
  - destruct fields as [|field rest]; [reflexivity|].
    rewrite scan_custom_fields_find.
    destruct (find (is_named field_name) (field :: rest)) as [[| | | | |f]|];
      reflexivity.
  - destruct mapping as [|kv rest]; [reflexivity|].
    destruct (dict_lookup (kv :: rest) field_name); reflexivity.
Qed.

(** The shapes the CRM sends, evaluated. *)
Example get_custom_field_computed_list :
  get_custom_field
    [("custom_fields"%string,
      PList [PDict [("name"%string, PStr "Stage");
                    ("value"%string, PList [PInt 11; PInt 12]);
                    ("computed_value"%string, PList [PStr "Seed"; PStr "Series A"])]])]
    "Stage" = PStr "Seed, Series A".
Proof. reflexivity. Qed.

Example get_custom_field_raw_value :
  get_custom_field
    [("custom_fields"%string,
      PList [PDict [("name"%string, PStr "Sector"); ("value"%string, PStr "Climate")];
             PDict [("name"%string, PStr "Stage"); ("value"%string, PInt 4)]])]
    "Stage" = PInt 4.
Proof. reflexivity. Qed.

Example get_custom_field_mapping :
  get_custom_field
    [("custom_fields"%string, PDict [("Stage"%string, PStr "Seed")])] "Stage"
  = PStr "Seed"
  /\ get_custom_field [("name"%string, PStr "Ann")] "Stage" = PStr "".
Proof. split; reflexivity. Qed.

(** ** Sender name *)

Lemma drop_last_without_last (s : string) : Str.drop_last s = without_last s.
Proof.
  unfold Str.drop_last.
  induction s as [|c s' IH]; [reflexivity|].
  destruct s' as [|c' s'']; [reflexivity|].
  replace (String.length (String c (String c' s'')) - 1)%nat
    with (S (String.length s'')) by (cbn [String.length]; lia).
  replace (String.length (String c' s'') - 1)%nat
    with (String.length s'') in IH by (cbn [String.length]; lia).
  change (String.substring 0 (S (String.length s'')) (String c (String c' s'')))
    with (String c (String.substring 0 (String.length s'') (String c' s''))).
  rewrite IH. reflexivity.
Qed.

Lemma contains_at_cons (c : ascii) (s : string) :
  Str.contains "@" (String c s) = false ->
  Ascii.eqb c "@" = false /\ Str.contains "@" s = false.
Proof.
  cbn [Str.contains String.prefix].
  destruct (Ascii.ascii_dec "@" c) as [<-|Hne].
  - destruct s; discriminate.
  - intros H. split; [|exact H].
    apply Ascii.eqb_neq. congruence.
Qed.

(** [split] cuts at the first separator. *)
Lemma split_at_first (pre post : string) :
  Str.contains "@" pre = false ->
  Str.split "@" (pre +:+ "@" +:+ post) = pre :: Str.split "@" post.
Proof.
  induction pre as [|c pre IH]; intros Hno.
  - reflexivity.
  - apply contains_at_cons in Hno as [Hc Hpre].
    change (String c pre +:+ "@" +:+ post)
      with (String c (pre +:+ "@" +:+ post)).
    cbn [Str.split]. rewrite Hc, (IH Hpre). reflexivity.
Qed.

(** C10.  For an address of ASCII characters before the first ['@'],
    where that part is [pre], [get_sender_name] returns [pre] without
    its final character when [pre] is longer than one character, else
    [pre] itself, capitalized.  It returns a string for every argument:
    the one exception its body can raise (a value that is not a string
    has no [split]) gives the fallback ["Active Impact"]. *)
Theorem get_sender_name_local_part (pre post : string) (other : pyval) :
  is_ascii pre = true ->
  Str.contains "@" pre = false ->
  is_string other = false ->
  get_sender_name (PStr (pre +:+ "@" +:+ post))
  = Str.capitalize
      (if (1 <? String.length pre)%nat then without_last pre else pre)
  /\ get_sender_name other = "Active Impact".
Proof.
  intros _ Hno Hother. split.
  - unfold get_sender_name, str_split. cbn [mbind result_bind try_except_all].
    rewrite (split_at_first pre post Hno). cbn [hd].
    rewrite drop_last_without_last. reflexivity.
  - destruct other; try reflexivity. discriminate.
Qed.

Lemma get_sender_name_local_part_witness :
  get_sender_name (PStr ("janed" +:+ "@" +:+ "activeimpact.vc"))
  = Str.capitalize
      (if (1 <? String.length "janed")%nat then without_last "janed" else "janed")
  /\ get_sender_name PNone = "Active Impact".
Proof.
  apply (get_sender_name_local_part "janed" "activeimpact.vc" PNone);
    reflexivity.
Defined.

Example get_sender_name_examples :
  get_sender_name (PStr "janed@activeimpact.vc") = "Jane"
  /\ get_sender_name (PStr "j@activeimpact.vc") = "J"
  /\ get_sender_name (PStr "MIKE.Winterfield@x.org") = "Mike.winterfiel"
  /\ get_sender_name (PStr "") = "".
Proof. repeat split; reflexivity. Qed.

(** ** Lead-source classification *)

Lemma any_form_tag_strings (tags : list pyval) :
  forallb is_string tags = true ->
  any_form_tag tags = Ok (existsb tag_mentions_form tags).
Proof.
  induction tags as [|tag rest IH]; [reflexivity|].
  cbn [forallb]. intros [Htag Hrest]%andb_true_iff.
  destruct tag; try discriminate.
  cbn [any_form_tag str_lower mbind result_bind existsb tag_mentions_form].
  destruct (Str.contains "form" (Str.lower s)); [reflexivity|].
  exact (IH Hrest).
Qed.

Lemma filled_fields_le_length (fields : list pyval) :
  filled_fields fields <= Z.of_nat (List.length fields).
Proof.
  unfold filled_fields. apply Nat2Z.inj_le. apply length_filter.
Qed.

Lemma many_filled_populated (lead_details : dict) :
  match dict_get lead_details "custom_fields" (PList []) with
  | PList l =>
      if 5 <? Z.of_nat (List.length l) then 5 <? filled_fields l else false
  | _ => false
  end = (5 <? populated_fields lead_details).
Proof.
  unfold populated_fields, dict_get.
  destruct (dict_lookup lead_details "custom_fields") as [[| | | |l|]|];
    try reflexivity.
  simpl. pose proof (filled_fields_le_length l).
  destruct (5 <? Z.of_nat (List.length l)) eqn:Hlen; [reflexivity|].
  symmetry. apply Z.ltb_ge. apply Z.ltb_ge in Hlen. lia.
Qed.

(** C2 as stated fails: a lead with one filled form field and
    nothing else is classified as a form submission. *)
Lemma get_lead_source_not_only_three_conditions :
  ~ (forall lead_details : dict,
       get_lead_source lead_details = Ok FORM_SUBMISSION
       <-> claimed_form_submission lead_details = true).
Proof.
  intros H.
  pose (lead :=
    [("name"%string, PStr "Ann Lee");
     ("custom_fields"%string,
      PList [PDict [("name"%string, PStr "Revenue Model");
                    ("value"%string, PStr "SaaS")]])] : dict).
  destruct (H lead) as [Hcode _].
  assert (Hrun : get_lead_source lead = Ok FORM_SUBMISSION) by reflexivity.
  specialize (Hcode Hrun). vm_compute in Hcode. discriminate.
Qed.

(** C2, amended.  For every lead whose tags are strings and whose
    source name and ["Source"] field are text or empty,
    [get_lead_source] returns ["Form Submission"] exactly when some tag
    contains ["form"] (whatever the case), or the source name contains
    ["form"], ["website"] or ["submission"], or the custom field
    ["Source"] contains ["form"] or ["website"], or more than five
    custom fields have a value, or one of the fields ["Revenue Model"],
    ["Last year's revenue"], ["Number of full time employees"] has one;
    otherwise it returns ["Manually Added"]. *)
Theorem get_lead_source_five_conditions (lead_details : dict) :
  lead_well_typed lead_details = true ->
  get_lead_source lead_details
  = Ok (if some_tag_has_form lead_details
           || source_name_mentions lead_details
           || source_field_mentions lead_details
           || (5 <? populated_fields lead_details)
           || has_form_indicator_field lead_details
        then FORM_SUBMISSION else MANUALLY_ADDED).
Proof.
  unfold lead_well_typed.
  intros [[Htags Hsource]%andb_true_iff Hinfo]%andb_true_iff.
  unfold get_lead_source.
  rewrite many_filled_populated.
  fold (has_form_indicator_field lead_details).
  (* tags *)
  assert (Htag :
    (tag_items ← iterate (dict_get lead_details "tags" (PList []));
     any_form_tag tag_items) = Ok (some_tag_has_form lead_details)).
  { unfold some_tag_has_form, dict_get.
    destruct (dict_lookup lead_details "tags") as [[| | | |tags|]|];
      try discriminate; [|reflexivity].
    simpl. apply any_form_tag_strings, Htags. }
  (* source *)
  assert (Hsrc :
    match dict_get lead_details "source" (PDict []) with
    | PDict src =>
        if truthy (dict_get src "name" PNone) then
          source_name ← str_lower (dict_get src "name" (PStr ""));
          Ok (Str.contains "form" source_name
              || Str.contains "website" source_name
              || Str.contains "submission" source_name)
        else Ok false
    | _ => Ok false
    end = Ok (source_name_mentions lead_details)).
  { unfold source_name_mentions, dict_get.
    destruct (dict_lookup lead_details "source") as [[| | | | |src]|];
      try reflexivity.
    simpl. destruct (dict_lookup src "name") as [v|]; [|reflexivity].
    simpl. unfold text_or_empty in Hsource.
    destruct v as [|b|n|s| |]; simpl in *;
      try reflexivity; try discriminate.
    - destruct b; [discriminate | reflexivity].
    - destruct (n =? 0); [reflexivity | discriminate].
    - destruct s; reflexivity.
    - destruct items; [reflexivity | discriminate].
    - destruct items; [reflexivity | discriminate]. }
  (* the Source field *)
  assert (Hfield :
    (if truthy (get_custom_field lead_details "Source") then
       low ← str_lower (get_custom_field lead_details "Source");
       Ok (Str.contains "form" low || Str.contains "website" low)
     else Ok false) = Ok (source_field_mentions lead_details)).
  { unfold source_field_mentions, text_or_empty in *.
    destruct (get_custom_field lead_details "Source") as [|b|n|s| |];
      simpl in *; try reflexivity; try discriminate.
    - destruct b; [discriminate | reflexivity].
    - destruct (n =? 0); [reflexivity | discriminate].
    - destruct s; reflexivity.
    - destruct items; [reflexivity | discriminate].
    - destruct items; [reflexivity | discriminate]. }
  destruct (iterate (dict_get lead_details "tags" (PList []))) as [items|e];
    [|discriminate].
  cbn [mbind result_bind] in Htag |- *. rewrite Htag.
  destruct (some_tag_has_form lead_details); [reflexivity|].
  rewrite Hsrc.
  destruct (source_name_mentions lead_details); [reflexivity|].
  rewrite Hfield.
  destruct (source_field_mentions lead_details); [reflexivity|].
  cbn [orb].
  destruct (5 <? populated_fields lead_details); [reflexivity|].
  destruct (has_form_indicator_field lead_details); reflexivity.
Qed.

Lemma get_lead_source_five_conditions_witness :
  get_lead_source
    [("tags"%string, PList [PStr "investor"; PStr "Web Form"]);
     ("source"%string, PDict [("name"%string, PStr "Referral")])]
  = Ok FORM_SUBMISSION.
Proof.
  exact (get_lead_source_five_conditions
           [("tags"%string, PList [PStr "investor"; PStr "Web Form"]);
            ("source"%string, PDict [("name"%string, PStr "Referral")])]
           eq_refl).
Defined.

Example get_lead_source_manual :
  get_lead_source
    [("tags"%string, PList [PStr "investor"]);
     ("source"%string, PDict [("name"%string, PStr "Referral")])]
  = Ok MANUALLY_ADDED.
Proof. reflexivity. Qed.

(** ** Email bodies and the built-in templates *)

(** C3, at the input where the code departs from it.  With the built-in
    templates and the type ["general"], the body returned for a lead
    still holds the placeholder [{first_name}]: the function replaces
    [{lead_name}], [{company_name}] and [{sender_name}] only, and the
    built-in template names none of them. *)
Theorem generate_rejection_email_keeps_first_name :
  exists body : string,
    generate_rejection_email
      (load_email_templates no_template_file "/app/email_templates.json")
      "janed@activeimpact.vc"
      [("name"%string, PStr "Ann Lee"); ("company_name"%string, PStr "Acme")]
      "general" = PStr body
    /\ String.prefix "Hi {first_name}," body = true
    /\ Str.contains "Ann Lee" body = false.
Proof. eexists. repeat split; vm_compute; reflexivity. Qed.

(** Placeholders the function knows are replaced, wherever they occur. *)
Example generate_rejection_email_known_placeholders :
  generate_rejection_email
    (PDict [("standard"%string,
             PStr "Dear {lead_name} of {company_name}, {lead_name}: no. {sender_name}")])
    "janed@activeimpact.vc"
    [("name"%string, PStr "Ann"); ("company_name"%string, PStr "Acme")]
    "missing type"
  = PStr ("Dear Ann of Acme, Ann: no. Jane" +:+ nl +:+ nl +:+ "Warmly," +:+ nl
          +:+ "Jane").
Proof. reflexivity. Qed.

Lemma load_first_none (read_json : string -> option pyval) (paths : list string)
    (start : pyval) :
  (forall path, In path paths -> read_json path = None) ->
  load_first read_json paths start = start.
Proof.
  induction paths as [|path rest IH]; intros Hnone; [reflexivity|].
  cbn [load_first]. rewrite (Hnone path) by (left; reflexivity).
  apply IH. intros p Hp. apply Hnone. right. exact Hp.
Qed.

Lemma str_replace_default (old dflt : string) (d : dict) (key s : string) :
  absent_or_string d key = true ->
  str_replace (PStr s) old (dict_get d key (PStr dflt))
  = Ok (Str.replace old
          (match dict_lookup d key with Some (PStr n) => n | _ => dflt end) s).
Proof.
  unfold absent_or_string, dict_get.
  destruct (dict_lookup d key) as [[]|]; try discriminate; reflexivity.
Qed.

(** C7.  When no candidate path yields a template file, the template
    table is the built-in one, which is not empty, and for the type
    ["general"] [generate_rejection_email] returns a body (not [None])
    made of the built-in template and the signature, for every lead
    whose name and company name are strings or absent. *)
Theorem fallback_templates_give_a_body (read_json : string -> option pyval)
    (here : string) :
  (forall path, In path (possible_paths here) -> read_json path = None) ->
  load_email_templates read_json here = DEFAULT_TEMPLATES
  /\ truthy DEFAULT_TEMPLATES = true
  /\ exists template_type : string,
       forall (EMAIL_ADDRESS : string) (lead_data : dict),
         absent_or_string lead_data "name" = true ->
         absent_or_string lead_data "company_name" = true ->
         generate_rejection_email (load_email_templates read_json here)
           EMAIL_ADDRESS lead_data template_type
         = PStr (DEFAULT_TEMPLATE +:+ nl +:+ nl +:+ "Warmly," +:+ nl
                 +:+ get_sender_name (PStr EMAIL_ADDRESS)).
Proof.
  intros Hnone.
  assert (Hload : load_email_templates read_json here = DEFAULT_TEMPLATES).
  { unfold load_email_templates. rewrite (load_first_none _ _ _ Hnone).
    reflexivity. }
  split; [exact Hload|]. split; [reflexivity|].
  exists "general"%string. intros EMAIL_ADDRESS lead_data Hname Hcompany.
  rewrite Hload. unfold generate_rejection_email.
  change (as_dict DEFAULT_TEMPLATES)
    with (Ok [("general"%string, PStr DEFAULT_TEMPLATE)] : result dict).
  cbn [mbind result_bind].
  change (dict_get [("general"%string, PStr DEFAULT_TEMPLATE)] "general"
            (dict_get [("general"%string, PStr DEFAULT_TEMPLATE)] "standard"
               (PStr "")))
    with (PStr DEFAULT_TEMPLATE).
  change (negb (truthy (PStr DEFAULT_TEMPLATE))) with false.
  cbv iota.
  rewrite (str_replace_default _ _ _ _ _ Hname).
  set (name := match dict_lookup lead_data "name" with
               | Some (PStr n) => n | _ => EmptyString end).
  replace (Str.replace "{lead_name}" name DEFAULT_TEMPLATE)
    with DEFAULT_TEMPLATE by (vm_compute; reflexivity).
  cbn [mbind result_bind].
  rewrite (str_replace_default _ _ _ _ _ Hcompany).
  set (company := match dict_lookup lead_data "company_name" with
                  | Some (PStr n) => n | _ => EmptyString end).
  replace (Str.replace "{company_name}" company DEFAULT_TEMPLATE)
    with DEFAULT_TEMPLATE by (vm_compute; reflexivity).
  cbn [mbind result_bind str_replace].
  set (sender := get_sender_name (PStr EMAIL_ADDRESS)).
  replace (Str.replace "{sender_name}" sender DEFAULT_TEMPLATE)
    with DEFAULT_TEMPLATE by (vm_compute; reflexivity).
  reflexivity.
Qed.

Lemma fallback_templates_give_a_body_witness :
  load_email_templates no_template_file "/app/email_templates.json"
  = DEFAULT_TEMPLATES
  /\ truthy DEFAULT_TEMPLATES = true
  /\ exists template_type : string,
       forall (EMAIL_ADDRESS : string) (lead_data : dict),
         absent_or_string lead_data "name" = true ->
         absent_or_string lead_data "company_name" = true ->
         generate_rejection_email
           (load_email_templates no_template_file "/app/email_templates.json")
           EMAIL_ADDRESS lead_data template_type
         = PStr (DEFAULT_TEMPLATE +:+ nl +:+ nl +:+ "Warmly," +:+ nl
                 +:+ get_sender_name (PStr EMAIL_ADDRESS)).
Proof.
  apply (fallback_templates_give_a_body no_template_file
           "/app/email_templates.json").
  intros path _. reflexivity.
Defined.

(** With the built-in table the default type, ["standard"], has no
    template: the function returns [None] there. *)
Example fallback_has_no_standard_template :
  generate_rejection_email DEFAULT_TEMPLATES "janed@activeimpact.vc" [] "standard"
  = PNone.
Proof. reflexivity. Qed.

(** ** Timestamps *)

(** *** Rounding *)

Lemma round_half_even_bound (num den : Z) :
  0 < den -> 2 * Z.abs (num - den * round_half_even num den) <= den.
Proof.
  intros Hden. unfold round_half_even.
  pose proof (Z.div_mod num den ltac:(lia)) as Hdm.
  pose proof (Z.mod_pos_bound num den Hden) as Hr.
  destruct (Z.ltb_spec (2 * (num mod den)) den); [lia|].
  destruct (Z.ltb_spec den (2 * (num mod den))); [lia|].
  destruct (Z.even (num / den)); lia.
Qed.

Lemma floor_log2_lt (num den j : Z) :
  0 < num -> 0 < den -> 0 <= j -> num < den * 2 ^ j ->
  floor_log2 num den < j.
Proof.
  intros Hnum Hden Hj Hlt. unfold floor_log2.
  pose proof (Z.log2_spec num Hnum) as [Hn1 Hn2].
  pose proof (Z.log2_spec den Hden) as [Hd1 Hd2].
  pose proof (Z.log2_nonneg num) as Hln.
  pose proof (Z.log2_nonneg den) as Hld.
  set (a := Z.log2 num) in *. set (b := Z.log2 den) in *.
  assert (Hab : a - b <= j).
  { destruct (Z.le_gt_cases (a - b) j) as [|Hgt]; [assumption|exfalso].
    assert (H : 2 ^ (b + 1 + j) <= 2 ^ a) by (apply Z.pow_le_mono_r; lia).
    rewrite Z.pow_add_r in H by lia.
    assert (den * 2 ^ j < 2 ^ (b + 1) * 2 ^ j).
    { apply Z.mul_lt_mono_pos_r; [apply Z.pow_pos_nonneg; lia |].
      rewrite <- Z.add_1_r in Hd2. exact Hd2. }
    rewrite <- Z.add_1_r in Hd2. lia. }
  destruct (Z.leb_spec 0 (a - b)) as [Hk|Hk].
  - destruct (Z.leb_spec (den * 2 ^ (a - b)) num) as [Hle|]; [|lia].
    destruct (Z.eq_dec (a - b) j) as [Heq|]; [|lia].
    rewrite Heq in Hle. lia.
  - destruct (_ <=? _); lia.
Qed.

Lemma nearest_double_pos (num den j : Z) :
  0 < num -> 0 < den -> 0 <= j <= 52 -> num < den * 2 ^ j ->
  exists m e : Z,
    nearest_double num den = Finite m e
    /\ e < 0
    /\ 2 ^ (53 - j) <= 2 ^ (- e)
    /\ 2 * Z.abs (num * 2 ^ (- e) - den * m) <= den.
Proof.
  intros Hnum Hden Hj Hlt.
  pose proof (floor_log2_lt num den j Hnum Hden ltac:(lia) Hlt) as Hfl.
  unfold nearest_double.
  replace (num =? 0) with false by (symmetry; apply Z.eqb_neq; lia).
  rewrite (Z.abs_eq num) by lia.
  set (e := Z.max (floor_log2 num den - 52) (-1074)).
  assert (He : e <= j - 53) by lia.
  replace (0 <=? e) with false by (symmetry; apply Z.leb_gt; lia).
  set (m := round_half_even (num * 2 ^ (- e)) den).
  pose proof (round_half_even_bound (num * 2 ^ (- e)) den Hden) as Hb.
  fold m in Hb.
  assert (HD : 0 < 2 ^ (- e)) by (apply Z.pow_pos_nonneg; lia).
  set (D := 2 ^ (- e)) in *.
  assert (HnD : 0 < num * D) by (apply Z.mul_pos_pos; lia).
  assert (Hm : 0 <= m).
  { destruct (Z.le_gt_cases 0 m) as [|Hneg]; [assumption|].
    assert (den * m <= den * (-1)) by (apply Z.mul_le_mono_nonneg_l; lia).
    lia. }
  assert (Hsize : m <= 2 ^ (j - e)).
  { replace (j - e) with (j + - e) by lia. rewrite Z.pow_add_r by lia.
    fold D.
    assert (num * D < den * 2 ^ j * D)
      by (apply Z.mul_lt_mono_pos_r; lia).
    destruct (Z.le_gt_cases m (2 ^ j * D)) as [|Hbig]; [assumption|].
    assert (den * (2 ^ j * D + 1) <= den * m)
      by (apply Z.mul_le_mono_nonneg_l; lia).
    lia. }
  assert (Hlog : Z.log2 m <= j - e).
  { rewrite <- (Z.log2_pow2 (j - e)) by lia. apply Z.log2_le_mono, Hsize. }
  replace (1024 <=? Z.log2 m + e) with false
    by (symmetry; apply Z.leb_gt; lia).
  rewrite (Z.sgn_pos num) by lia. rewrite Z.mul_1_l.
  exists m, e. split; [reflexivity|]. split; [lia|].
  split; [apply Z.pow_le_mono_r; lia | exact Hb].
Qed.

Lemma nearest_double_opp (num den : Z) :
  num < 0 ->
  nearest_double num den
  = match nearest_double (- num) den with
    | Finite m e => Finite (- m) e
    | Infinity _ => Infinity true
    | NaN => NaN
    end.
Proof.
  intros Hneg. unfold nearest_double.
  replace (num =? 0) with false by (symmetry; apply Z.eqb_neq; lia).
  replace (- num =? 0) with false by (symmetry; apply Z.eqb_neq; lia).
  rewrite Z.abs_opp.
  replace (num <? 0) with true by (symmetry; apply Z.ltb_lt; lia).
  rewrite (Z.sgn_neg num) by lia. rewrite (Z.sgn_pos (- num)) by lia.
  destruct (1024 <=? _); [reflexivity|]. f_equal. lia.
Qed.

(** The double nearest to a fraction below [2^j] in magnitude has an
    exponent of at most [j - 53] and is within half a unit of its last
    place of the fraction. *)
Lemma nearest_double_close (num den j : Z) :
  num <> 0 -> 0 < den -> 0 <= j <= 52 -> Z.abs num < den * 2 ^ j ->
  exists m e : Z,
    nearest_double num den = Finite m e
    /\ e < 0
    /\ 2 ^ (53 - j) <= 2 ^ (- e)
    /\ 2 * Z.abs (num * 2 ^ (- e) - den * m) <= den.
Proof.
  intros Hnum Hden Hj Hlt.
  destruct (Z.lt_trichotomy num 0) as [Hneg|[Hzero|Hpos]]; [|lia|].
  - destruct (nearest_double_pos (- num) den j)
      as (m & e & Hm & He & HD & Hclose); [lia | lia | lia | lia |].
    exists (- m), e. rewrite nearest_double_opp by lia. rewrite Hm.
    repeat split; try assumption; lia.
  - destruct (nearest_double_pos num den j)
      as (m & e & Hm & He & HD & Hclose); [lia | lia | lia | lia |].
    exists m, e. repeat split; assumption.
Qed.

(** *** From a number to a second and a microsecond *)

(** The second and microsecond read off a double with a fraction:
    together they are the instant within [1/2 + 2^-34] microseconds of
    the double. *)
Lemma timeval_fraction (m e : Z) :
  e < 0 ->
  exists sec us : Z,
    0 <= us < 1000000
    /\ 2 ^ 34 * Z.abs ((sec * 1000000 + us) * 2 ^ (- e) - m * 1000000)
       <= (2 ^ 33 + 1) * 2 ^ (- e)
    /\ timeval (Float (Finite m e))
       = if time_t_range sec then Ok (sec, us)
         else raise OverflowError "timestamp out of range for platform time_t".
Proof.
  intros He. unfold timeval.
  replace (0 <=? e) with false by (symmetry; apply Z.leb_gt; lia).
  set (D := 2 ^ (- e)).
  assert (HD : 0 < D) by (apply Z.pow_pos_nonneg; lia).
  pose proof (Z.quot_rem' m D) as Hqr.
  pose proof (Z.rem_bound_abs m D ltac:(lia)) as Hr.
  rewrite (Z.abs_eq D) in Hr by lia.
  set (intpart := Z.quot m D) in *. set (r := Z.rem m D) in *.
  set (rounded := round_float (nearest_double (r * 1000000) D)).
  assert (Hrounded : 2 ^ 34 * Z.abs (rounded * D - r * 1000000)
                     <= (2 ^ 33 + 1) * D).
  { subst rounded. destruct (Z.eq_dec r 0) as [->|Hr0].
    - change (round_float (nearest_double (0 * 1000000) D)) with 0.
      change (2 ^ 34) with 17179869184. change (2 ^ 33 + 1) with 8589934593.
      rewrite Z.abs_eq; lia.
    - destruct (nearest_double_close (r * 1000000) D 20)
        as (pm & pe & -> & Hpe & HP & Hclose); [lia | lia | lia | |].
      { rewrite Z.abs_mul. change (2 ^ 20) with 1048576.
        change (Z.abs 1000000) with 1000000. lia. }
      cbn [round_float].
      replace (0 <=? pe) with false by (symmetry; apply Z.leb_gt; lia).
      set (P := 2 ^ (- pe)) in *.
      change (2 ^ (53 - 20)) with (2 ^ 33) in HP.
      assert (HPpos : 0 < P) by (apply Z.pow_pos_nonneg; lia).
      pose proof (round_half_even_bound pm P HPpos) as Hb.
      set (u := round_half_even pm P) in *.
      assert (Hstep : 2 * P * Z.abs (u * D - r * 1000000) <= (P + 1) * D).
      { assert (H1 : 2 * Z.abs (pm * D - P * u * D) <= P * D).
        { replace (pm * D - P * u * D) with ((pm - P * u) * D) by lia.
          rewrite Z.abs_mul, (Z.abs_eq D) by lia.
          replace (2 * (Z.abs (pm - P * u) * D))
            with ((2 * Z.abs (pm - P * u)) * D) by lia.
          apply Z.mul_le_mono_nonneg_r; lia. }
        assert (H2 : P * (u * D - r * 1000000)
                     = - (pm * D - P * u * D) - (r * 1000000 * P - D * pm))
          by lia.
        assert (H3 : P * Z.abs (u * D - r * 1000000)
                     = Z.abs (P * (u * D - r * 1000000)))
          by (rewrite Z.abs_mul, (Z.abs_eq P); lia).
        lia. }
      change (2 ^ 34) with (2 * 2 ^ 33).
      set (delta := Z.abs (u * D - r * 1000000)) in *.
      assert (Hdelta : 0 <= delta) by (apply Z.abs_nonneg).
      set (K := 2 ^ 33) in *.
      assert (HK : 0 < K) by (subst K; lia).
      apply (Z.mul_le_mono_pos_r _ _ P HPpos).
      assert (K * (2 * P * delta) <= K * ((P + 1) * D))
        by (apply Z.mul_le_mono_nonneg_l; lia).
      assert (K * D <= P * D) by (apply Z.mul_le_mono_nonneg_r; lia).
      lia. }
  assert (Hsize : -1000000 <= rounded <= 1000000).
  { change (2 ^ 34) with 17179869184 in Hrounded.
    change (2 ^ 33 + 1) with 8589934593 in Hrounded.
    split.
    - destruct (Z.le_gt_cases (-1000000) rounded) as [|Hlow]; [assumption|].
      assert (rounded * D <= (-1000001) * D)
        by (apply Z.mul_le_mono_nonneg_r; lia).
      lia.
    - destruct (Z.le_gt_cases rounded 1000000) as [|Hhigh]; [assumption|].
      assert (1000001 * D <= rounded * D)
        by (apply Z.mul_le_mono_nonneg_r; lia).
      lia. }
  assert (Hsum : forall sec us : Z,
             sec * 1000000 + us = intpart * 1000000 + rounded ->
             (sec * 1000000 + us) * D - m * 1000000
             = rounded * D - r * 1000000).
  { intros sec us ->. lia. }
  destruct (Z.leb_spec 1000000 rounded) as [Hhigh|Hhigh].
  - exists (intpart + 1), (rounded - 1000000).
    split; [lia|]. split; [|reflexivity].
    rewrite Hsum by lia. exact Hrounded.
  - destruct (Z.ltb_spec rounded 0) as [Hlow|Hlow].
    + exists (intpart - 1), (rounded + 1000000).
      split; [lia|]. split; [|reflexivity].
      rewrite Hsum by lia. exact Hrounded.
    + exists intpart, rounded.
      split; [lia|]. split; [|reflexivity].
      rewrite Hsum by lia. exact Hrounded.
Qed.

Lemma timeval_integral (m e : Z) :
  0 <= e ->
  timeval (Float (Finite m e))
  = if time_t_range (m * 2 ^ e) then Ok (m * 2 ^ e, 0)
    else raise OverflowError "timestamp out of range for platform time_t".
Proof.
  intros He. unfold timeval.
  replace (0 <=? e) with true by (symmetry; apply Z.leb_le; lia).
  reflexivity.
Qed.

(** A quotient by 1000 rounded to the double [m / D], then read to the
    microsecond [c]: [c] is less than [K] microseconds from the
    quotient, for a [K] that depends on how fine the doubles are
    there. *)
Lemma close_after_division (num den m D c K : Z) :
  0 < den -> 0 < D ->
  (2 ^ 33 + 1) * D + 2 ^ 34 * 500000 < 2 ^ 34 * K * D ->
  2 * Z.abs (num * D - 1000 * den * m) <= 1000 * den ->
  2 ^ 34 * Z.abs (c * D - m * 1000000) <= (2 ^ 33 + 1) * D ->
  Z.abs (c * den - 1000 * num) < K * den.
Proof.
  intros Hden HD HK HB HA.
  change (2 ^ 34) with 17179869184 in *.
  change (2 ^ 33 + 1) with 8589934593 in *.
  assert (Hid : (c * den - 1000 * num) * D
                = den * (c * D - m * 1000000)
                  - 1000 * (num * D - 1000 * den * m)) by ring.
  set (A := c * D - m * 1000000) in *.
  set (B := num * D - 1000 * den * m) in *.
  set (delta := c * den - 1000 * num) in *.
  assert (HdA : Z.abs (den * A) = den * Z.abs A)
    by (rewrite Z.abs_mul, (Z.abs_eq den); lia).
  assert (HdD : Z.abs (delta * D) = Z.abs delta * D)
    by (rewrite Z.abs_mul, (Z.abs_eq D); lia).
  assert (H1 : den * (17179869184 * Z.abs A) <= den * (8589934593 * D))
    by (apply Z.mul_le_mono_nonneg_l; lia).
  assert (H2 : 17179869184 * (Z.abs delta * D)
               < 17179869184 * (K * den * D)).
  { assert (den * (8589934593 * D + 17179869184 * 500000)
            < den * (17179869184 * K * D))
      by (apply Z.mul_lt_mono_pos_l; lia).
    lia. }
  apply Z.mul_lt_mono_pos_l in H2; [|lia].
  apply Z.mul_lt_mono_pos_r in H2; lia.
Qed.

Lemma time_t_of_close (sec us den E : Z) :
  0 < den -> 0 <= us < 1000000 ->
  Z.abs ((sec * 1000000 + us) * den - E) < den ->
  Z.abs E <= 8589934592000000000 * den ->
  time_t_range sec = true.
Proof.
  intros Hden Hus Hclose HE.
  assert (Hc : Z.abs ((sec * 1000000 + us) * den) < 8589934592000000001 * den)
    by lia.
  rewrite Z.abs_mul, (Z.abs_eq den) in Hc by lia.
  apply Z.mul_lt_mono_pos_r in Hc; [|lia].
  unfold time_t_range. change (2 ^ 63) with 9223372036854775808.
  apply andb_true_iff. split; [apply Z.leb_le | apply Z.ltb_lt]; lia.
Qed.

(** Below [2^33] seconds a quotient by 1000 ends less than a
    microsecond from where it should. *)
Lemma divided_close (num den : Z) :
  0 < den -> num <> 0 -> Z.abs num < 8589934592000 * den ->
  exists sec us : Z,
    timeval (Float (nearest_double num (1000 * den))) = Ok (sec, us)
    /\ 0 <= us < 1000000
    /\ Z.abs ((sec * 1000000 + us) * den - 1000 * num) < den.
Proof.
  intros Hden Hnum Hsize.
  destruct (nearest_double_close num (1000 * den) 33)
    as (m & e & -> & He & HD & Hclose); [lia | lia | lia | |].
  { change (2 ^ 33) with 8589934592. lia. }
  destruct (timeval_fraction m e He) as (sec & us & Hus & Hnear & ->).
  change (2 ^ (53 - 33)) with 1048576 in HD.
  set (D := 2 ^ (- e)) in *.
  assert (Hc : Z.abs ((sec * 1000000 + us) * den - 1000 * num) < 1 * den).
  { apply (close_after_division num den m D); lia. }
  rewrite Z.mul_1_l in Hc.
  rewrite (time_t_of_close sec us den (1000 * num)); try lia.
  exists sec, us. repeat split; try lia.
Qed.

(** The instant the two functions read off a timestamp of magnitude
    below [2^33 * 1000]: less than a microsecond from the instant the
    timestamp names. *)
Lemma instant_close (t : number) (num den : Z) :
  fraction t = Some (num, den) ->
  Z.abs num < 8589934592000 * den ->
  0 < den
  /\ exists sec us : Z,
      (t' ← to_seconds t; timeval t') = Ok (sec, us)
      /\ 0 <= us < 1000000
      /\ Z.abs ((sec * 1000000 + us) * den - microseconds num den) < den.
Proof.
  intros Hfraction Hsize.
  assert (Hints : forall n : Z,
            Z.abs n < 8589934592000 * 1 ->
            exists sec us : Z,
              ((if 1000000000000 <? n
                then Ok (Float (nearest_double n 1000))
                else Ok (Int n)) ≫= timeval) = Ok (sec, us)
              /\ 0 <= us < 1000000
              /\ Z.abs ((sec * 1000000 + us) * 1 - microseconds n 1) < 1).
  { intros n Hn. unfold microseconds. rewrite Z.mul_1_r.
    destruct (Z.ltb_spec 1000000000000 n) as [Hgt|Hle].
    - destruct (divided_close n 1) as (sec & us & Htv & Hus & Hclose);
        [lia | lia | lia |].
      exists sec, us. change (1000 * 1) with 1000 in Htv.
      cbn [mbind result_bind]. rewrite Htv. repeat split; lia.
    - exists n, 0. cbn [mbind result_bind timeval].
      replace (time_t_range n) with true.
      + repeat split; lia.
      + symmetry. unfold time_t_range.
        change (2 ^ 63) with 9223372036854775808.
        apply andb_true_iff. split; [apply Z.leb_le | apply Z.ltb_lt]; lia. }
  destruct t as [n|[m e| |]]; cbn [fraction] in Hfraction; try discriminate.
  - injection Hfraction as <- <-. split; [lia|].
    destruct (Hints n Hsize) as (sec & us & Hrun & Hrest).
    exists sec, us. split; [|exact Hrest].
    unfold to_seconds, gt_int, MILLIS_THRESHOLD, true_divide.
    destruct (1000000000000 <? n); [|exact Hrun].
    cbn [mbind result_bind] in Hrun |- *.
    destruct (nearest_double n 1000); try exact Hrun; discriminate Hrun.
  - destruct (Z.leb_spec 0 e) as [He|He].
    + injection Hfraction as <- <-. split; [lia|].
      destruct (Hints (m * 2 ^ e) Hsize) as (sec & us & Hrun & Hrest).
      exists sec, us. split; [|exact Hrest].
      unfold to_seconds, gt_int, MILLIS_THRESHOLD, true_divide.
      replace (0 <=? e) with true by (symmetry; apply Z.leb_le; lia).
      destruct (1000000000000 <? m * 2 ^ e);
        cbn [mbind result_bind] in Hrun |- *.
      * exact Hrun.
      * rewrite timeval_integral by lia.
        cbn [timeval] in Hrun. exact Hrun.
    + injection Hfraction as <- <-.
      set (D := 2 ^ (- e)) in *.
      assert (HD : 0 < D) by (apply Z.pow_pos_nonneg; lia).
      split; [lia|].
      unfold to_seconds, gt_int, MILLIS_THRESHOLD, true_divide, microseconds.
      replace (0 <=? e) with false by (symmetry; apply Z.leb_gt; lia).
      fold D.
      destruct (Z.ltb_spec (1000000000000 * D) m) as [Hgt|Hle];
        cbn [mbind result_bind].
      * destruct (divided_close m D) as (sec & us & Htv & Hus & Hclose);
          [lia | lia | lia |].
        exists sec, us. rewrite Htv. repeat split; lia.
      * destruct (timeval_fraction m e He) as (sec & us & Hus & Hnear & Htv).
        fold D in Hnear.
        change (2 ^ 34) with 17179869184 in Hnear.
        change (2 ^ 33 + 1) with 8589934593 in Hnear.
        assert (Hclose : Z.abs ((sec * 1000000 + us) * D - m * 1000000) < D)
          by lia.
        rewrite Htv.
        rewrite (time_t_of_close sec us D (m * 1000000)); try lia.
        exists sec, us. repeat split; lia.
Qed.

(** *** From a second and a microsecond to a datetime *)

Section Timestamps.

Variable utcoffset : Z -> Z.

Lemma representable_second (instant : Z) :
  representable utcoffset instant
  = representable utcoffset (seconds (instant / US_PER_SECOND)).
Proof using Type.
  unfold representable, local_reading, seconds, MIN_WALL, MAX_WALL,
    US_PER_SECOND.
  rewrite Z.div_mul by lia.
  pose proof (Z.div_mod instant 1000000 ltac:(lia)) as Hdm.
  pose proof (Z.mod_pos_bound instant 1000000 ltac:(lia)) as Hr.
  set (s := instant / 1000000) in *. set (off := utcoffset s).
  destruct (Z.leb_spec (-62135596800 * 1000000) (instant + off * 1000000)),
    (Z.leb_spec (-62135596800 * 1000000) (s * 1000000 + off * 1000000)),
    (Z.leb_spec (instant + off * 1000000) (253402300800 * 1000000 - 1)),
    (Z.leb_spec (s * 1000000 + off * 1000000) (253402300800 * 1000000 - 1));
    try reflexivity; lia.
Qed.

Lemma local_representable (u : Z) :
  local utcoffset u
  = if representable utcoffset (seconds u) then Ok (u + utcoffset u)
    else raise ValueError "year is out of range".
Proof using Type.
  unfold local, representable, local_reading, seconds.
  replace (u * US_PER_SECOND / US_PER_SECOND) with u
    by (symmetry; apply Z.div_mul; unfold US_PER_SECOND; lia).
  replace (u * US_PER_SECOND + utcoffset u * US_PER_SECOND)
    with ((u + utcoffset u) * US_PER_SECOND) by lia.
  reflexivity.
Qed.

(** A datetime is made of exactly the convertible instants, and is then
    the reading of the local clock. *)
Lemma datetime_convertible (sec us : Z) :
  0 <= us < 1000000 ->
  datetime_from_timet_and_us utcoffset sec us
  = if convertible utcoffset (sec * US_PER_SECOND + us)
    then Ok (local_reading utcoffset (sec * US_PER_SECOND + us))
    else raise ValueError "year is out of range".
Proof using Type.
  intros Hus.
  assert (Hsec : (sec * US_PER_SECOND + us) / US_PER_SECOND = sec).
  { unfold US_PER_SECOND. symmetry.
    apply (Z.div_unique _ _ _ us); lia. }
  unfold datetime_from_timet_and_us, convertible, max_fold_seconds,
    clock_set_back.
  rewrite (representable_second (sec * US_PER_SECOND + us)), Hsec.
  rewrite !local_representable.
  destruct (representable utcoffset (seconds sec)); cbn [andb];
    [|reflexivity].
  cbn [mbind result_bind].
  destruct (representable utcoffset (seconds (sec - 86400))); cbn [andb];
    [|reflexivity].
  cbn [mbind result_bind].
  replace (sec + utcoffset sec - (sec - 86400 + utcoffset (sec - 86400))
           - 86400)
    with (- (utcoffset (sec - 86400) - utcoffset sec)) by lia.
  set (back := utcoffset (sec - 86400) - utcoffset sec).
  assert (Hreading : local_reading utcoffset (sec * US_PER_SECOND + us)
                     = (sec + utcoffset sec) * US_PER_SECOND + us)
    by (unfold local_reading; rewrite Hsec; lia).
  rewrite Hreading.
  destruct (Z.ltb_spec (- back) 0) as [Hback|Hback].
  - replace (back <=? 0) with false by (symmetry; apply Z.leb_gt; lia).
    rewrite local_representable.
    replace (sec + - back) with (sec - back) by lia.
    destruct (representable utcoffset (seconds (sec - back))); reflexivity.
  - replace (back <=? 0) with true by (symmetry; apply Z.leb_le; lia).
    reflexivity.
Qed.

Lemma datetime_now_convertible (now : Z) :
  datetime_now utcoffset now
  = if convertible utcoffset now then Ok (local_reading utcoffset now)
    else raise ValueError "year is out of range".
Proof using Type.
  unfold datetime_now.
  pose proof (Z.div_mod now US_PER_SECOND ltac:(unfold US_PER_SECOND; lia))
    as Hdm.
  pose proof (Z.mod_pos_bound now US_PER_SECOND
                ltac:(unfold US_PER_SECOND; lia)) as Hr.
  rewrite datetime_convertible by (unfold US_PER_SECOND in *; lia).
  replace (now / US_PER_SECOND * US_PER_SECOND + now mod US_PER_SECOND)
    with now by lia.
  reflexivity.
Qed.

Lemma truthy_int (n : Z) : truthy (PInt n) = negb (n =? 0).
Proof. reflexivity. Qed.

Lemma truthy_number (t : number) :
  object_truthy (of_number t) = negb (is_zero t).
Proof.
  destruct t as [n|[m e| |]]; try reflexivity.
  unfold is_zero. cbn [of_number object_truthy float_is_zero fraction].
  destruct (Z.leb_spec 0 e) as [He|He]; [|reflexivity].
  f_equal. destruct (Z.eqb_spec m 0) as [->|Hm]; [reflexivity|].
  symmetry. apply Z.eqb_neq.
  assert (0 < 2 ^ e) by (apply Z.pow_pos_nonneg; lia). nia.
Qed.

Lemma number_of_number (t : number) : number_of (of_number t) = Ok t.
Proof. destruct t; reflexivity. Qed.

Lemma gt_int_exceeds (t : number) (k : Z) : gt_int t k = exceeds t k.
Proof.
  destruct t as [n|[m e|[]|]]; try reflexivity.
  - unfold exceeds. cbn [gt_int fraction]. rewrite Z.mul_1_r. reflexivity.
  - unfold exceeds. cbn [gt_int fraction].
    destruct (0 <=? e); [rewrite Z.mul_1_r|]; reflexivity.
Qed.

(** The division returns the float nearest to the quotient, or raises
    where that float is an infinity. *)
Lemma true_divide_quotient (t : number) :
  true_divide t 1000 = Ok (quotient_1000 t)
  \/ exists (e : exn) (negative : bool),
       true_divide t 1000 = Raise e
       /\ quotient_1000 t = Float (Infinity negative).
Proof.
  destruct t as [n|[m e| |]]; try (left; reflexivity).
  - unfold quotient_1000. cbn [true_divide fraction].
    change (1000 * 1) with 1000.
    destruct (nearest_double n 1000) as [m e|negative|];
      [left; reflexivity | right | left; reflexivity].
    eexists _, negative. split; reflexivity.
  - left. unfold quotient_1000. cbn [true_divide fraction].
    destruct (0 <=? e); reflexivity.
Qed.

Lemma to_seconds_unit (t : number) :
  to_seconds t
  = if exceeds t 1000000000000 then true_divide t 1000 else Ok t.
Proof. unfold to_seconds, MILLIS_THRESHOLD. rewrite gt_int_exceeds. reflexivity. Qed.

(** C4 as stated fails in three ways.  At the epoch itself: the
    timestamp [0] is a number, and the answer is ["Unknown"], not a day
    count.  Far enough in the future: the quotient by 1000 is a double,
    and for the millisecond timestamp 100000000000001 the datetime made
    of it is 7 microseconds late, so exactly one day after the creation
    instant the age is still 0.  And across a change of the UTC offset:
    the two datetimes are readings of the local clock, so when the clock
    went one hour ahead since the creation, 23 hours 30 minutes of
    elapsed time already count as one day. *)
Lemma days_in_copper_not_always_whole_days :
  ~ (forall (offset : Z -> Z) (now n : Z),
       days_in_copper offset now (PInt n)
       = PInt ((now - microseconds n 1) / US_PER_DAY))
  /\ ~ (forall (offset : Z -> Z) (now n : Z),
          n <> 0 ->
          days_in_copper offset now (PInt n)
          = whole_days offset now (microseconds n 1))
  /\ ~ (forall (offset : Z -> Z) (now n : Z),
          n <> 0 ->
          Z.abs n < 8589934592000 ->
          convertible offset (microseconds n 1) && convertible offset now
          = true ->
          days_in_copper offset now (PInt n)
          = PInt ((now - microseconds n 1) / US_PER_DAY)).
Proof.
  split; [|split]; intros H.
  - specialize (H (fun _ => 0) (seconds 1700086400) 0).
    vm_compute in H. discriminate.
  - specialize (H (fun _ => 0) (microseconds 100000000000001 1 + US_PER_DAY)
                  100000000000001 ltac:(lia)).
    vm_compute in H. discriminate.
  - specialize (H one_hour_ahead_from_1700040000 (seconds 1700084600)
                  1700000000 ltac:(lia) ltac:(lia) eq_refl).
    vm_compute in H. discriminate.
Qed.

(** C4, amended.  For every timestamp, integer or float, other than
    zero and below [2^33 * 1000] in magnitude, [days_in_copper] reads a
    creation instant [created] off it that is less than a microsecond
    from the instant the timestamp names (milliseconds when above
    [10^12], seconds otherwise), and is that instant when the timestamp
    is an integer.  It then returns the days between the reading of the
    local clock now and its reading at [created], rounded down, or
    ["Unknown"] when one of the two instants cannot be made a datetime;
    when local time has the same UTC offset at both instants the count
    is that of the days between the instants. *)
Theorem days_in_copper_whole_days (now : Z) (t : number) (num den : Z) :
  fraction t = Some (num, den) ->
  num <> 0 ->
  Z.abs num < 8589934592000 * den ->
  exists created : Z,
    Z.abs (created * den - microseconds num den) < den
    /\ (den = 1 -> created = microseconds num 1)
    /\ days_in_copper utcoffset now (of_number t)
       = whole_days utcoffset now created
    /\ (convertible utcoffset created && convertible utcoffset now = true ->
        utcoffset (now / US_PER_SECOND) = utcoffset (created / US_PER_SECOND) ->
        days_in_copper utcoffset now (of_number t)
        = PInt ((now - created) / US_PER_DAY)).
Proof using Type.
  intros Hfraction Hnum Hsize.
  destruct (instant_close t num den Hfraction Hsize)
    as (Hden & sec & us & Hrun & Hus & Hclose).
  change 1000000 with US_PER_SECOND in Hclose at 1.
  set (created := sec * US_PER_SECOND + us) in *.
  assert (Hdays : days_in_copper utcoffset now (of_number t)
                  = whole_days utcoffset now created).
  { unfold days_in_copper. rewrite truthy_number.
    unfold is_zero. rewrite Hfraction.
    replace (num =? 0) with false by (symmetry; apply Z.eqb_neq; lia).
    cbn [negb]. rewrite number_of_number. cbn [mbind result_bind].
    destruct (to_seconds t) as [t'|e]; cbn [mbind result_bind] in Hrun |- *;
      [|discriminate Hrun].
    unfold fromtimestamp. rewrite Hrun. cbn [mbind result_bind fst snd].
    rewrite (datetime_convertible sec us Hus), datetime_now_convertible.
    fold created. unfold whole_days.
    destruct (convertible utcoffset created); [|reflexivity].
    cbn [mbind result_bind andb].
    destruct (convertible utcoffset now); reflexivity. }
  exists created. split; [exact Hclose|]. split.
  { intros ->. lia. }
  split; [exact Hdays|].
  intros Hboth Hsame. rewrite Hdays. unfold whole_days. rewrite Hboth.
  unfold local_reading. rewrite Hsame. do 2 f_equal. lia.
Qed.

(** C5.  For every number [t], integer or float, [format_date] and
    [days_in_copper] answer ["Unknown date"] and ["Unknown"] when [t] is
    zero; otherwise they make a datetime of the float [t / 1000] when
    [t > 10^12], and of [t] itself when not.  For an integer [n] of
    milliseconds below [2^33 * 1000] that datetime is at second
    [n // 1000], millisecond [n % 1000].  Every other falsy value gets
    the same fixed answers. *)
Theorem timestamp_unit (now : Z) (t : number) (falsy : pyobject) :
  object_truthy falsy = false ->
  format_date utcoffset (of_number t)
  = (if is_zero t then "Unknown date"
     else if exceeds t 1000000000000
          then formatted utcoffset (quotient_1000 t)
          else formatted utcoffset t)
  /\ days_in_copper utcoffset now (of_number t)
     = (if is_zero t then PStr "Unknown"
        else if exceeds t 1000000000000
             then age utcoffset now (quotient_1000 t)
             else age utcoffset now t)
  /\ format_date utcoffset falsy = "Unknown date"
  /\ days_in_copper utcoffset now falsy = PStr "Unknown"
  /\ (forall n : Z,
        1000000000000 < n < 8589934592000 ->
        timeval (quotient_1000 (Int n)) = Ok (n / 1000, n mod 1000 * 1000)).
Proof using Type.
  intros Hfalsy.
  assert (Hinf : forall negative : bool,
            fromtimestamp utcoffset (Float (Infinity negative))
            = raise OverflowError "timestamp out of range for platform time_t")
    by reflexivity.
  split; [|split; [|split; [|split]]].
  - unfold format_date, formatted. rewrite truthy_number.
    destruct (is_zero t); cbn [negb]; [reflexivity|].
    rewrite number_of_number. cbn [mbind result_bind].
    rewrite to_seconds_unit.
    destruct (exceeds t 1000000000000); cbn [mbind result_bind].
    + destruct (true_divide_quotient t) as [->|(e & negative & -> & ->)];
        cbn [mbind result_bind].
      * destruct (fromtimestamp utcoffset (quotient_1000 t)); reflexivity.
      * rewrite Hinf. reflexivity.
    + destruct (fromtimestamp utcoffset t); reflexivity.
  - unfold days_in_copper, age. rewrite truthy_number.
    destruct (is_zero t); cbn [negb]; [reflexivity|].
    rewrite number_of_number. cbn [mbind result_bind].
    rewrite to_seconds_unit.
    destruct (exceeds t 1000000000000); cbn [mbind result_bind].
    + destruct (true_divide_quotient t) as [->|(e & negative & -> & ->)];
        cbn [mbind result_bind].
      * destruct (fromtimestamp utcoffset (quotient_1000 t));
          cbn [mbind result_bind try_except_all]; [|reflexivity].
        destruct (datetime_now utcoffset now); reflexivity.
      * rewrite Hinf. reflexivity.
    + destruct (fromtimestamp utcoffset t);
        cbn [mbind result_bind try_except_all]; [|reflexivity].
      destruct (datetime_now utcoffset now); reflexivity.
  - unfold format_date. rewrite Hfalsy. reflexivity.
  - unfold days_in_copper. rewrite Hfalsy. reflexivity.
  - intros n Hn. unfold quotient_1000. cbn [fraction].
    destruct (divided_close n 1) as (sec & us & -> & Hus & Hclose);
      [lia | lia | lia |].
    pose proof (Z.div_mod n 1000 ltac:(lia)) as Hdm.
    pose proof (Z.mod_pos_bound n 1000 ltac:(lia)) as Hr.
    assert (sec = n / 1000) by lia.
    assert (us = n mod 1000 * 1000) by lia.
    congruence.
Qed.

End Timestamps.

Lemma days_in_copper_whole_days_witness :
  exists created : Z,
    Z.abs (created * 1 - microseconds 1700000000000 1) < 1
    /\ (1 = 1 -> created = microseconds 1700000000000 1)
    /\ days_in_copper utc (seconds 1762207200) (of_number (Int 1700000000000))
       = whole_days utc (seconds 1762207200) created
    /\ (convertible utc created && convertible utc (seconds 1762207200) = true ->
        utc (seconds 1762207200 / US_PER_SECOND) = utc (created / US_PER_SECOND) ->
        days_in_copper utc (seconds 1762207200) (of_number (Int 1700000000000))
        = PInt ((seconds 1762207200 - created) / US_PER_DAY)).
Proof.
  apply (days_in_copper_whole_days utc (seconds 1762207200)
           (Int 1700000000000) 1700000000000 1).
  - reflexivity.
  - lia.
  - lia.
Defined.

Lemma timestamp_unit_witness :
  format_date utc (of_number (Int 1700000000000))
  = formatted utc (quotient_1000 (Int 1700000000000))
  /\ format_date utc (Val PNone) = "Unknown date".
Proof.
  pose proof (timestamp_unit utc (seconds 1762207200) (Int 1700000000000)
                (Val PNone) eq_refl) as (Hformat & _ & Hnone & _).
  split; [exact Hformat | exact Hnone].
Defined.

(** The example of the specification: 1700000000000 is taken as
    milliseconds, the instant 2023-11-14T22:13:20Z; on 2025-11-03 at
    22:00:00Z the lead is 719 days old, and one second before a full day
    has passed it is still 0 days old. *)
Example date_created_1700000000000 :
  microseconds 1700000000000 1 = seconds 1700000000
  /\ format_date utc (PInt 1700000000000) = "2023-11-14 22:13:20"
  /\ format_date utc (PInt 1700000000) = "2023-11-14 22:13:20"
  /\ days_in_copper utc (seconds 1762207200) (PInt 1700000000000) = PInt 719
  /\ days_in_copper utc (seconds 1700086399) (PInt 1700000000000) = PInt 0
  /\ days_in_copper utc (seconds 1700086400) (PInt 1700000000000) = PInt 1.
Proof. repeat split; vm_compute; reflexivity. Qed.

(** Floats: a timestamp with a fraction is rounded to the microsecond,
    half to even, so less than half a microsecond before a second it
    already shows that second; a float of milliseconds is divided as
    well. *)
Example float_timestamps :
  format_date utc (PFloat (Finite 17000000001 (-1))) = "2239-05-10 15:06:40"
  /\ format_date utc (PFloat (Finite 3400000000001 (-1)))
     = "2023-11-14 22:13:20"
  /\ timeval (Float (nearest_double 9999996 10000000)) = Ok (1, 0)
  /\ timeval (Float (nearest_double (-1) 2)) = Ok (-1, 500000)
  /\ format_date utc (PFloat NaN) = "Date format error"
  /\ format_date utc (PFloat (Finite 0 0)) = "Unknown date".
Proof. repeat split; vm_compute; reflexivity. Qed.

(** Both datetimes are readings of the local clock: across a change of
    the UTC offset the day count is that of the clock, not of the time
    elapsed.  Here the clock goes one hour ahead between creation and
    now, 23 hours 30 minutes later. *)
Example days_in_copper_local_clock :
  days_in_copper one_hour_ahead_from_1700040000 (seconds 1700084600)
    (PInt 1700000000)
  = PInt 1
  /\ (seconds 1700084600 - microseconds 1700000000 1) / US_PER_DAY = 0.
Proof. split; vm_compute; reflexivity. Qed.

(** The threshold is strict, a second count beyond the year 9999 cannot
    be converted, the first day of the year 1 cannot either (the clock
    is read one day earlier as well), and the year is printed without
    padding. *)
Example timestamp_threshold :
  format_date utc (PInt 1000000000001) = "2001-09-09 01:46:40"
  /\ format_date utc (PInt 1000000000000) = "Date format error"
  /\ days_in_copper utc (seconds 1762207200) (PInt 1000000000000)
     = PStr "Unknown"
  /\ format_date utc (PInt (-62135596800)) = "Date format error"
  /\ format_date utc (PInt (-62135510400)) = "1-01-02 00:00:00"
  /\ format_date utc (PInt (-31000000000)) = "987-08-25 16:53:20".
Proof. repeat split; vm_compute; reflexivity. Qed.

(** ** Sending *)

Lemma handle_send_email (e : exn) :
  handle send_email_handlers e = Ok (false, failure_message e).
Proof. destruct e as [c s]. destruct c; reflexivity. Qed.

Lemma failure_message_head (e : exn) :
  head2 (failure_message e)
  = match caught_as e with
    | SMTPAuthenticationError => "Au"
    | SMTPSenderRefused => "Se"
    | SMTPRecipientsRefused => "Re"
    | SMTPException => "SM"
    | _ => "Fa"
    end.
Proof.
  destruct e as [c s]. unfold failure_message.
  destruct c; cbn [caught_as exn_class_of exn_str]; try reflexivity.
  destruct (Str.contains "535" s); reflexivity.
Qed.

Lemma failure_message_distinct (e1 e2 : exn) :
  caught_as e1 <> caught_as e2 -> failure_message e1 <> failure_message e2.
Proof.
  intros Hclass Hmsg. apply (f_equal head2) in Hmsg.
  rewrite !failure_message_head in Hmsg.
  destruct e1 as [c1 s1], e2 as [c2 s2].
  destruct c1, c2; cbn in Hclass, Hmsg; congruence.
Qed.

Lemma calls_prefix_of_session (EMAIL_ADDRESS : string) (recipients : list pyval)
    (env : smtp_env) :
  calls_until_failure (steps EMAIL_ADDRESS recipients env)
    `prefix_of` session EMAIL_ADDRESS recipients.
Proof.
  destruct env as [c1 c2 c3 c4 c5 c6 c7]. unfold steps, session.
  cbn [on_compose on_connect on_starttls on_login on_as_string on_sendmail
       on_quit calls_until_failure].
  destruct c1; [eexists; reflexivity|].
  destruct c2; [eexists; reflexivity|].
  destruct c3; [eexists; reflexivity|].
  destruct c4; [eexists; reflexivity|].
  destruct c5; [eexists; reflexivity|].
  destruct c6; [eexists; reflexivity|].
  destruct c7; eexists; cbn; rewrite ?app_nil_r; reflexivity.
Qed.

(** C6.  [send_email] returns a (success, message) pair for every
    input and never an exception.  Without credentials, or without a
    recipient, the pair is [(False, error)] and the server is not
    called.  Otherwise one attempt is made: the calls of a session are
    made once each, in order, up to the first step that raises; the
    pair is [(True, "Email sent successfully!")] when no step raises and
    [(False, message)] when one does, the message being that of the
    handler the exception ends in; exceptions ending in different
    handlers get different messages. *)
Theorem send_email_outcome (EMAIL_ADDRESS EMAIL_PASSWORD : string)
    (env : smtp_env) (recipient_email subject body cc_email : pyval)
    (log : list smtp_call) :
  let configured :=
    negb (String.eqb EMAIL_ADDRESS "" || String.eqb EMAIL_PASSWORD "") in
  let attempted := configured && truthy recipient_email in
  let recipients :=
    if truthy cc_email then [recipient_email; cc_email] else [recipient_email] in
  let run := steps EMAIL_ADDRESS recipients env in
  send_email EMAIL_ADDRESS EMAIL_PASSWORD env recipient_email subject body
    cc_email log
  = (log ++ (if attempted then calls_until_failure run else []),
     Ok (if negb configured then (false, NOT_CONFIGURED)
         else if negb (truthy recipient_email) then (false, NO_RECIPIENT)
         else match first_failure run with
              | Some e => (false, failure_message e)
              | None => (true, SENT)
              end))
  /\ calls_until_failure run `prefix_of` session EMAIL_ADDRESS recipients
  /\ (forall e1 e2 : exn,
        caught_as e1 <> caught_as e2 ->
        failure_message e1 <> failure_message e2).
Proof.
  intros configured attempted recipients run.
  split; [|split; [apply calls_prefix_of_session
                  | exact failure_message_distinct]].
  subst configured attempted run. unfold send_email.
  destruct (String.eqb EMAIL_ADDRESS "" || String.eqb EMAIL_PASSWORD "").
  { cbn. rewrite app_nil_r. reflexivity. }
  destruct (truthy recipient_email).
  2:{ cbn. rewrite app_nil_r. reflexivity. }
  fold recipients. generalize recipients. clear recipients. intros recipients.
  destruct env as [c1 c2 c3 c4 c5 c6 c7].
  unfold try_except, steps, mbind, smtp_bind, mret, smtp_ret, local_step,
    server_call.
  cbn [on_compose on_connect on_starttls on_login on_as_string on_sendmail
       on_quit negb andb].
  destruct c1 as [e|];
    [cbn -[handle send_email_handlers]; rewrite handle_send_email, ?app_nil_r;
     reflexivity|].
  destruct c2 as [e|];
    [cbn -[handle send_email_handlers];
     rewrite handle_send_email, <- ?app_assoc; reflexivity|].
  destruct c3 as [e|];
    [cbn -[handle send_email_handlers];
     rewrite handle_send_email, <- ?app_assoc; reflexivity|].
  destruct c4 as [e|];
    [cbn -[handle send_email_handlers];
     rewrite handle_send_email, <- ?app_assoc; reflexivity|].
  destruct c5 as [e|];
    [cbn -[handle send_email_handlers];
     rewrite handle_send_email, <- ?app_assoc; reflexivity|].
  destruct c6 as [e|];
    [cbn -[handle send_email_handlers];
     rewrite handle_send_email, <- ?app_assoc; reflexivity|].
  destruct c7 as [e|];
    [cbn -[handle send_email_handlers];
     rewrite handle_send_email, <- ?app_assoc; reflexivity|].
  cbn. rewrite <- ?app_assoc. reflexivity.
Qed.

Lemma send_email_outcome_witness :
  send_email "janed@activeimpact.vc" "app password" smtp_login_refused
    (PStr "ann@acme.io") (PStr "Re: your pitch") (PStr "Hi Ann") PNone []
  = ([Connect; StartTLS; Login "janed@activeimpact.vc"],
     Ok (false, GMAIL_AUTH_HELP))
  /\ failure_message {| exn_class_of := SMTPSenderRefused; exn_str := "x" |}
     <> failure_message {| exn_class_of := OSError; exn_str := "x" |}.
Proof.
  pose proof (send_email_outcome "janed@activeimpact.vc" "app password"
                smtp_login_refused (PStr "ann@acme.io") (PStr "Re: your pitch")
                (PStr "Hi Ann") PNone []) as (Hrun & _ & Hdistinct).
  split; [exact Hrun|].
  apply Hdistinct. cbn. discriminate.
Defined.

Example send_email_examples :
  send_email "janed@activeimpact.vc" "app password" smtp_all_fine
    (PStr "ann@acme.io") (PStr "Re: your pitch") (PStr "Hi Ann")
    (PStr "team@activeimpact.vc") []
  = ([Connect; StartTLS; Login "janed@activeimpact.vc";
      SendMail "janed@activeimpact.vc"
        [PStr "ann@acme.io"; PStr "team@activeimpact.vc"];
      Quit],
     Ok (true, SENT))
  /\ send_email "janed@activeimpact.vc" "" smtp_all_fine
       (PStr "ann@acme.io") (PStr "s") (PStr "b") PNone []
     = ([], Ok (false, NOT_CONFIGURED))
  /\ send_email "janed@activeimpact.vc" "app password" smtp_all_fine
       (PStr "") (PStr "s") (PStr "b") PNone []
     = ([], Ok (false, NO_RECIPIENT)).
Proof. repeat split; reflexivity. Qed.

(** ** The refresh button *)





(** ** The caches *)

Lemma build_definition_map_total (items : list pyval) :
  forallb is_definition items = true ->
  forall acc, exists m, build_definition_map items acc = Ok m.
Proof.
  induction items as [|item rest IH]; intros Hall acc.
  - exists acc. reflexivity.
  - cbn [forallb] in Hall. apply andb_true_iff in Hall as [Hitem Hrest].
    destruct item; try discriminate.
    cbn [build_definition_map as_dict mbind result_bind].
    cbn [is_definition] in Hitem. rewrite Hitem.
    apply (IH Hrest).
Qed.

Section Caching.

Variable crm : crm_oracle.

Lemma fetched_200_later (w w' : world) (r : request) (body : pyval) :
  requests_sent w `prefix_of` requests_sent w' ->
  fetched_200 crm w r body -> fetched_200 crm w' r body.
Proof using Type.
  intros [extra Hext] (n & resp & Hn & Hrest).
  exists n, resp. split; [|exact Hrest].
  rewrite Hext. apply lookup_app_l_Some, Hn.
Qed.

Lemma fetched_200_now (w : world) (r : request) (resp : response)
    (body : pyval) :
  crm (List.length (requests_sent w)) r = Ok resp ->
  status_code resp = 200 ->
  json resp = Ok body ->
  fetched_200 crm (send_request w r) r body.
Proof using Type.
  intros Hcrm Hstatus Hjson.
  exists (List.length (requests_sent w)), resp.
  split; [|auto].
  cbn [send_request requests_sent]. apply list_lookup_middle. reflexivity.
Qed.

Lemma caches_sound_later (w w' : world) :
  LEAD_DETAILS_CACHE w' = LEAD_DETAILS_CACHE w ->
  FIELD_DEFINITIONS_CACHE w' = FIELD_DEFINITIONS_CACHE w ->
  requests_sent w `prefix_of` requests_sent w' ->
  caches_sound crm w -> caches_sound crm w'.
Proof using Type.
  intros Hleads Hdefs Hreq [Hl Hd]. split.
  - intros lead_id v Hv. rewrite Hleads in Hv.
    eapply fetched_200_later; eauto.
  - intros m Hm. rewrite Hdefs in Hm.
    destruct (Hd m Hm) as (body & items & Hf & Hrest).
    exists body, items. split; [|exact Hrest].
    eapply fetched_200_later; eauto.
Qed.

Lemma caches_sound_initial : caches_sound crm initial_world.
Proof using Type.
  split.
  - intros lead_id v Hv. cbn in Hv. rewrite lookup_empty in Hv.
    discriminate.
  - intros m Hm. discriminate.
Qed.

Lemma caches_sound_refresh (w : world) :
  caches_sound crm w -> caches_sound crm (refresh_leads w).
Proof using Type.
  intros [_ Hd]. split.
  - intros lead_id v Hv. cbn in Hv. rewrite lookup_empty in Hv.
    discriminate.
  - exact Hd.
Qed.

Lemma fetch_lead_details_sound (w : world) (lead_id : Z) :
  caches_sound crm w -> caches_sound crm (fetch_lead_details crm lead_id w).1.
Proof using Type.
  intros Hw. unfold fetch_lead_details.
  destruct (LEAD_DETAILS_CACHE w !! lead_id) as [cached|] eqn:Hlookup;
    [exact Hw|].
  assert (Hsent : caches_sound crm (send_request w (LeadDetails lead_id))).
  { apply (caches_sound_later w); try reflexivity; [|exact Hw].
    eexists. reflexivity. }
  destruct (crm _ _) as [resp|e] eqn:Hcrm; [|exact Hsent].
  destruct (status_code resp =? 200) eqn:Hstatus.
  - destruct (json resp) as [body|e] eqn:Hjson; [|exact Hsent].
    apply Z.eqb_eq in Hstatus.
    destruct Hsent as [Hl Hd]. split; [|exact Hd].
    intros id v. cbn [fst set_lead_details LEAD_DETAILS_CACHE].
    destruct (decide (lead_id = id)) as [<-|Hne].
    + rewrite lookup_insert_eq. intros [= <-].
      eapply fetched_200_now; eauto.
    + rewrite lookup_insert_ne by exact Hne. apply Hl.
  - apply (caches_sound_later (send_request w (LeadDetails lead_id)));
      try reflexivity; exact Hsent.
Qed.

Lemma fetch_custom_field_definitions_sound (w : world) :
  caches_sound crm w -> caches_sound crm (fetch_custom_field_definitions crm w).1.
Proof using Type.
  intros Hw. unfold fetch_custom_field_definitions.
  destruct (FIELD_DEFINITIONS_CACHE w) as [cached|] eqn:Hlookup;
    [exact Hw|].
  assert (Hsent : caches_sound crm (send_request w CustomFieldDefinitions)).
  { apply (caches_sound_later w); try reflexivity; [|exact Hw].
    eexists. reflexivity. }
  destruct (crm _ _) as [resp|e] eqn:Hcrm; [|exact Hsent].
  destruct (status_code resp =? 200) eqn:Hstatus.
  - destruct (json resp) as [body|e] eqn:Hjson; [|exact Hsent].
    cbn [mbind result_bind].
    destruct (iterate body) as [items|e] eqn:Hitems;
      cbn [mbind result_bind]; [|exact Hsent].
    destruct (build_definition_map items []) as [m|e] eqn:Hbuild;
      [|exact Hsent].
    apply Z.eqb_eq in Hstatus.
    destruct Hsent as [Hl Hd]. split; [exact Hl|].
    intros m'. cbn [fst set_field_definitions FIELD_DEFINITIONS_CACHE].
    intros [= <-]. exists body, items.
    split; [|split; assumption].
    eapply fetched_200_now; eauto.
  - apply (caches_sound_later (send_request w CustomFieldDefinitions));
      try reflexivity; exact Hsent.
Qed.

(** A fetch never drops or replaces what is cached. *)
Lemma fetch_lead_details_keeps (w : world) (lead_id : Z) :
  let w' := (fetch_lead_details crm lead_id w).1 in
  (forall (id : Z) (v : pyval),
      LEAD_DETAILS_CACHE w !! id = Some v ->
      LEAD_DETAILS_CACHE w' !! id = Some v)
  /\ FIELD_DEFINITIONS_CACHE w' = FIELD_DEFINITIONS_CACHE w.
Proof using Type.
  unfold fetch_lead_details.
  destruct (LEAD_DETAILS_CACHE w !! lead_id) as [cached|] eqn:Hlookup;
    [split; auto|].
  destruct (crm _ _) as [resp|e]; [|split; auto].
  destruct (status_code resp =? 200); [|split; auto].
  destruct (json resp) as [body|e]; [|split; auto].
  split; [|reflexivity].
  intros id v Hv. cbn [fst set_lead_details LEAD_DETAILS_CACHE].
  rewrite lookup_insert_ne; [exact Hv|]. congruence.
Qed.

Lemma fetch_custom_field_definitions_keeps (w : world) :
  let w' := (fetch_custom_field_definitions crm w).1 in
  LEAD_DETAILS_CACHE w' = LEAD_DETAILS_CACHE w
  /\ (forall m : list (pyval * pyval),
        FIELD_DEFINITIONS_CACHE w = Some m ->
        FIELD_DEFINITIONS_CACHE w' = Some m).
Proof using Type.
  unfold fetch_custom_field_definitions.
  destruct (FIELD_DEFINITIONS_CACHE w) as [cached|] eqn:Hlookup;
    [split; [reflexivity | intros m [= <-]; exact Hlookup]|].
  split; [|discriminate].
  destruct (crm _ _) as [resp|e]; [|reflexivity].
  destruct (status_code resp =? 200); [|reflexivity].
  destruct (json resp ≫= _); reflexivity.
Qed.

Lemma fetch_lead_details_hit (w : world) (lead_id : Z) (cached : pyval) :
  LEAD_DETAILS_CACHE w !! lead_id = Some cached ->
  fetch_lead_details crm lead_id w = (w, Ok cached).
Proof using Type.
  intros Hhit. unfold fetch_lead_details. rewrite Hhit. reflexivity.
Qed.

Lemma fetch_custom_field_definitions_hit (w : world)
    (cached : list (pyval * pyval)) :
  FIELD_DEFINITIONS_CACHE w = Some cached ->
  fetch_custom_field_definitions crm w = (w, Ok cached).
Proof using Type.
  intros Hhit. unfold fetch_custom_field_definitions. rewrite Hhit.
  reflexivity.
Qed.

(** C9.  Starting from caches that hold only bodies of 200 answers,
    [fetch_lead_details] and [fetch_custom_field_definitions] leave
    them so.  A cached key is answered from the cache, the world (and
    so the log of requests) unchanged.  Otherwise one request is
    sent: on status 200, the body being JSON (for the definitions, a
    list of dicts with hashable ids), the result is stored and
    returned, and the next call returns it without a request; on any
    other status the empty dict is returned and nothing is stored.  No
    fetch drops or replaces an entry of the lead-details cache. *)
Theorem caches_hold_successful_fetches (w : world) (lead_id : Z) :
  caches_sound crm w ->
  caches_sound crm (fetch_lead_details crm lead_id w).1
  /\ caches_sound crm (fetch_custom_field_definitions crm w).1
  /\ (forall cached : pyval,
        LEAD_DETAILS_CACHE w !! lead_id = Some cached ->
        fetch_lead_details crm lead_id w = (w, Ok cached))
  /\ (forall cached : list (pyval * pyval),
        FIELD_DEFINITIONS_CACHE w = Some cached ->
        fetch_custom_field_definitions crm w = (w, Ok cached))
  /\ (forall (id : Z) (v : pyval),
        LEAD_DETAILS_CACHE w !! id = Some v ->
        LEAD_DETAILS_CACHE (fetch_lead_details crm lead_id w).1 !! id = Some v
        /\ LEAD_DETAILS_CACHE (fetch_custom_field_definitions crm w).1 !! id
           = Some v)
  /\ (forall resp : response,
        LEAD_DETAILS_CACHE w !! lead_id = None ->
        crm (List.length (requests_sent w)) (LeadDetails lead_id) = Ok resp ->
        let w1 := send_request w (LeadDetails lead_id) in
        (status_code resp = 200 ->
         forall body : pyval,
           json resp = Ok body ->
           fetch_lead_details crm lead_id w
           = (set_lead_details w1 lead_id body, Ok body)
           /\ fetch_lead_details crm lead_id (set_lead_details w1 lead_id body)
              = (set_lead_details w1 lead_id body, Ok body))
        /\ (status_code resp <> 200 ->
            fetch_lead_details crm lead_id w
            = (st_error w1 ("Error fetching lead details: " +:+ text resp),
               Ok (PDict []))))
  /\ (forall resp : response,
        FIELD_DEFINITIONS_CACHE w = None ->
        crm (List.length (requests_sent w)) CustomFieldDefinitions = Ok resp ->
        let w1 := send_request w CustomFieldDefinitions in
        (status_code resp = 200 ->
         forall (body : pyval) (items : list pyval),
           json resp = Ok body ->
           iterate body = Ok items ->
           forallb is_definition items = true ->
           exists m : list (pyval * pyval),
             build_definition_map items [] = Ok m
             /\ fetch_custom_field_definitions crm w
                = (set_field_definitions w1 m, Ok m)
             /\ fetch_custom_field_definitions crm (set_field_definitions w1 m)
                = (set_field_definitions w1 m, Ok m))
        /\ (status_code resp <> 200 ->
            fetch_custom_field_definitions crm w
            = (st_error w1 ("Error fetching custom field definitions: "
                            +:+ text resp), Ok []))).
Proof using Type.
  intros Hw.
  split; [apply fetch_lead_details_sound, Hw|].
  split; [apply fetch_custom_field_definitions_sound, Hw|].
  split; [intros cached; apply fetch_lead_details_hit|].
  split; [intros cached; apply fetch_custom_field_definitions_hit|].
  split.
  { intros id v Hv. split.
    - apply (proj1 (fetch_lead_details_keeps w lead_id)), Hv.
    - rewrite (proj1 (fetch_custom_field_definitions_keeps w)). exact Hv. }
  split.
  - intros resp Hmiss Hcrm w1. split.
    + intros Hstatus body Hjson. split.
      * unfold fetch_lead_details. rewrite Hmiss, Hcrm, Hstatus, Hjson.
        reflexivity.
      * apply fetch_lead_details_hit.
        cbn [set_lead_details LEAD_DETAILS_CACHE]. apply lookup_insert_eq.
    + intros Hstatus. apply Z.eqb_neq in Hstatus.
      unfold fetch_lead_details. rewrite Hmiss, Hcrm, Hstatus. reflexivity.
  - intros resp Hmiss Hcrm w1. split.
    + intros Hstatus body items Hjson Hitems Hdefs.
      destruct (build_definition_map_total items Hdefs []) as [m Hm].
      exists m. split; [exact Hm|]. split.
      * unfold fetch_custom_field_definitions.
        rewrite Hmiss, Hcrm, Hstatus, Hjson.
        cbn [mbind result_bind]. rewrite Hitems.
        cbn [mbind result_bind]. rewrite Hm. reflexivity.
      * apply fetch_custom_field_definitions_hit. reflexivity.
    + intros Hstatus. apply Z.eqb_neq in Hstatus.
      unfold fetch_custom_field_definitions.
      rewrite Hmiss, Hcrm, Hstatus. reflexivity.
Qed.

End Caching.

Lemma caches_hold_successful_fetches_witness :
  caches_sound crm_with_lead_42
    (fetch_lead_details crm_with_lead_42 42 initial_world).1
  /\ fetch_lead_details crm_with_lead_42 42 initial_world
     = (set_lead_details (send_request initial_world (LeadDetails 42)) 42
          lead_42, Ok lead_42).
Proof.
  pose proof (caches_hold_successful_fetches crm_with_lead_42 initial_world 42
                (caches_sound_initial crm_with_lead_42))
    as (Hsound & _ & _ & _ & _ & Hmiss & _).
  split; [exact Hsound|].
  destruct (Hmiss _ (lookup_empty (M := gmap Z) 42) eq_refl) as [H200 _].
  exact (proj1 (H200 eq_refl lead_42 eq_refl)).
Defined.

Example fetch_lead_details_examples :
  let '(w1, r1) := fetch_lead_details crm_with_lead_42 42 initial_world in
  let '(w2, r2) := fetch_lead_details crm_with_lead_42 42 w1 in
  let '(w3, r3) := fetch_lead_details crm_with_lead_42 7 w2 in
  let '(w4, r4) := fetch_lead_details crm_with_lead_42 7 w3 in
  r1 = Ok lead_42 /\ r2 = Ok lead_42
  /\ r3 = Ok (PDict []) /\ r4 = Ok (PDict [])
  /\ requests_sent w4 = [LeadDetails 42; LeadDetails 7; LeadDetails 7]
  /\ LEAD_DETAILS_CACHE w4 !! 7 = None.
Proof. vm_compute. repeat split; reflexivity. Qed.


(** * Further properties *)

(** ** Replacement and email bodies *)

Lemma append_cons (c : ascii) (a b : string) :
  String c a +:+ b = String c (a +:+ b).
Proof. reflexivity. Qed.

Lemma append_nil (b : string) : EmptyString +:+ b = b.
Proof. reflexivity. Qed.

Lemma append_assoc (a b c : string) : (a +:+ b) +:+ c = a +:+ b +:+ c.
Proof.
  induction a as [|x a IH]; [reflexivity|].
  rewrite !append_cons. f_equal. exact IH.
Qed.

Lemma prefix_placeholder_brace_free (old : string) (c : ascii) (s : string) :
  is_placeholder old = true ->
  Ascii.eqb c "{" = false ->
  String.prefix old (String c s) = false.
Proof.
  destruct old as [|o old']; [discriminate|].
  cbn [is_placeholder String.prefix]. intros Ho Hc.
  apply Ascii.eqb_eq in Ho. subst o.
  destruct (Ascii.ascii_dec "{" c) as [<-|Hne]; [discriminate|reflexivity].
Qed.

(** Passing over the rest of an occurrence. *)
Lemma replace_from_skip (old new x rest : string) :
  Str.replace_from old new (String.length x) (x +:+ rest)
  = Str.replace_from old new O rest.
Proof.
  induction x as [|c x IH]; [destruct rest; reflexivity|].
  rewrite append_cons. cbn [String.length Str.replace_from].
  exact IH.
Qed.

Lemma prefix_append (old rest : string) : String.prefix old (old +:+ rest) = true.
Proof.
  induction old as [|c old IH]; [destruct rest; reflexivity|].
  rewrite append_cons. cbn [String.prefix].
  destruct (Ascii.ascii_dec c c); [exact IH | congruence].
Qed.

(** A text in which no placeholder starts is left as it is. *)
Lemma replace_brace_free (old new s : string) :
  is_placeholder old = true ->
  brace_free s = true ->
  Str.replace old new s = s.
Proof.
  intros Hold. unfold Str.replace.
  induction s as [|c s IH]; [reflexivity|].
  cbn [brace_free]. intros [Hc Hs]%andb_true_iff.
  apply negb_true_iff in Hc.
  cbn [Str.replace_from].
  rewrite (prefix_placeholder_brace_free old c s Hold Hc), (IH Hs).
  reflexivity.
Qed.

(** The first occurrence is replaced and the search goes on after it. *)
Lemma replace_first_occurrence (old new before after : string) :
  is_placeholder old = true ->
  brace_free before = true ->
  Str.replace old new (before +:+ old +:+ after)
  = before +:+ new +:+ Str.replace old new after.
Proof.
  intros Hold. unfold Str.replace.
  induction before as [|c before IH].
  - intros _. rewrite !append_nil.
    destruct old as [|o old']; [discriminate|].
    pose proof (prefix_append (String o old') after) as Hprefix.
    rewrite append_cons in Hprefix |- *.
    cbn [Str.replace_from]. rewrite Hprefix.
    replace (String.length (String o old') - 1)%nat
      with (String.length old') by (cbn [String.length]; lia).
    rewrite replace_from_skip. reflexivity.
  - cbn [brace_free]. intros [Hc Hb]%andb_true_iff.
    apply negb_true_iff in Hc.
    rewrite !append_cons. cbn [Str.replace_from].
    rewrite (prefix_placeholder_brace_free old c _ Hold Hc), (IH Hb).
    reflexivity.
Qed.

Lemma brace_free_append (a b : string) :
  brace_free (a +:+ b) = brace_free a && brace_free b.
Proof.
  induction a as [|c a IH]; [reflexivity|].
  rewrite append_cons. cbn [brace_free]. rewrite IH, andb_assoc.
  reflexivity.
Qed.

Lemma dict_get_string (d : dict) (key : string) :
  absent_or_string d key = true ->
  exists s : string, dict_get d key (PStr "") = PStr s.
Proof.
  unfold absent_or_string, dict_get.
  destruct (dict_lookup d key) as [[]|]; try discriminate; eauto.
Qed.

(** X1.  A lead whose ["name"] or ["company_name"] is present and not
    a string (JSON [null], a number) gets no body at all: whatever the
    template table, the sender and the template type,
    [generate_rejection_email] returns [None]. *)
Theorem generate_rejection_email_null_name (EMAIL_TEMPLATES : pyval)
    (EMAIL_ADDRESS : string) (lead_data : dict) (template_type key : string)
    (v : pyval) :
  key = "name"%string \/ key = "company_name"%string ->
  dict_lookup lead_data key = Some v ->
  is_string v = false ->
  generate_rejection_email EMAIL_TEMPLATES EMAIL_ADDRESS lead_data template_type
  = PNone.
Proof.
  intros Hkey Hlookup Hv.
  assert (Hget : dict_get lead_data key (PStr "") = v).
  { unfold dict_get. rewrite Hlookup. reflexivity. }
  unfold generate_rejection_email.
  destruct EMAIL_TEMPLATES as [| | | | |templates]; try reflexivity.
  cbn [as_dict mbind result_bind].
  destruct (truthy _); [|reflexivity]. cbn [negb].
  destruct (dict_get templates template_type _) as [| | |t| |];
    try reflexivity.
  destruct Hkey as [-> | ->]; rewrite Hget.
  - destruct v; try discriminate; reflexivity.
  - destruct (str_replace (PStr t) "{lead_name}" _) as [c1|e];
      [|reflexivity].
    destruct v; try discriminate; reflexivity.
Qed.

Lemma generate_rejection_email_null_name_witness :
  generate_rejection_email
    (PDict [("general"%string, PStr "Hi {lead_name} of {company_name},")])
    "janed@activeimpact.vc"
    [("name"%string, PStr "Ann Lee"); ("company_name"%string, PNone)]
    "general"
  = PNone.
Proof.
  apply (generate_rejection_email_null_name _ _ _ _ "company_name" PNone).
  - right. reflexivity.
  - reflexivity.
  - reflexivity.
Defined.

(** X2.  A template type the table does not have is served by the
    ["standard"] template: the result is that of asking for
    ["standard"]. *)
Theorem generate_rejection_email_falls_back_to_standard (templates : dict)
    (EMAIL_ADDRESS : string) (lead_data : dict) (template_type : string) :
  dict_lookup templates template_type = None ->
  generate_rejection_email (PDict templates) EMAIL_ADDRESS lead_data
    template_type
  = generate_rejection_email (PDict templates) EMAIL_ADDRESS lead_data
      "standard".
Proof.
  intros Hmissing. unfold generate_rejection_email.
  cbn [as_dict mbind result_bind]. unfold dict_get. rewrite Hmissing.
  destruct (dict_lookup templates "standard"); reflexivity.
Qed.

Lemma generate_rejection_email_falls_back_to_standard_witness :
  generate_rejection_email
    (PDict [("standard"%string, PStr "Dear {lead_name},")])
    "janed@activeimpact.vc" [("name"%string, PStr "Ann")] "geography"
  = generate_rejection_email
      (PDict [("standard"%string, PStr "Dear {lead_name},")])
      "janed@activeimpact.vc" [("name"%string, PStr "Ann")] "standard".
Proof.
  apply generate_rejection_email_falls_back_to_standard. reflexivity.
Defined.

(** X3.  For a template [before {lead_name} after] in which the
    placeholder is the only opening brace, and a lead whose name is a
    string without one, the body is [before], the name, [after] and the
    signature: the name is put in and nothing else changes. *)
Theorem generate_rejection_email_puts_name (templates : dict)
    (EMAIL_ADDRESS : string) (lead_data : dict)
    (template_type before after name : string) :
  dict_lookup templates template_type
  = Some (PStr (before +:+ "{lead_name}" +:+ after)) ->
  dict_lookup lead_data "name" = Some (PStr name) ->
  absent_or_string lead_data "company_name" = true ->
  brace_free before = true ->
  brace_free after = true ->
  brace_free name = true ->
  generate_rejection_email (PDict templates) EMAIL_ADDRESS lead_data
    template_type
  = PStr (before +:+ name +:+ after +:+ signature EMAIL_ADDRESS).
Proof.
  intros Htemplate Hname Hcompany Hbefore Hafter Hfree.
  assert (Hget_template :
    dict_get templates template_type (dict_get templates "standard" (PStr ""))
    = PStr (before +:+ "{lead_name}" +:+ after)).
  { unfold dict_get at 1. rewrite Htemplate. reflexivity. }
  assert (Hget_name : dict_get lead_data "name" (PStr "") = PStr name).
  { unfold dict_get. rewrite Hname. reflexivity. }
  assert (Htruthy : truthy (PStr (before +:+ "{lead_name}" +:+ after)) = true).
  { destruct before; reflexivity. }
  assert (Hbody : brace_free (before +:+ name +:+ after) = true).
  { rewrite !brace_free_append, Hbefore, Hfree, Hafter. reflexivity. }
  destruct (dict_get_string lead_data "company_name" Hcompany)
    as [company Hget_company].
  unfold generate_rejection_email.
  cbn [as_dict mbind result_bind].
  rewrite Hget_template, Htruthy, Hget_name, Hget_company.
  cbn [negb str_replace mbind result_bind].
  rewrite (replace_first_occurrence "{lead_name}" name before after eq_refl
             Hbefore).
  rewrite (replace_brace_free "{lead_name}" name after eq_refl Hafter).
  rewrite (replace_brace_free "{company_name}" company _ eq_refl Hbody).
  rewrite (replace_brace_free "{sender_name}" _ _ eq_refl Hbody).
  unfold signature. rewrite !append_assoc. reflexivity.
Qed.

Lemma generate_rejection_email_puts_name_witness :
  generate_rejection_email
    (PDict [("geography"%string,
             PStr ("Dear " +:+ "{lead_name}" +:+ ", we invest in Canada only."))])
    "janed@activeimpact.vc" [("name"%string, PStr "Ann Lee")] "geography"
  = PStr ("Dear " +:+ "Ann Lee" +:+ ", we invest in Canada only."
          +:+ signature "janed@activeimpact.vc").
Proof.
  apply (generate_rejection_email_puts_name
           [("geography"%string,
             PStr ("Dear " +:+ "{lead_name}" +:+ ", we invest in Canada only."))]
           "janed@activeimpact.vc" [("name"%string, PStr "Ann Lee")]
           "geography" "Dear " ", we invest in Canada only." "Ann Lee");
    reflexivity.
Defined.

(** X4.  With the built-in table only ["general"] has a template: for
    every other template type, the default ["standard"] among them,
    the result is [None]. *)
Theorem fallback_templates_only_general (EMAIL_ADDRESS : string)
    (lead_data : dict) (template_type : string) :
  template_type <> "general"%string ->
  generate_rejection_email DEFAULT_TEMPLATES EMAIL_ADDRESS lead_data
    template_type = PNone.
Proof.
  intros Hne.
  assert (Heqb : String.eqb "general" template_type = false).
  { apply String.eqb_neq. congruence. }
  assert (Hget :
    dict_get [("general"%string, PStr DEFAULT_TEMPLATE)] template_type
      (dict_get [("general"%string, PStr DEFAULT_TEMPLATE)] "standard"
         (PStr ""))
    = PStr "").
  { unfold dict_get. cbn [dict_lookup]. rewrite Heqb. reflexivity. }
  unfold generate_rejection_email, DEFAULT_TEMPLATES.
  cbn [as_dict mbind result_bind]. rewrite Hget. reflexivity.
Qed.

Lemma fallback_templates_only_general_witness :
  generate_rejection_email DEFAULT_TEMPLATES "janed@activeimpact.vc"
    [("name"%string, PStr "Ann Lee")] "too_early" = PNone.
Proof.
  apply (fallback_templates_only_general "janed@activeimpact.vc"
           [("name"%string, PStr "Ann Lee")] "too_early").
  discriminate.
Defined.

(** ** Loading the templates *)

(** X5.  The template table is never empty, and the first candidate
    path ends the search when the file there holds a JSON object, array
    or string: what it holds is the table, or, when that is empty, the
    built-in table, whatever the other paths hold. *)
Theorem load_email_templates_never_empty (read_json : string -> option pyval)
    (here : string) (loaded : pyval) :
  read_json "email_templates.json" = Some loaded ->
  has_len loaded = true ->
  truthy (load_email_templates read_json here) = true
  /\ load_email_templates read_json here
     = (if truthy loaded then loaded else DEFAULT_TEMPLATES)
  /\ (forall other : string -> option pyval,
        truthy (load_email_templates other here) = true).
Proof.
  intros Hfirst Hlen.
  assert (Hnever : forall other : string -> option pyval,
            truthy (load_email_templates other here) = true).
  { intros other. unfold load_email_templates.
    destruct (truthy (load_first other (possible_paths here) (PDict [])))
      eqn:Htable; [exact Htable | reflexivity]. }
  split; [apply Hnever|]. split; [|exact Hnever].
  unfold load_email_templates, possible_paths. cbn [load_first].
  rewrite Hfirst, Hlen. destruct (truthy loaded); reflexivity.
Qed.

Lemma load_email_templates_never_empty_witness :
  load_email_templates
    (fun path =>
       if String.eqb path "email_templates.json" then Some (PDict [])
       else Some (PDict [("standard"%string, PStr "Dear {lead_name},")]))
    "/app/email_templates.json"
  = DEFAULT_TEMPLATES.
Proof.
  exact (proj1 (proj2 (load_email_templates_never_empty
    (fun path =>
       if String.eqb path "email_templates.json" then Some (PDict [])
       else Some (PDict [("standard"%string, PStr "Dear {lead_name},")]))
    "/app/email_templates.json" (PDict []) eq_refl eq_refl))).
Defined.

(** A file that holds [null], a number or a boolean does not end the
    search: the log line takes the [len] of what was loaded and raises.
    The next path that loads a table gives the table; when none does,
    what the file held stays, and is the "table" if it is truthy. *)
Example load_email_templates_without_length :
  load_email_templates
    (fun path =>
       if String.eqb path "email_templates.json" then Some PNone
       else Some (PDict [("standard"%string, PStr "Dear {lead_name},")]))
    "/app/email_templates.json"
  = PDict [("standard"%string, PStr "Dear {lead_name},")]
  /\ load_email_templates
       (fun path =>
          if String.eqb path "email_templates.json" then Some (PInt 5)
          else None)
       "/app/email_templates.json"
     = PInt 5
  /\ load_email_templates
       (fun path =>
          if String.eqb path "email_templates.json" then Some PNone
          else None)
       "/app/email_templates.json"
     = DEFAULT_TEMPLATES.
Proof. repeat split; reflexivity. Qed.

(** ** Timestamps, continued *)

(** A millisecond count whose quotient by 1000 is at most [10^12]: the
    double the division returns is read as the second [n // 1000]. *)
Lemma millis_timeval (n : Z) :
  1000000000000 < n ->
  n / 1000 <= 1000000000000 ->
  exists us : Z,
    timeval (Float (nearest_double n 1000)) = Ok (n / 1000, us)
    /\ 0 <= us < 1000000.
Proof.
  intros Hmillis Hseconds.
  pose proof (Z.div_mod n 1000 ltac:(lia)) as Hdm.
  pose proof (Z.mod_pos_bound n 1000 ltac:(lia)) as Hr.
  destruct (nearest_double_close n 1000 40)
    as (m & e & -> & He & HD & Hclose); [lia | lia | lia | |].
  { change (2 ^ 40) with 1099511627776. lia. }
  destruct (timeval_fraction m e He) as (sec & us & Hus & Hnear & ->).
  change (2 ^ (53 - 40)) with 8192 in HD.
  set (D := 2 ^ (- e)) in *.
  set (c := sec * 1000000 + us) in *.
  assert (Hc : Z.abs (c * 1 - 1000 * n) < 62 * 1).
  { apply (close_after_division n 1 m D); lia. }
  assert (Hsec : sec = n / 1000).
  { destruct (Z.eq_dec (n mod 1000) 0) as [Hzero|Hnonzero].
    - (* the quotient is an integer: the double is that integer *)
      set (s := n / 1000) in *.
      assert (Hm : m = s * D).
      { assert (2 * Z.abs ((s * D - m) * 1000) <= 1 * 1000).
        { replace ((s * D - m) * 1000) with (n * D - 1000 * m) by lia. lia. }
        rewrite Z.abs_mul in H. change (Z.abs 1000) with 1000 in H.
        assert (Z.abs (s * D - m) = 0) by lia. lia. }
      change (2 ^ 34) with 17179869184 in Hnear.
      change (2 ^ 33 + 1) with 8589934593 in Hnear.
      assert (Hexact : Z.abs (c - s * 1000000) = 0).
      { replace (c * D - m * 1000000) with ((c - s * 1000000) * D) in Hnear
          by (rewrite Hm; lia).
        rewrite Z.abs_mul, (Z.abs_eq D) in Hnear by lia.
        destruct (Z.eq_dec (Z.abs (c - s * 1000000)) 0) as [|Hne];
          [assumption|].
        assert (1 * D <= Z.abs (c - s * 1000000) * D)
          by (apply Z.mul_le_mono_nonneg_r; lia).
        lia. }
      subst c. lia.
    - subst c. lia. }
  subst sec.
  replace (time_t_range (n / 1000)) with true.
  - exists us. split; [reflexivity | exact Hus].
  - symmetry. unfold time_t_range. change (2 ^ 63) with 9223372036854775808.
    apply andb_true_iff. split; [apply Z.leb_le | apply Z.ltb_lt]; lia.
Qed.

Section MoreTimestamps.

Variable utcoffset : Z -> Z.

Lemma strftime_same_second (a b : Z) :
  a / US_PER_SECOND = b / US_PER_SECOND -> strftime a = strftime b.
Proof. intros H. unfold strftime. rewrite H. reflexivity. Qed.

Lemma second_of_instant (sec us : Z) :
  0 <= us < 1000000 -> (sec * US_PER_SECOND + us) / US_PER_SECOND = sec.
Proof.
  intros Hus. unfold US_PER_SECOND. symmetry.
  apply (Z.div_unique _ _ _ us); lia.
Qed.

(** Whether an instant can be made a datetime, and the second its
    datetime shows, depend on its second only. *)
Lemma convertible_second (sec us : Z) :
  0 <= us < 1000000 ->
  convertible utcoffset (sec * US_PER_SECOND + us)
  = convertible utcoffset (sec * US_PER_SECOND + 0).
Proof using Type.
  intros Hus. unfold convertible.
  rewrite (representable_second utcoffset (sec * US_PER_SECOND + us)).
  rewrite (representable_second utcoffset (sec * US_PER_SECOND + 0)).
  rewrite !second_of_instant by lia. reflexivity.
Qed.

Lemma local_reading_second (sec us : Z) :
  0 <= us < 1000000 ->
  local_reading utcoffset (sec * US_PER_SECOND + us) / US_PER_SECOND
  = sec + utcoffset sec.
Proof using Type.
  intros Hus. unfold local_reading. rewrite second_of_instant by lia.
  unfold US_PER_SECOND. symmetry.
  apply (Z.div_unique _ _ _ us); lia.
Qed.

(** X6.  A millisecond timestamp is printed as the second it falls
    in: for [n] above [10^12] whose quotient by 1000 is itself read as
    seconds, [format_date] gives for [n] what it gives for [n // 1000],
    the error text included. *)
Theorem format_date_millis_as_seconds (n : Z) :
  1000000000000 < n ->
  n / 1000 <= 1000000000000 ->
  format_date utcoffset (PInt n) = format_date utcoffset (PInt (n / 1000)).
Proof using Type.
  intros Hmillis Hseconds.
  assert (Hs : 1000000000 <= n / 1000)
    by (apply Z.div_le_lower_bound; lia).
  destruct (millis_timeval n Hmillis Hseconds) as (us & Htv & Hus).
  unfold format_date. cbn [object_truthy]. rewrite !truthy_int.
  replace (n =? 0) with false by (symmetry; apply Z.eqb_neq; lia).
  replace (n / 1000 =? 0) with false by (symmetry; apply Z.eqb_neq; lia).
  cbn [negb number_of as_number mbind result_bind].
  unfold to_seconds, gt_int, MILLIS_THRESHOLD, true_divide.
  replace (1000000000000 <? n) with true by (symmetry; apply Z.ltb_lt; lia).
  replace (1000000000000 <? n / 1000) with false
    by (symmetry; apply Z.ltb_ge; lia).
  assert (Hquotient : exists m e : Z, nearest_double n 1000 = Finite m e).
  { destruct (nearest_double n 1000) as [m e|negative|];
      [eexists _, _; reflexivity | discriminate Htv | discriminate Htv]. }
  destruct Hquotient as (m & e & Hq). rewrite Hq in Htv |- *.
  cbn [mbind result_bind]. unfold fromtimestamp. rewrite Htv.
  cbn [timeval].
  replace (time_t_range (n / 1000)) with true
    by (symmetry; unfold time_t_range;
        change (2 ^ 63) with 9223372036854775808;
        apply andb_true_iff; split; [apply Z.leb_le | apply Z.ltb_lt]; lia).
  cbn [mbind result_bind fst snd].
  rewrite (datetime_convertible utcoffset (n / 1000) us Hus).
  rewrite (datetime_convertible utcoffset (n / 1000) 0 ltac:(lia)).
  rewrite (convertible_second (n / 1000) us Hus).
  destruct (convertible utcoffset (n / 1000 * US_PER_SECOND + 0));
    [|reflexivity].
  cbn [mbind result_bind try_except_all].
  apply strftime_same_second.
  rewrite !local_reading_second by lia. reflexivity.
Qed.

(** X7.  One day later the count is one more: when the lead shows [d]
    days now, it shows [d + 1] at the instant 24 hours later, provided
    local time has the same UTC offset then and that instant is still a
    [datetime]. *)
Theorem days_in_copper_next_day (now n d : Z) :
  days_in_copper utcoffset now (PInt n) = PInt d ->
  utcoffset ((now + US_PER_DAY) / US_PER_SECOND)
  = utcoffset (now / US_PER_SECOND) ->
  representable utcoffset (now + US_PER_DAY) = true ->
  days_in_copper utcoffset (now + US_PER_DAY) (PInt n) = PInt (d + 1).
Proof using Type.
  unfold days_in_copper. cbn [object_truthy]. rewrite truthy_int.
  destruct (n =? 0); cbn [negb]; [discriminate|].
  cbn [number_of as_number mbind result_bind].
  destruct (to_seconds (Int n)) as [t|e];
    cbn [mbind result_bind try_except_all]; [|discriminate].
  destruct (fromtimestamp utcoffset t) as [created|e];
    cbn [mbind result_bind try_except_all]; [|discriminate].
  rewrite !datetime_now_convertible.
  destruct (convertible utcoffset now) eqn:Hnow;
    cbn [mbind result_bind try_except_all]; [|discriminate].
  intros Hd Hoffset Hlater. injection Hd as <-.
  assert (Hsecond : (now + US_PER_DAY) / US_PER_SECOND
                    = now / US_PER_SECOND + 86400).
  { unfold US_PER_DAY, US_PER_SECOND.
    replace (now + 86400000000) with (now + 86400 * 1000000) by lia.
    apply Z.div_add. lia. }
  assert (Hconvertible : convertible utcoffset (now + US_PER_DAY) = true).
  { unfold convertible, clock_set_back. rewrite Hlater. cbn [andb].
    rewrite Hsecond.
    replace (now / US_PER_SECOND + 86400 - 86400) with (now / US_PER_SECOND)
      by lia.
    rewrite <- Hsecond, Hoffset.
    rewrite <- (representable_second utcoffset now).
    unfold convertible in Hnow.
    apply andb_true_iff in Hnow as [Hnow _].
    apply andb_true_iff in Hnow as [-> _]. cbn [andb].
    replace (utcoffset (now / US_PER_SECOND) - utcoffset (now / US_PER_SECOND)
             <=? 0) with true by (symmetry; apply Z.leb_le; lia).
    reflexivity. }
  rewrite Hconvertible. cbn [mbind result_bind try_except_all].
  unfold local_reading. rewrite Hoffset. f_equal.
  replace (now + US_PER_DAY + utcoffset (now / US_PER_SECOND) * US_PER_SECOND
           - created)
    with (now + utcoffset (now / US_PER_SECOND) * US_PER_SECOND - created
          + 1 * US_PER_DAY) by lia.
  apply Z.div_add. unfold US_PER_DAY. lia.
Qed.

End MoreTimestamps.

Lemma format_date_millis_as_seconds_witness :
  format_date utc (PInt 1700000000123) = format_date utc (PInt 1700000000).
Proof.
  apply (format_date_millis_as_seconds utc 1700000000123).
  - reflexivity.
  - vm_compute. discriminate.
Defined.

Lemma days_in_copper_next_day_witness :
  days_in_copper utc (seconds 1762207200 + US_PER_DAY) (PInt 1700000000000)
  = PInt (719 + 1).
Proof.
  apply (days_in_copper_next_day utc (seconds 1762207200) 1700000000000 719);
    reflexivity.
Defined.

(** ** Recipient address and form data *)

Lemma first_listed_email_find (entries : list pyval) :
  first_listed_email entries
  = match find has_address entries with
    | Some entry => address_of entry
    | None => None
    end.
Proof.
  induction entries as [|entry rest IH]; [reflexivity|].
  cbn [first_listed_email find].
  destruct entry as [| | | | |e]; try exact IH.
  cbn [has_address address_of].
  destruct (dict_lookup e "email") eqn:He; [|exact IH].
  cbn [address_of]. rewrite He. reflexivity.
Qed.

Lemma primary_address_get (lead_details : dict) :
  match dict_get lead_details "email" (PDict []) with
  | PDict e => dict_lookup e "email"
  | _ => None
  end = primary_address lead_details.
Proof.
  unfold primary_address, dict_get.
  destruct (dict_lookup lead_details "email") as [[]|]; reflexivity.
Qed.

Lemma listed_address_get (lead_details : dict) :
  (if truthy (dict_get lead_details "emails" (PList [])) then
     match dict_get lead_details "emails" (PList []) with
     | PList l =>
         if (0 <? List.length l)%nat then first_listed_email l else None
     | _ => None
     end
   else None) = listed_address lead_details.
Proof.
  unfold listed_address, dict_get.
  destruct (dict_lookup lead_details "emails") as [[| | | |l|]|];
    cbn [default from_option id]; try reflexivity.
  - destruct (truthy (PBool b)); reflexivity.
  - destruct (truthy (PInt n)); reflexivity.
  - destruct (truthy (PStr s)); reflexivity.
  - destruct l as [|entry rest]; [reflexivity|].
    change (truthy (PList (entry :: rest))) with true.
    change (0 <? List.length (entry :: rest))%nat with true.
    cbv iota. apply first_listed_email_find.
  - destruct (truthy (PDict items)); reflexivity.
Qed.

Lemma contact_address_get (lead_details : dict) :
  match dict_get lead_details "contact_info" (PDict []) with
  | PDict c =>
      match dict_lookup c "email" with
      | Some address => address
      | None => PStr ""
      end
  | _ => PStr ""
  end = default (PStr "") (contact_address lead_details).
Proof.
  unfold contact_address, dict_get.
  destruct (dict_lookup lead_details "contact_info") as [[| | | | |c]|];
    reflexivity.
Qed.

(** X8.  [get_email_from_lead] takes the address of the lead's own
    email object when that object has one, whatever it is ([null]
    included); failing that, the address of the first entry of
    [emails] that has one; failing that, the address in the contact
    information; failing that, the empty string. *)
Theorem get_email_from_lead_order (lead_details : dict) :
  get_email_from_lead lead_details
  = match primary_address lead_details with
    | Some address => address
    | None =>
        match listed_address lead_details with
        | Some address => address
        | None => default (PStr "") (contact_address lead_details)
        end
    end.
Proof.
  unfold get_email_from_lead. cbv zeta.
  rewrite primary_address_get, listed_address_get, contact_address_get.
  reflexivity.
Qed.

(** A null address in the lead's own email object hides the usable one
    in [emails]. *)
Example get_email_from_lead_null_primary :
  get_email_from_lead
    [("email"%string, PDict [("email"%string, PNone)]);
     ("emails"%string,
      PList [PDict [("email"%string, PStr "ann@acme.io");
                    ("category"%string, PStr "work")]])]
  = PNone
  /\ get_email_from_lead
       [("email"%string, PNone);
        ("emails"%string,
         PList [PDict [("category"%string, PStr "work")];
                PDict [("email"%string, PStr "ann@acme.io")]])]
     = PStr "ann@acme.io".
Proof. split; reflexivity. Qed.

Lemma truthy_has_value (v : pyval) :
  truthy v = true -> negb (is_none v) && negb (eq_str v "") = true.
Proof.
  destruct v as [| | |s| |]; try discriminate; try reflexivity.
  cbn [truthy is_none eq_str negb andb]. intros H. exact H.
Qed.

Lemma any_field_with_value_filled (fields : list pyval) :
  0 < filled_fields fields -> any_field_with_value fields = true.
Proof.
  unfold filled_fields.
  induction fields as [|field rest IH]; [cbn; lia|].
  rewrite filter_cons. cbn [any_field_with_value].
  destruct (decide (is_filled field = true)) as [Hfilled|Hempty].
  - intros _. destruct field as [| | | | |f]; try discriminate.
    cbn [is_filled] in Hfilled.
    rewrite (truthy_has_value _ Hfilled). reflexivity.
  - intros Hrest. specialize (IH Hrest).
    destruct field as [| | | | |f]; try exact IH.
    destruct (negb (is_none _) && _); [reflexivity | exact IH].
Qed.

Lemma any_field_with_value_keys (d : dict) :
  any_field_with_value (map (fun kv => PStr kv.1) d) = false.
Proof. induction d as [|kv rest IH]; [reflexivity | exact IH]. Qed.

(** X9.  A lead in whose list of custom fields at least one has a
    truthy value has form data; a [custom_fields] that is a mapping
    from name to value never counts as form data, whatever it holds. *)
Theorem has_form_data_covers_filled (lead_details : dict) (custom_fields : pyval) :
  dict_lookup lead_details "custom_fields" = Some custom_fields ->
  (forall fields : list pyval,
      custom_fields = PList fields ->
      0 < filled_fields fields ->
      has_form_data lead_details = Ok true)
  /\ (forall mapping : dict,
        custom_fields = PDict mapping ->
        has_form_data lead_details = Ok false).
Proof.
  intros Hlookup.
  assert (Hget : dict_get lead_details "custom_fields" (PList [])
                 = custom_fields).
  { unfold dict_get. rewrite Hlookup. reflexivity. }
  unfold has_form_data. rewrite Hget. split.
  - intros fields -> Hfilled.
    destruct fields as [|field rest]; [discriminate Hfilled|].
    cbn [truthy negb iterate mbind result_bind].
    rewrite (any_field_with_value_filled _ Hfilled). reflexivity.
  - intros mapping ->. destruct mapping as [|kv rest]; [reflexivity|].
    cbn [truthy negb iterate mbind result_bind].
    rewrite any_field_with_value_keys. reflexivity.
Qed.

Lemma has_form_data_covers_filled_witness :
  has_form_data
    [("custom_fields"%string,
      PList [PDict [("name"%string, PStr "Stage"); ("value"%string, PNone)];
             PDict [("name"%string, PStr "Year Founded");
                    ("value"%string, PInt 2019)]])]
  = Ok true.
Proof.
  refine (proj1 (has_form_data_covers_filled
    [("custom_fields"%string,
      PList [PDict [("name"%string, PStr "Stage"); ("value"%string, PNone)];
             PDict [("name"%string, PStr "Year Founded");
                    ("value"%string, PInt 2019)]])]
    _ eq_refl) _ eq_refl _).
  reflexivity.
Defined.

(** A value that is [0] is form data although it is not a filled field
    for [get_lead_source]. *)
Example has_form_data_zero_value :
  has_form_data
    [("custom_fields"%string,
      PList [PDict [("name"%string, PStr "Cash on hand");
                    ("value"%string, PInt 0)]])]
  = Ok true
  /\ filled_fields
       [PDict [("name"%string, PStr "Cash on hand"); ("value"%string, PInt 0)]]
     = 0.
Proof. split; reflexivity. Qed.

(** ** Sessions with the mail server *)

Lemma first_failure_send_passes (EMAIL_ADDRESS : string)
    (recipients : list pyval) (env : smtp_env) :
  first_failure (steps EMAIL_ADDRESS recipients env) = None
  <-> send_passes env = true.
Proof.
  destruct env as [[?|] [?|] [?|] [?|] [?|] [?|] [?|]];
    cbn; split; intros H; try reflexivity; discriminate.
Qed.

(** What a call of [send_email] does once the credentials and the
    recipient are there. *)
Lemma send_email_run (EMAIL_ADDRESS EMAIL_PASSWORD : string) (env : smtp_env)
    (recipient_email subject body cc_email : pyval) (log : list smtp_call) :
  configured EMAIL_ADDRESS EMAIL_PASSWORD = true ->
  truthy recipient_email = true ->
  let recipients :=
    if truthy cc_email then [recipient_email; cc_email] else [recipient_email] in
  let run := steps EMAIL_ADDRESS recipients env in
  send_email EMAIL_ADDRESS EMAIL_PASSWORD env recipient_email subject body
    cc_email log
  = (log ++ calls_until_failure run,
     Ok match first_failure run with
        | Some e => (false, failure_message e)
        | None => (true, SENT)
        end).
Proof.
  unfold configured. intros Hconf%negb_true_iff Hrecipient.
  unfold send_email. rewrite Hconf, Hrecipient. cbn [negb].
  generalize (if truthy cc_email then [recipient_email; cc_email]
              else [recipient_email]).
  intros recipients.
  destruct env as [c1 c2 c3 c4 c5 c6 c7].
  unfold try_except, steps, mbind, smtp_bind, mret, smtp_ret, local_step,
    server_call.
  cbn [on_compose on_connect on_starttls on_login on_as_string on_sendmail
       on_quit].
  destruct c1 as [e|];
    [cbn -[handle send_email_handlers];
     rewrite handle_send_email, ?app_nil_r; reflexivity|].
  destruct c2 as [e|];
    [cbn -[handle send_email_handlers];
     rewrite handle_send_email, <- ?app_assoc; reflexivity|].
  destruct c3 as [e|];
    [cbn -[handle send_email_handlers];
     rewrite handle_send_email, <- ?app_assoc; reflexivity|].
  destruct c4 as [e|];
    [cbn -[handle send_email_handlers];
     rewrite handle_send_email, <- ?app_assoc; reflexivity|].
  destruct c5 as [e|];
    [cbn -[handle send_email_handlers];
     rewrite handle_send_email, <- ?app_assoc; reflexivity|].
  destruct c6 as [e|];
    [cbn -[handle send_email_handlers];
     rewrite handle_send_email, <- ?app_assoc; reflexivity|].
  destruct c7 as [e|];
    [cbn -[handle send_email_handlers];
     rewrite handle_send_email, <- ?app_assoc; reflexivity|].
  cbn. rewrite <- ?app_assoc. reflexivity.
Qed.

Lemma handle_test_email_connection (e : exn) :
  handle test_email_connection_handlers e
  = Ok (false, check_failure_message e).
Proof. destruct e as [c s]. destruct c; reflexivity. Qed.

Lemma check_calls_prefix (EMAIL_ADDRESS : string) (env : smtp_env) :
  calls_until_failure (check_steps EMAIL_ADDRESS env)
    `prefix_of` check_session EMAIL_ADDRESS
  /\ existsb is_sendmail (calls_until_failure (check_steps EMAIL_ADDRESS env))
     = false.
Proof.
  destruct env as [c1 c2 c3 c4 c5 c6 c7]. unfold check_steps, check_session.
  cbn [on_connect on_starttls on_login on_quit calls_until_failure].
  destruct c2; [split; [eexists|]; reflexivity|].
  destruct c3; [split; [eexists|]; reflexivity|].
  destruct c4; [split; [eexists|]; reflexivity|].
  destruct c7; (split; [eexists; cbn; rewrite ?app_nil_r|]; reflexivity).
Qed.

Lemma first_failure_check_passes (EMAIL_ADDRESS : string) (env : smtp_env) :
  first_failure (check_steps EMAIL_ADDRESS env) = None
  <-> check_passes env = true.
Proof.
  destruct env as [c1 [?|] [?|] [?|] c5 c6 [?|]];
    cbn; split; intros H; try reflexivity; discriminate.
Qed.

(** X11.  [test_email_connection] returns a pair for every answer of
    the server: [(True, ...)] exactly when the credentials are there and
    connecting, upgrading, logging in and quitting all return.  It makes
    the calls of a check session once each, in order, up to the first
    that raises, and never sends a message; without credentials it makes
    no call. *)
Theorem test_email_connection_outcome (EMAIL_ADDRESS EMAIL_PASSWORD : string)
    (env : smtp_env) (log : list smtp_call) :
  let run := check_steps EMAIL_ADDRESS env in
  let calls :=
    if configured EMAIL_ADDRESS EMAIL_PASSWORD then calls_until_failure run
    else [] in
  test_email_connection EMAIL_ADDRESS EMAIL_PASSWORD env log
  = (log ++ calls,
     Ok (if negb (configured EMAIL_ADDRESS EMAIL_PASSWORD)
         then (false, NOT_CONFIGURED)
         else match first_failure run with
              | Some e => (false, check_failure_message e)
              | None => (true, CONNECTION_OK)
              end))
  /\ calls `prefix_of` check_session EMAIL_ADDRESS
  /\ existsb is_sendmail calls = false
  /\ (first_failure run = None <-> check_passes env = true).
Proof.
  intros run calls. subst run calls.
  split; [|split; [|split]].
  - unfold test_email_connection, configured.
    destruct (String.eqb EMAIL_ADDRESS "" || String.eqb EMAIL_PASSWORD "").
    { cbn. rewrite app_nil_r. reflexivity. }
    cbn [negb].
    destruct env as [c1 c2 c3 c4 c5 c6 c7].
    unfold try_except, check_steps, mbind, smtp_bind, mret, smtp_ret,
      server_call.
    cbn [on_connect on_starttls on_login on_quit].
    destruct c2 as [e|];
      [cbn -[handle test_email_connection_handlers];
       rewrite handle_test_email_connection, <- ?app_assoc; reflexivity|].
    destruct c3 as [e|];
      [cbn -[handle test_email_connection_handlers];
       rewrite handle_test_email_connection, <- ?app_assoc; reflexivity|].
    destruct c4 as [e|];
      [cbn -[handle test_email_connection_handlers];
       rewrite handle_test_email_connection, <- ?app_assoc; reflexivity|].
    destruct c7 as [e|];
      [cbn -[handle test_email_connection_handlers];
       rewrite handle_test_email_connection, <- ?app_assoc; reflexivity|].
    cbn. rewrite <- ?app_assoc. reflexivity.
  - destruct (configured EMAIL_ADDRESS EMAIL_PASSWORD).
    + apply check_calls_prefix.
    + apply prefix_nil.
  - destruct (configured EMAIL_ADDRESS EMAIL_PASSWORD).
    + apply check_calls_prefix.
    + reflexivity.
  - apply first_failure_check_passes.
Qed.

Lemma send_passes_check_passes (env : smtp_env) :
  send_passes env = true -> check_passes env = true.
Proof.
  destruct env as [[?|] [?|] [?|] [?|] [?|] [?|] [?|]]; cbn;
    intros H; try reflexivity; discriminate.
Qed.

Lemma check_passes_run (EMAIL_ADDRESS EMAIL_PASSWORD : string)
    (env : smtp_env) (log : list smtp_call) :
  configured EMAIL_ADDRESS EMAIL_PASSWORD = true ->
  check_passes env = true ->
  test_email_connection EMAIL_ADDRESS EMAIL_PASSWORD env log
  = (log ++ check_session EMAIL_ADDRESS, Ok (true, CONNECTION_OK)).
Proof.
  unfold configured, test_email_connection.
  intros Hconf%negb_true_iff Hpass. rewrite Hconf.
  destruct env as [c1 [?|] [?|] [?|] c5 c6 [?|]]; try discriminate.
  unfold try_except, mbind, smtp_bind, mret, smtp_ret, server_call.
  cbn. rewrite <- ?app_assoc. reflexivity.
Qed.

(** X12.  Where [send_email] succeeds, the connection test succeeds
    too against the same answers of the server; a failing test
    therefore tells that sending would fail. *)
Theorem send_email_success_implies_test (EMAIL_ADDRESS EMAIL_PASSWORD : string)
    (env : smtp_env) (recipient_email subject body cc_email : pyval)
    (log log' log2 : list smtp_call) (message : string) :
  send_email EMAIL_ADDRESS EMAIL_PASSWORD env recipient_email subject body
    cc_email log = (log', Ok (true, message)) ->
  test_email_connection EMAIL_ADDRESS EMAIL_PASSWORD env log2
  = (log2 ++ check_session EMAIL_ADDRESS, Ok (true, CONNECTION_OK)).
Proof.
  intros Hsent.
  destruct (configured EMAIL_ADDRESS EMAIL_PASSWORD) eqn:Hconf.
  2:{ unfold configured in Hconf. apply negb_false_iff in Hconf.
      unfold send_email in Hsent. rewrite Hconf in Hsent. discriminate. }
  destruct (truthy recipient_email) eqn:Hrecipient.
  2:{ unfold configured in Hconf. apply negb_true_iff in Hconf.
      unfold send_email in Hsent. rewrite Hconf, Hrecipient in Hsent.
      discriminate. }
  rewrite (send_email_run _ _ _ _ _ _ _ _ Hconf Hrecipient) in Hsent.
  apply check_passes_run; [exact Hconf|].
  apply send_passes_check_passes.
  eapply first_failure_send_passes.
  destruct (first_failure _) eqn:Hfirst in Hsent; [discriminate|].
  exact Hfirst.
Qed.

Lemma send_email_success_implies_test_witness :
  test_email_connection "janed@activeimpact.vc" "app password" smtp_all_fine []
  = ([] ++ check_session "janed@activeimpact.vc", Ok (true, CONNECTION_OK)).
Proof.
  apply (send_email_success_implies_test "janed@activeimpact.vc"
           "app password" smtp_all_fine (PStr "ann@acme.io")
           (PStr "Re: your pitch") (PStr "Hi Ann") PNone []
           [Connect; StartTLS; Login "janed@activeimpact.vc";
            SendMail "janed@activeimpact.vc" [PStr "ann@acme.io"]; Quit]
           [] SENT).
  reflexivity.
Defined.

Lemma calls_of_passing_session (EMAIL_ADDRESS : string)
    (recipients : list pyval) (env : smtp_env) :
  send_passes env = true ->
  calls_until_failure (steps EMAIL_ADDRESS recipients env)
  = session EMAIL_ADDRESS recipients.
Proof.
  destruct env as [[?|] [?|] [?|] [?|] [?|] [?|] [?|]]; cbn;
    intros H; try reflexivity; discriminate.
Qed.

Lemma isinstance_Exception (e : exn) : isinstance e Exception = true.
Proof. destruct e as [c s]. destruct c; reflexivity. Qed.

(** X13.  Pressing Send Email for a selected lead never raises: the
    page gets the messages of [send_button_page], and the lead leaves
    the selection exactly when the message went out, that is when the
    recipient and the credentials are there, the connection check passes
    and every step of the sending session returns.  Then the calls made
    are one check session followed by one sending session and no error
    is shown; in every other case the first message on the page is an
    error.  No message is handed to the server unless the connection
    check passed. *)
Theorem send_button_removes_only_sent (EMAIL_ADDRESS EMAIL_PASSWORD : string)
    (check_env send_env : smtp_env) (lead_id : Z) (recipient_email : pyval)
    (edited_subject edited_content cc_email : string)
    (selected_leads : gmap Z pyval) (log : list smtp_call) (entry : pyval) :
  selected_leads !! lead_id = Some entry ->
  let checked :=
    truthy recipient_email && configured EMAIL_ADDRESS EMAIL_PASSWORD
    && check_passes check_env in
  let sent := checked && send_passes send_env in
  let recipients :=
    if truthy (PStr cc_email) then [recipient_email; PStr cc_email]
    else [recipient_email] in
  let shown :=
    send_button_page EMAIL_ADDRESS EMAIL_PASSWORD check_env send_env
      recipient_email cc_email in
  (exists calls : list smtp_call,
    send_button EMAIL_ADDRESS EMAIL_PASSWORD check_env send_env lead_id
      recipient_email edited_subject edited_content cc_email selected_leads
      log
    = (log ++ calls,
       Ok (shown, if sent then delete lead_id selected_leads
                  else selected_leads))
    /\ (existsb is_sendmail calls = true -> checked = true)
    /\ (sent = true ->
        calls = check_session EMAIL_ADDRESS
                ++ session EMAIL_ADDRESS recipients))
  /\ (sent = false ->
      exists (text : string) (rest : list ui_message),
        shown = StError text :: rest)
  /\ (sent = true -> existsb is_error shown = false).
Proof.
  intros Hselected checked sent recipients shown.
  subst checked sent shown. unfold send_button, send_button_page.
  rewrite Hselected.
  destruct (truthy recipient_email) eqn:Hrecipient; cbn [negb andb].
  2:{ split; [|split; [intros _; eexists _, _; reflexivity | discriminate]].
      exists []. rewrite app_nil_r. repeat split; discriminate. }
  destruct (configured EMAIL_ADDRESS EMAIL_PASSWORD) eqn:Hconf;
    pose proof Hconf as Hconf'; unfold configured in Hconf';
    [apply negb_true_iff in Hconf' | apply negb_false_iff in Hconf'];
    rewrite Hconf'; cbn [negb andb].
  2:{ split; [|split; [intros _; eexists _, _; reflexivity | discriminate]].
      exists []. rewrite app_nil_r. repeat split; discriminate. }
  unfold try_except, mbind at 1 2 3 4, smtp_bind, server_call.
  destruct check_env as [k1 k2 k3 k4 k5 k6 k7].
  unfold check_passes, check_steps.
  cbn [on_connect on_starttls on_login on_quit returns andb handle
       first_failure].
  destruct k2 as [e|].
  { rewrite isinstance_Exception. cbn [andb].
    split; [|split; [intros _; eexists _, _; reflexivity | discriminate]].
    exists [Connect]. repeat split; discriminate. }
  destruct k3 as [e|].
  { rewrite isinstance_Exception. cbn [andb].
    split; [|split; [intros _; eexists _, _; reflexivity | discriminate]].
    exists [Connect; StartTLS].
    rewrite <- app_assoc. repeat split; discriminate. }
  destruct k4 as [e|].
  { rewrite isinstance_Exception. cbn [andb].
    split; [|split; [intros _; eexists _, _; reflexivity | discriminate]].
    exists [Connect; StartTLS; Login EMAIL_ADDRESS].
    rewrite <- !app_assoc. repeat split; discriminate. }
  destruct k7 as [e|].
  { rewrite isinstance_Exception. cbn [andb].
    split; [|split; [intros _; eexists _, _; reflexivity | discriminate]].
    exists (check_session EMAIL_ADDRESS).
    rewrite <- !app_assoc. repeat split; discriminate. }
  cbn [andb]. unfold mbind, smtp_bind.
  rewrite (send_email_run _ _ _ _ _ _ _ _ Hconf Hrecipient).
  destruct (send_passes send_env) eqn:Hpasses.
  - pose proof (proj2 (first_failure_send_passes EMAIL_ADDRESS recipients
                         send_env) Hpasses) as Hfirst.
    subst recipients. rewrite Hfirst.
    rewrite (calls_of_passing_session _ _ _ Hpasses).
    cbn [fst snd mret smtp_ret].
    split; [|split; [discriminate|]].
    + eexists (check_session EMAIL_ADDRESS ++ session EMAIL_ADDRESS _).
      rewrite <- !app_assoc. repeat split; reflexivity.
    + intros _. unfold sent_messages.
      destruct (truthy (PStr cc_email)); reflexivity.
  - destruct (first_failure (steps EMAIL_ADDRESS recipients send_env))
      as [e|] eqn:Hfirst.
    + subst recipients. rewrite Hfirst. cbn [fst snd mret smtp_ret].
      split; [|split; [intros _; eexists _, _; reflexivity | discriminate]].
      eexists (check_session EMAIL_ADDRESS ++ calls_until_failure _).
      rewrite <- !app_assoc. repeat split; try reflexivity. discriminate.
    + apply first_failure_send_passes in Hfirst. congruence.
Qed.

Lemma send_button_removes_only_sent_witness :
  exists calls : list smtp_call,
    send_button "janed@activeimpact.vc" "app password" smtp_all_fine
      smtp_login_refused 42 (PStr "ann@acme.io") "Re: your pitch" "Hi Ann"
      EmptyString (<[42 := lead_42]> ∅) []
    = ([] ++ calls,
       Ok ([StError GMAIL_AUTH_HELP; StInfo CHECK_LOGS],
           <[42 := lead_42]> ∅)).
Proof.
  destruct (send_button_removes_only_sent "janed@activeimpact.vc"
              "app password" smtp_all_fine smtp_login_refused 42
              (PStr "ann@acme.io") "Re: your pitch" "Hi Ann" EmptyString
              (<[42 := lead_42]> ∅) [] lead_42
              (lookup_insert_eq (M := gmap Z) ∅ 42 lead_42))
    as ((calls & Hrun & _) & _).
  exists calls. exact Hrun.
Defined.

(** The check passes, the login of the sending session is refused: the
    page shows the message of [send_email] and the lead stays
    selected. *)
Example send_button_login_refused :
  send_button "janed@activeimpact.vc" "app password" smtp_all_fine
    smtp_login_refused 42 (PStr "ann@acme.io") "Re: your pitch" "Hi Ann"
    EmptyString (<[42 := lead_42]> ∅) []
  = ([Connect; StartTLS; Login "janed@activeimpact.vc"; Quit;
      Connect; StartTLS; Login "janed@activeimpact.vc"],
     Ok ([StError GMAIL_AUTH_HELP; StInfo CHECK_LOGS], <[42 := lead_42]> ∅)).
Proof. reflexivity. Qed.

(** ** A lead whose details cannot be fetched *)

(** X10.  When the CRM answers the request for a lead's details with
    a status other than 200, the panel is that of an empty lead: name
    and company unknown, creation date unknown, source "Manually
    Added", no email; the error text is shown and nothing is cached, so
    opening the panel again asks the CRM again. *)
Theorem failed_fetch_shows_blank_lead (utcoffset : Z -> Z) (crm : crm_oracle)
    (lead_id : Z) (days : pyval) (has_form_icon : string) (w : world)
    (resp : response) :
  LEAD_DETAILS_CACHE w !! lead_id = None ->
  crm (List.length (requests_sent w)) (LeadDetails lead_id) = Ok resp ->
  status_code resp <> 200 ->
  let '(w1, shown) :=
    lead_panel_head utcoffset crm lead_id days has_form_icon w in
  shown
  = Ok [ "**Name:** Unknown"%string;
         "**Company:** Unknown Company"%string;
         "**Created:** Unknown date"%string;
         ("**Days in Copper:** <span class='days-in-copper'>" +:+ py_str days
            +:+ "</span>")%string;
         "**Source:** <span class='manual-entry'>Manually Added</span>"%string;
         "**Email:** No email provided"%string ]
  /\ errors_shown w1
     = errors_shown w ++ ["Error fetching lead details: " +:+ text resp]
  /\ LEAD_DETAILS_CACHE w1 !! lead_id = None.
Proof.
  intros Hmiss Hcrm Hstatus. apply Z.eqb_neq in Hstatus.
  unfold lead_panel_head, fetch_lead_details.
  rewrite Hmiss, Hcrm, Hstatus.
  cbn [mbind result_bind as_dict].
  split; [|split; [reflexivity | exact Hmiss]].
  destruct (String.eqb has_form_icon ""); reflexivity.
Qed.

Lemma failed_fetch_shows_blank_lead_witness :
  (lead_panel_head utc crm_with_lead_42 7 (PInt 12) EmptyString initial_world).2
  = Ok [ "**Name:** Unknown"%string;
         "**Company:** Unknown Company"%string;
         "**Created:** Unknown date"%string;
         "**Days in Copper:** <span class='days-in-copper'>12</span>"%string;
         "**Source:** <span class='manual-entry'>Manually Added</span>"%string;
         "**Email:** No email provided"%string ].
Proof.
  pose proof (failed_fetch_shows_blank_lead utc crm_with_lead_42 7 (PInt 12)
                EmptyString initial_world
                {| status_code := 404;
                   json := Ok (PDict [("message"%string,
                                       PStr "Resource not found")]);
                   text := "Resource not found" |}
                (lookup_empty (M := gmap Z) 7) eq_refl) as H.
  destruct (lead_panel_head utc crm_with_lead_42 7 (PInt 12) EmptyString
              initial_world) as [w1 shown].
  apply H. discriminate.
Defined.

(** ** The list of leads *)

Lemma filter_leads_sublist (search_query : string) (leads filtered : list pyval) :
  filter_leads search_query leads = Ok filtered ->
  filtered `sublist_of` leads.
Proof.
  revert filtered.
  induction leads as [|lead rest IH]; intros filtered.
  - intros [= <-]. constructor.
  - cbn [filter_leads].
    destruct (lead_matches search_query lead) as [keep|e];
      cbn [mbind result_bind]; [|discriminate].
    destruct (filter_leads search_query rest) as [kept|e];
      cbn [mbind result_bind]; [|discriminate].
    intros [= <-]. specialize (IH kept eq_refl).
    destruct keep; [apply sublist_skip | apply sublist_cons]; exact IH.
Qed.

(** X14.  The page lists leads only when the request was answered
    with status 200 and a JSON body that is a non-empty list: what is
    listed is then a sublist of that body, in its order. *)
Theorem leads_shown_only_from_200 (get : http_outcome) (search_query : string)
    (filtered : list pyval) :
  leads_page_of (fetch_leads get) search_query = Ok (LeadsShown filtered) ->
  exists leads : list pyval,
    body_of_200 get = Some (PList leads)
    /\ leads <> []
    /\ filtered `sublist_of` leads.
Proof.
  assert (Herror : forall message,
    leads_page_of (error_result message) search_query
    = Ok (ErrorShown ("Error fetching leads from Copper: " +:+ message)))
    by reflexivity.
  unfold fetch_leads, body_of_200.
  destruct get as [response|str_e|str_e];
    try (rewrite Herror; intros H; discriminate H).
  destruct (status_code response =? 401) eqn:H401.
  { rewrite Herror. intros H. discriminate H. }
  destruct (status_code response =? 200); cbn [negb].
  2:{ rewrite Herror. intros H. discriminate H. }
  destruct (json response) as [body|e];
    [|rewrite Herror; intros H; discriminate H].
  unfold leads_page_of. cbv zeta.
  destruct body as [| | | |leads|d]; cbn [truthy negb];
    try (intros H; discriminate H).
  - destruct leads as [|lead rest]; cbn [truthy negb];
      [intros H; discriminate H|].
    destruct (negb (String.eqb search_query "")).
    + destruct (filter_leads search_query (lead :: rest)) as [kept|e] eqn:Hkept;
        cbn [mbind result_bind]; [|intros H; discriminate H].
      intros [= <-]. exists (lead :: rest).
      split; [reflexivity|]. split; [discriminate|].
      exact (filter_leads_sublist _ _ _ Hkept).
    + cbn [mbind result_bind]. intros [= <-]. exists (lead :: rest).
      split; [reflexivity|]. split; [discriminate | reflexivity].
  - destruct (dict_lookup d "error"); intros H; discriminate H.
Qed.

Lemma leads_shown_only_from_200_witness :
  exists leads : list pyval,
    body_of_200
      (Answered {| status_code := 200; json := Ok (PList sample_leads);
                   text := "[...]" |})
    = Some (PList leads)
    /\ leads <> []
    /\ [PDict [("id"%string, PInt 1); ("name"%string, PStr "Ann Lee");
               ("company_name"%string, PStr "Acme Solar")];
        PDict [("id"%string, PInt 3); ("name"%string, PStr "Solara Group")]]
       `sublist_of` leads.
Proof.
  apply (leads_shown_only_from_200 _ "SOLAR"). reflexivity.
Defined.

(** X15.  Whatever goes wrong with the request (an exception, a
    status other than 200, a body that is not JSON), the page shows an
    error and lists nothing. *)
Theorem failed_request_shows_error (get : http_outcome) (search_query : string) :
  body_of_200 get = None ->
  exists text : string,
    leads_page_of (fetch_leads get) search_query = Ok (ErrorShown text).
Proof.
  unfold fetch_leads, body_of_200.
  destruct get as [response|str_e|str_e]; try (intros _; eexists; reflexivity).
  destruct (status_code response =? 401) eqn:H401;
    [intros _; eexists; reflexivity|].
  destruct (status_code response =? 200); cbn [negb];
    [|intros _; eexists; reflexivity].
  destruct (json response); [discriminate|].
  intros _. eexists. reflexivity.
Qed.

Lemma failed_request_shows_error_witness :
  exists text : string,
    leads_page_of
      (fetch_leads
         (Answered {| status_code := 429; json := raise ValueError "no JSON";
                      text := "Too many requests" |}))
      "solar"
    = Ok (ErrorShown text).
Proof.
  apply failed_request_shows_error. reflexivity.
Defined.

Lemma lower_char_idempotent (c : ascii) :
  Str.lower_char (Str.lower_char c) = Str.lower_char c.
Proof. destruct c as [[] [] [] [] [] [] [] []]; reflexivity. Qed.

Lemma lower_idempotent (s : string) : Str.lower (Str.lower s) = Str.lower s.
Proof.
  induction s as [|c s IH]; [reflexivity|].
  cbn [Str.lower]. rewrite lower_char_idempotent, IH. reflexivity.
Qed.

Lemma dict_get_text_under (d : dict) (key s : string) :
  text_under d key = Some s -> dict_get d key (PStr "") = PStr s.
Proof.
  unfold text_under, dict_get.
  destruct (dict_lookup d key) as [[]|]; intros [= <-]; reflexivity.
Qed.

Lemma lead_matches_query_occurs (search_query : string) (lead : pyval) :
  lead_has_text lead = true ->
  lead_matches search_query lead = Ok (query_occurs search_query lead).
Proof.
  destruct lead as [| | | | |d]; try discriminate.
  cbn [lead_has_text query_occurs].
  destruct (text_under d "name") as [name|] eqn:Hname; [|discriminate].
  destruct (text_under d "company_name") as [company|] eqn:Hcompany;
    [|discriminate].
  intros _. unfold lead_matches. cbn [as_dict mbind result_bind].
  rewrite (dict_get_text_under _ _ _ Hname),
    (dict_get_text_under _ _ _ Hcompany).
  cbn [str_lower mbind result_bind].
  destruct (Str.contains (Str.lower search_query) (Str.lower name));
    reflexivity.
Qed.

Lemma lead_has_ascii_text_has_text (lead : pyval) :
  lead_has_ascii_text lead = true -> lead_has_text lead = true.
Proof.
  destruct lead as [| | | | |d]; try discriminate.
  cbn [lead_has_ascii_text lead_has_text].
  destruct (text_under d "name"); [|discriminate].
  destruct (text_under d "company_name"); [reflexivity | discriminate].
Qed.

(** X16.  For a query of ASCII characters and leads whose name and
    company name are ASCII texts (or absent), the list shown is exactly
    the leads in whose name or company name the query occurs, letter
    case apart, in the order of the CRM; and the case of the query
    itself never matters. *)
Theorem filter_leads_exact (search_query : string) (leads : list pyval) :
  is_ascii search_query = true ->
  forallb lead_has_ascii_text leads = true ->
  filter_leads search_query leads
  = Ok (List.filter (query_occurs search_query) leads)
  /\ filter_leads (Str.lower search_query) leads
     = filter_leads search_query leads.
Proof.
  intros _ Htext. split.
  - induction leads as [|lead rest IH]; [reflexivity|].
    cbn [forallb] in Htext. apply andb_true_iff in Htext as [Hlead Hrest].
    apply lead_has_ascii_text_has_text in Hlead.
    cbn [filter_leads List.filter].
    rewrite (lead_matches_query_occurs _ _ Hlead), (IH Hrest).
    cbn [mbind result_bind].
    destruct (query_occurs search_query lead); reflexivity.
  - clear Htext. induction leads as [|lead rest IH]; [reflexivity|].
    cbn [filter_leads]. rewrite IH.
    unfold lead_matches. rewrite lower_idempotent. reflexivity.
Qed.

Lemma filter_leads_exact_witness :
  filter_leads "SOLAR" sample_leads
  = Ok (List.filter (query_occurs "SOLAR") sample_leads)
  /\ filter_leads (Str.lower "SOLAR") sample_leads
     = filter_leads "SOLAR" sample_leads.
Proof.
  apply (filter_leads_exact "SOLAR" sample_leads); reflexivity.
Defined.

(** X17.  A single lead whose company name is [null] (or any value
    that is not a string) and whose name, an ASCII text, does not
    contain the ASCII query makes the whole search raise: no list is
    shown for that query. *)
Theorem filter_leads_null_company (search_query : string)
    (leads : list pyval) (d : dict) (name : string) (company : pyval) :
  is_ascii search_query = true ->
  is_ascii name = true ->
  In (PDict d) leads ->
  dict_get d "name" (PStr "") = PStr name ->
  Str.contains (Str.lower search_query) (Str.lower name) = false ->
  dict_lookup d "company_name" = Some company ->
  is_string company = false ->
  exists e : exn, filter_leads search_query leads = Raise e.
Proof.
  intros _ _ Hin Hname Hmiss Hcompany Hnull.
  assert (Hraise : exists e, lead_matches search_query (PDict d) = Raise e).
  { unfold lead_matches. cbn [as_dict mbind result_bind].
    rewrite Hname. cbn [str_lower mbind result_bind]. rewrite Hmiss.
    unfold dict_get. rewrite Hcompany. cbn [default from_option id].
    destruct company; try discriminate; eexists; reflexivity. }
  induction leads as [|lead rest IH]; [destruct Hin|].
  cbn [filter_leads].
  destruct (lead_matches search_query lead) as [keep|e] eqn:Hlead;
    cbn [mbind result_bind]; [|eexists; reflexivity].
  destruct Hin as [-> | Hin].
  - destruct Hraise as [e He]. congruence.
  - destruct (IH Hin) as [e ->]. eexists. reflexivity.
Qed.

Lemma filter_leads_null_company_witness :
  exists e : exn,
    filter_leads "solar"
      [PDict [("name"%string, PStr "Ann Lee");
              ("company_name"%string, PStr "Acme Solar")];
       PDict [("name"%string, PStr "Bo Chen"); ("company_name"%string, PNone)]]
    = Raise e.
Proof.
  apply (filter_leads_null_company "solar" _
           [("name"%string, PStr "Bo Chen"); ("company_name"%string, PNone)]
           "Bo Chen" PNone).
  - reflexivity.
  - reflexivity.
  - right. left. reflexivity.
  - reflexivity.
  - reflexivity.
  - reflexivity.
  - reflexivity.
Defined.

(** ** Checking the CRM credentials *)

(** X18.  [verify_copper_config] makes no request without both
    credentials and one request with them; it reports success exactly
    when that request is answered with status 200, and then
    [fetch_leads], given the same answer, reports no error of its own:
    it returns the JSON body. *)
Theorem verify_copper_config_success (COPPER_API_TOKEN COPPER_EMAIL : string)
    (get : http_outcome) (requests : nat) (message : string) :
  verify_copper_config COPPER_API_TOKEN COPPER_EMAIL get
  = (requests, (true, message)) ->
  requests = 1%nat
  /\ COPPER_API_TOKEN <> EmptyString
  /\ COPPER_EMAIL <> EmptyString
  /\ message = COPPER_VERIFIED
  /\ exists response : response,
       get = Answered response
       /\ status_code response = 200
       /\ forall body : pyval,
            json response = Ok body -> fetch_leads get = body.
Proof.
  unfold verify_copper_config.
  destruct (String.eqb COPPER_API_TOKEN "") eqn:Htoken; [discriminate|].
  destruct (String.eqb COPPER_EMAIL "") eqn:Hemail; [discriminate|].
  cbn [orb].
  destruct get as [response|str_e|str_e]; try discriminate.
  destruct (status_code response =? 401) eqn:H401; [discriminate|].
  destruct (status_code response =? 200) eqn:H200; cbn [negb];
    [|discriminate].
  intros [= <- <-].
  split; [reflexivity|].
  split; [apply String.eqb_neq, Htoken|].
  split; [apply String.eqb_neq, Hemail|].
  split; [reflexivity|].
  exists response. split; [reflexivity|].
  split; [apply Z.eqb_eq, H200|].
  intros body Hbody. unfold fetch_leads. rewrite H401, H200, Hbody.
  reflexivity.
Qed.

Lemma verify_copper_config_success_witness :
  fetch_leads
    (Answered {| status_code := 200; json := Ok (PList sample_leads);
                 text := "[...]" |})
  = PList sample_leads.
Proof.
  destruct (verify_copper_config_success "token" "janed@activeimpact.vc"
              (Answered {| status_code := 200; json := Ok (PList sample_leads);
                           text := "[...]" |})
              1 COPPER_VERIFIED eq_refl)
    as (_ & _ & _ & _ & response & Hget & _ & Hbody).
  injection Hget as <-. apply Hbody. reflexivity.
Defined.

(** Without credentials no request is made, whatever the CRM would
    answer. *)
Example verify_copper_config_no_request :
  forall get : http_outcome,
    verify_copper_config "" "janed@activeimpact.vc" get
    = (O, (false, COPPER_NOT_CONFIGURED)).
Proof. reflexivity. Qed.

(** ** Form details *)

Lemma getitem_setitem_int (m : list (pyval * pyval)) (k id : Z) (v : pyval) :
  keys_are_int m ->
  keys_are_int (setitem m (PInt k) v)
  /\ getitem (setitem m (PInt k) v) (PInt id)
     = if k =? id then Some v else getitem m (PInt id).
Proof.
  unfold keys_are_int.
  induction m as [|[k' v'] rest IH]; intros Hkeys.
  - split; [repeat constructor; eexists; reflexivity|].
    cbn [setitem getitem key_eqb as_number]. reflexivity.
  - apply Forall_cons in Hkeys as [[a Ha] Hrest]. cbn [fst] in Ha. subst k'.
    destruct (IH Hrest) as [IHkeys IHget].
    cbn [setitem key_eqb as_number].
    destruct (a =? k) eqn:Hak.
    + apply Z.eqb_eq in Hak. subst a. split.
      * constructor; [eexists; reflexivity | exact Hrest].
      * cbn [getitem key_eqb as_number]. destruct (k =? id); reflexivity.
    + split.
      * constructor; [eexists; reflexivity | exact IHkeys].
      * cbn [getitem key_eqb as_number]. rewrite IHget.
        destruct (a =? id) eqn:Haid; [|reflexivity].
        apply Z.eqb_eq in Haid. subst id. rewrite Z.eqb_sym, Hak.
        reflexivity.
Qed.

Lemma find_snoc {A : Type} (P : A -> bool) (l : list A) (x : A) :
  find P (l ++ [x])
  = match find P l with
    | Some y => Some y
    | None => if P x then Some x else None
    end.
Proof.
  induction l as [|y l IH]; [reflexivity|].
  cbn [app find]. destruct (P y); [reflexivity | exact IH].
Qed.

Lemma found_is_dict (id : Z) (fields : list pyval) (y : pyval) :
  find (has_definition_id id) fields = Some y -> exists f : dict, y = PDict f.
Proof.
  intros [_ Hy]%find_some. destruct y; try discriminate. eexists. reflexivity.
Qed.

Lemma fill_field_by_id_last (fields : list pyval) :
  forallb field_id_is_int fields = true ->
  forall acc : list (pyval * pyval),
    keys_are_int acc ->
    exists m : list (pyval * pyval),
      fill_field_by_id fields acc = Ok m
      /\ keys_are_int m
      /\ forall id : Z,
           id <> 0 ->
           getitem m (PInt id)
           = match find (has_definition_id id) (rev fields) with
             | Some (PDict f) => Some (field_result f)
             | _ => getitem acc (PInt id)
             end.
Proof.
  induction fields as [|field rest IH]; intros Hint acc Hacc.
  - exists acc. split; [reflexivity|]. split; [exact Hacc|].
    intros id _. reflexivity.
  - cbn [forallb] in Hint. apply andb_true_iff in Hint as [Hfield Hrest].
    cbn [fill_field_by_id rev].
    destruct field as [| | | | |f];
      try (destruct (IH Hrest acc Hacc) as (m & Hm & Hkeys & Hget);
           exists m; split; [exact Hm|]; split; [exact Hkeys|];
           intros id Hid; rewrite find_snoc, (Hget id Hid);
           destruct (find (has_definition_id id) (rev rest)) as [[]|];
           reflexivity).
    cbn [field_id_is_int] in Hfield.
    destruct (dict_get f "custom_field_definition_id" PNone)
      as [| |n| | |] eqn:Hid_of; try discriminate.
    + cbn [truthy].
      destruct (IH Hrest acc Hacc) as (m & Hm & Hkeys & Hget).
      exists m. split; [exact Hm|]. split; [exact Hkeys|].
      intros id Hid. rewrite find_snoc, (Hget id Hid).
      cbn [has_definition_id]. rewrite Hid_of.
      destruct (find (has_definition_id id) (rev rest)) as [[]|]; reflexivity.
    + cbn [truthy hashable].
      destruct (n =? 0) eqn:Hn; cbn [negb].
      * apply Z.eqb_eq in Hn. subst n.
        destruct (IH Hrest acc Hacc) as (m & Hm & Hkeys & Hget).
        exists m. split; [exact Hm|]. split; [exact Hkeys|].
        intros id Hid. rewrite find_snoc, (Hget id Hid).
        cbn [has_definition_id]. rewrite Hid_of.
        replace (0 =? id) with false by (symmetry; apply Z.eqb_neq; lia).
        destruct (find (has_definition_id id) (rev rest)) as [[]|];
          reflexivity.
      * destruct (getitem_setitem_int acc n 0 (field_result f) Hacc)
          as [Hkeys' _].
        destruct (IH Hrest _ Hkeys') as (m & Hm & Hkeys & Hget).
        exists m. split; [exact Hm|]. split; [exact Hkeys|].
        intros id Hid. rewrite find_snoc, (Hget id Hid).
        cbn [has_definition_id]. rewrite Hid_of.
        rewrite (proj2 (getitem_setitem_int acc n id (field_result f) Hacc)).
        destruct (find (has_definition_id id) (rev rest)) as [y|] eqn:Hfind.
        -- destruct (found_is_dict _ _ _ Hfind) as [f0 ->]. reflexivity.
        -- destruct (n =? id); reflexivity.
Qed.

(** X19.  For custom fields whose definition ids are integers, the
    table built for the form holds, under each id other than [0], the
    value of the last field carrying that id (computed value if
    present, lists joined, else raw value), and nothing under an id no
    field carries. *)
Theorem build_field_by_id_last (lead_details : dict) (fields : list pyval) :
  dict_lookup lead_details "custom_fields" = Some (PList fields) ->
  forallb field_id_is_int fields = true ->
  exists field_by_id : list (pyval * pyval),
    build_field_by_id lead_details = Ok field_by_id
    /\ forall id : Z,
         id <> 0 ->
         getitem field_by_id (PInt id)
         = match find (has_definition_id id) (rev fields) with
           | Some (PDict f) => Some (field_result f)
           | _ => None
           end.
Proof.
  intros Hlookup Hint.
  assert (Hempty : keys_are_int []) by constructor.
  destruct (fill_field_by_id_last fields Hint [] Hempty)
    as (m & Hm & _ & Hget).
  exists m. split; [|exact Hget].
  unfold build_field_by_id, dict_get. rewrite Hlookup.
  cbn [default from_option id iterate mbind result_bind]. exact Hm.
Qed.

Lemma build_field_by_id_last_witness :
  exists field_by_id : list (pyval * pyval),
    build_field_by_id
      [("custom_fields"%string,
        PList [PDict [("custom_field_definition_id"%string, PInt 328941);
                      ("value"%string, PInt 2018)];
               PDict [("custom_field_definition_id"%string, PInt 328943);
                      ("value"%string, PInt 7);
                      ("computed_value"%string, PStr "SaaS")];
               PDict [("custom_field_definition_id"%string, PInt 328941);
                      ("value"%string, PInt 2019)]])]
    = Ok field_by_id
    /\ getitem field_by_id (PInt 328941) = Some (PInt 2019).
Proof.
  destruct (build_field_by_id_last
    [("custom_fields"%string,
      PList [PDict [("custom_field_definition_id"%string, PInt 328941);
                    ("value"%string, PInt 2018)];
             PDict [("custom_field_definition_id"%string, PInt 328943);
                    ("value"%string, PInt 7);
                    ("computed_value"%string, PStr "SaaS")];
             PDict [("custom_field_definition_id"%string, PInt 328941);
                    ("value"%string, PInt 2019)]])]
    _ eq_refl eq_refl) as (m & Hm & Hget).
  exists m. split; [exact Hm|].
  rewrite (Hget 328941) by discriminate. reflexivity.
Defined.

Lemma strings_of_total (parts : list pyval) :
  forallb is_string parts = true ->
  exists strings : list string, strings_of parts = Ok strings.
Proof.
  induction parts as [|part rest IH]; [eexists; reflexivity|].
  cbn [forallb]. intros [Hpart Hrest]%andb_true_iff.
  destruct part; try discriminate.
  destruct (IH Hrest) as [strings Hstrings].
  cbn [strings_of]. rewrite Hstrings. eexists. reflexivity.
Qed.

Lemma append_part_strings (a : dict) (key : string) (parts : list pyval) :
  text_or_empty (dict_get a key PNone) = true ->
  forallb is_string parts = true ->
  forallb is_string (append_part a key parts) = true.
Proof.
  unfold append_part, text_or_empty, dict_get.
  destruct (dict_lookup a key) as [v|]; cbn [default from_option id];
    [|intros _ H; exact H].
  intros Htext Hparts.
  destruct (truthy v) eqn:Htruthy; [|exact Hparts].
  rewrite forallb_app, Hparts. cbn [forallb negb orb andb] in *.
  rewrite orb_false_r in Htext. rewrite Htext. reflexivity.
Qed.

Lemma blank_or_not_provided (value : pyval) :
  blank (if is_none value || eq_str value "" then PStr NOT_PROVIDED else value)
  = false.
Proof.
  unfold blank.
  destruct (is_none value || eq_str value "") eqn:H; [reflexivity | exact H].
Qed.

Lemma address_get (lead_details : dict) :
  address_ok lead_details = true ->
  exists a : dict,
    dict_get lead_details "address" (PDict []) = PDict a
    /\ forallb (fun key => text_or_empty (dict_get a key PNone))
         ["street"; "city"; "state"; "postal_code"; "country"]%string = true.
Proof.
  unfold address_ok, dict_get.
  destruct (dict_lookup lead_details "address") as [[| | | | |a]|];
    try discriminate.
  - intros H. exists a. split; [reflexivity | exact H].
  - intros _. exists []. split; reflexivity.
Qed.

Lemma websites_value (lead_details : dict) :
  websites_ok lead_details = true ->
  exists v : pyval,
    (let websites := dict_get lead_details "websites" (PList []) in
     if truthy websites then
       n ← py_len websites;
       if 0 <? n then
         first ← first_item websites;
         site ← as_dict first;
         Ok (dict_get site "url" (PStr NOT_PROVIDED))
       else Ok (PStr NOT_PROVIDED)
     else Ok (PStr NOT_PROVIDED)) = Ok v.
Proof.
  unfold websites_ok, dict_get. cbv zeta.
  destruct (dict_lookup lead_details "websites") as [v|];
    cbn [default from_option id]; [|intros _; eexists; reflexivity].
  destruct v as [| | | |[|[| | | | |site] rest]|];
    cbn [truthy negb]; intros H; try discriminate;
    try (eexists; reflexivity).
  all: try (rewrite (proj1 (negb_true_iff _) H); eexists; reflexivity).
  all: try (destruct items; [eexists; reflexivity | discriminate]).
Qed.

Lemma form_value_total (lead_details : dict)
    (field_by_id : list (pyval * pyval)) (field_name : string) :
  address_ok lead_details = true ->
  websites_ok lead_details = true ->
  exists v : pyval,
    form_value lead_details field_by_id field_name = Ok v
    /\ blank v = false.
Proof.
  intros Haddress Hwebsites.
  destruct (address_get _ Haddress) as (a & Ha & Hparts).
  destruct (websites_value _ Hwebsites) as (site & Hsite).
  cbn [forallb] in Hparts.
  apply andb_true_iff in Hparts as [Hstreet Hparts].
  apply andb_true_iff in Hparts as [Hcity Hparts].
  apply andb_true_iff in Hparts as [Hstate Hparts].
  apply andb_true_iff in Hparts as [Hpostal Hparts].
  apply andb_true_iff in Hparts as [Hcountry _].
  assert (Hhq : forallb is_string
                  (append_part a "country"
                     (append_part a "postal_code"
                        (append_part a "state"
                           (append_part a "city"
                              (append_part a "street" []))))) = true).
  { repeat (apply append_part_strings; [assumption|]). reflexivity. }
  destruct (strings_of_total _ Hhq) as [strings Hstrings].
  unfold form_value. cbv zeta in Hsite |- *. rewrite Hsite, Ha.
  cbn [as_dict mbind result_bind]. rewrite Hstrings.
  cbn [mbind result_bind].
  repeat match goal with
         | |- context [if ?b then _ else _] =>
             lazymatch b with
             | is_none _ || _ => fail
             | _ => destruct b
             end
         end;
    try (eexists; split; [reflexivity | apply blank_or_not_provided]).
  all: destruct (lookup_field_id field_id_mapping field_name) as [id|];
    [destruct (getitem field_by_id (PInt id)) as [v|];
     [destruct (negb (is_none v || eq_str v ""))|]|];
    eexists; (split; [reflexivity | apply blank_or_not_provided]).
Qed.

Lemma form_rows_loop_total (lead_details : dict)
    (field_by_id : list (pyval * pyval)) (names : list string) :
  address_ok lead_details = true ->
  websites_ok lead_details = true ->
  exists values : list pyval,
    form_rows_loop lead_details field_by_id names
    = Ok (zip_with form_row names values)
    /\ length values = length names
    /\ Forall (fun v => blank v = false) values.
Proof.
  intros Haddress Hwebsites.
  induction names as [|field_name rest IH].
  - exists []. repeat split. constructor.
  - destruct IH as (values & Hrows & Hlength & Hvalues).
    destruct (form_value_total lead_details field_by_id field_name
                Haddress Hwebsites) as (v & Hv & Hblank).
    exists (v :: values). cbn [form_rows_loop]. rewrite Hv, Hrows.
    split; [reflexivity|]. split; [cbn; rewrite Hlength; reflexivity|].
    constructor; assumption.
Qed.

(** X20.  For a lead of the documented shape the form has one row for
    each of the 27 fields of [field_order], in that order, and no row
    shows [None] or an empty value: what is missing reads "Not
    provided". *)
Theorem form_rows_complete (lead_details : dict) :
  form_shape_ok lead_details = true ->
  exists values : list pyval,
    form_rows lead_details = Ok (zip_with form_row field_order values)
    /\ length values = 27%nat
    /\ Forall (fun v => blank v = false) values.
Proof.
  unfold form_shape_ok.
  intros [[Haddress Hwebsites]%andb_true_iff Hfields]%andb_true_iff.
  assert (Hbuild : exists m, build_field_by_id lead_details = Ok m).
  { unfold custom_fields_ok in Hfields. unfold build_field_by_id, dict_get.
    destruct (dict_lookup lead_details "custom_fields") as [[| | | |fields|]|];
      try discriminate; cbn [default from_option id iterate mbind result_bind].
    - assert (Hempty : keys_are_int []) by constructor.
      destruct (fill_field_by_id_last fields Hfields [] Hempty)
        as (m & Hm & _). exists m. exact Hm.
    - eexists. reflexivity. }
  destruct Hbuild as [m Hm].
  destruct (form_rows_loop_total lead_details m field_order Haddress Hwebsites)
    as (values & Hrows & Hlength & Hvalues).
  exists values. unfold form_rows. rewrite Hm. cbn [mbind result_bind].
  split; [exact Hrows|]. split; [exact Hlength | exact Hvalues].
Qed.

Lemma form_rows_complete_witness :
  exists values : list pyval,
    form_rows
      [("first_name"%string, PStr "Ann"); ("last_name"%string, PNone);
       ("address"%string,
        PDict [("street"%string, PStr "1 Main St"); ("city"%string, PNone);
               ("country"%string, PStr "Canada")]);
       ("custom_fields"%string,
        PList [PDict [("custom_field_definition_id"%string, PInt 328941);
                      ("value"%string, PInt 2019)]])]
    = Ok (zip_with form_row field_order values)
    /\ length values = 27%nat
    /\ Forall (fun v => blank v = false) values.
Proof.
  apply form_rows_complete. reflexivity.
Defined.

(** The first rows of such a form, and a lead whose address is [null]:
    the rows of its address raise, and with them the whole panel. *)
Example form_rows_examples :
  (rows ← form_rows
             [("first_name"%string, PStr "Ann"); ("last_name"%string, PNone);
              ("address"%string,
               PDict [("street"%string, PStr "1 Main St");
                      ("city"%string, PNone);
                      ("country"%string, PStr "Canada")]);
              ("custom_fields"%string,
               PList [PDict [("custom_field_definition_id"%string, PInt 328941);
                             ("value"%string, PInt 2019)]])];
   Ok (take 2 rows, rows !! 5%nat, rows !! 12%nat))
  = Ok (["<p><span class='email-label'>First Name:</span> Ann</p>"%string;
         "<p><span class='email-label'>Last Name:</span> Not provided</p>"%string],
        Some "<p><span class='email-label'>HQ Address:</span> 1 Main St, Canada</p>"%string,
        Some "<p><span class='email-label'>Year Founded:</span> 2019</p>"%string)
  /\ form_rows [("first_name"%string, PStr "Ann"); ("address"%string, PNone)]
     = raise AttributeError "object has no attribute 'get'".
Proof. split; vm_compute; reflexivity. Qed.

(** ** The activity-log script *)

Lemma print_activities_lines (activities : list pyval) :
  forall printed printed' : list string,
    print_activities activities printed = (printed', Ok tt) ->
    length printed' = (length printed + length activities)%nat.
Proof.
  induction activities as [|activity rest IH]; intros printed printed'.
  - intros [= <-]. cbn. lia.
  - cbn [print_activities].
    destruct (activity_line activity) as [line|e]; [|discriminate].
    intros Hrest. rewrite (IH _ _ Hrest), length_app. cbn. lia.
Qed.

Lemma print_activities_not_dicts (activities : list pyval)
    (printed printed' : list string) :
  activities <> [] ->
  Forall (fun activity => is_string activity = true) activities ->
  print_activities activities printed <> (printed', Ok tt).
Proof.
  destruct activities as [|activity rest]; [congruence|].
  intros _ Hall. apply Forall_cons in Hall as [Hactivity _].
  destruct activity; discriminate.
Qed.

(** X21.  Whenever [fetch_activity_logs] returns, it returns a list,
    and it has printed one entry more than the list has activities: a
    heading and a line per activity, or the one line that says why the
    list is empty (no activity, or the error text of the CRM). *)
Theorem fetch_activity_logs_returns_list (post : result response)
    (printed : list string) (returned : pyval) :
  fetch_activity_logs post = (printed, Ok returned) ->
  exists activities : list pyval,
    returned = PList activities
    /\ length printed = S (length activities).
Proof.
  unfold fetch_activity_logs.
  destruct post as [response|e]; [|discriminate].
  destruct (status_code response =? 200).
  2:{ intros [= <- <-]. exists []. split; reflexivity. }
  destruct (json response) as [activities|e]; [|discriminate].
  destruct (truthy activities) eqn:Htruthy; cbn [negb].
  2:{ intros [= <- <-]. exists []. split; reflexivity. }
  destruct (iterate activities) as [items|e] eqn:Hitems; [|discriminate].
  destruct (print_activities items [nl +:+ "Recent Activity Logs:"])
    as [printed' [[]|e]] eqn:Hprint; [|discriminate].
  intros [= <- <-].
  destruct activities as [| | |s|l|d]; try discriminate.
  - exfalso. cbn [iterate] in Hitems. injection Hitems as <-.
    refine (print_activities_not_dicts _ _ _ _ _ Hprint).
    + destruct s; [discriminate Htruthy | discriminate].
    + apply Forall_forall. unfold Str.chars.
      intros x Hx. apply list_elem_of_In, in_map_iff in Hx as (y & <- & _).
      reflexivity.
  - cbn [iterate] in Hitems. injection Hitems as <-.
    exists l. split; [reflexivity|].
    rewrite (print_activities_lines _ _ _ Hprint). reflexivity.
  - exfalso. cbn [iterate] in Hitems. injection Hitems as <-.
    refine (print_activities_not_dicts _ _ _ _ _ Hprint).
    + destruct d; [discriminate Htruthy | discriminate].
    + apply Forall_forall.
      intros x Hx. apply list_elem_of_In, in_map_iff in Hx as (y & <- & _).
      reflexivity.
Qed.

Lemma fetch_activity_logs_returns_list_witness :
  exists activities : list pyval,
    PList [PDict [("type"%string, PStr "user");
                  ("parent"%string,
                   PDict [("type"%string, PStr "lead"); ("id"%string, PInt 42)]);
                  ("activity_date"%string, PInt 1700000000)]]
    = PList activities
    /\ length
         [nl +:+ "Recent Activity Logs:";
          "- Type: user | Parent Type: lead | Parent ID: 42 | Date: 1700000000"%string]
       = S (length activities).
Proof.
  apply (fetch_activity_logs_returns_list
           (Ok {| status_code := 200;
                  json := Ok (PList
                    [PDict [("type"%string, PStr "user");
                            ("parent"%string,
                             PDict [("type"%string, PStr "lead");
                                    ("id"%string, PInt 42)]);
                            ("activity_date"%string, PInt 1700000000)]]);
                  text := "[...]" |})).
  reflexivity.
Defined.

(** An activity whose parent is [null] stops the listing with an
    exception, after the lines of the activities before it. *)
Example fetch_activity_logs_null_parent :
  fetch_activity_logs
    (Ok {| status_code := 200;
           json := Ok (PList [PDict [("type"%string, PStr "user")];
                              PDict [("type"%string, PStr "system");
                                     ("parent"%string, PNone)]]);
           text := "[...]" |})
  = ([nl +:+ "Recent Activity Logs:";
      "- Type: user | Parent Type: N/A | Parent ID: N/A | Date: Unknown"%string],
     raise AttributeError "object has no attribute 'get'").
Proof. reflexivity. Qed.

(** ** Lead source, continued *)

Lemma any_form_tag_first_hit (before after : list pyval) (tag : string) :
  forallb is_string before = true ->
  Str.contains "form" (Str.lower tag) = true ->
  any_form_tag (before ++ PStr tag :: after) = Ok true.
Proof.
  intros Hbefore Hhit.
  induction before as [|t rest IH].
  - cbn [app any_form_tag str_lower mbind result_bind]. rewrite Hhit.
    reflexivity.
  - cbn [forallb] in Hbefore. apply andb_true_iff in Hbefore as [Ht Hrest].
    destruct t; try discriminate.
    cbn [app any_form_tag str_lower mbind result_bind].
    destruct (Str.contains "form" (Str.lower s)); [reflexivity|].
    exact (IH Hrest).
Qed.

(** X22.  A tag that contains "form" decides the source on its own:
    when the tags up to it are strings, the lead is a form submission
    whatever its other tags, its source and its custom fields hold,
    wrongly typed values included. *)
Theorem get_lead_source_form_tag_decides (lead_details : dict)
    (before after : list pyval) (tag : string) :
  dict_lookup lead_details "tags" = Some (PList (before ++ PStr tag :: after)) ->
  forallb is_string before = true ->
  Str.contains "form" (Str.lower tag) = true ->
  get_lead_source lead_details = Ok FORM_SUBMISSION.
Proof.
  intros Htags Hbefore Hhit.
  assert (Hget : dict_get lead_details "tags" (PList [])
                 = PList (before ++ PStr tag :: after)).
  { unfold dict_get. rewrite Htags. reflexivity. }
  unfold get_lead_source. rewrite Hget.
  cbn [iterate mbind result_bind].
  rewrite (any_form_tag_first_hit before after tag Hbefore Hhit).
  reflexivity.
Qed.

Lemma get_lead_source_form_tag_decides_witness :
  get_lead_source
    [("tags"%string, PList [PStr "climate"; PStr "Web-Form 2024"; PInt 7]);
     ("source"%string, PDict [("name"%string, PInt 3)]);
     ("custom_fields"%string, PInt 1)]
  = Ok FORM_SUBMISSION.
Proof.
  apply (get_lead_source_form_tag_decides _ [PStr "climate"] [PInt 7]
           "Web-Form 2024"); reflexivity.
Defined.
